(** * Gemma 3 checkpoint conversion (Orbax tree to HF state dict)

    A shallow embedding of
    [src/transformers/models/gemma3/convert_gemma3_weights_orbax_to_hf.py]:
    the two rule tables [_convert_siglip_weight] and
    [_convert_transformer_weights], the orchestrator [convert] with its
    local [update_tree], and the fragments of Python strings, tuple
    unpacking, NumPy arrays and torch tensors those functions rely on.

    Layout of the file:
    - [PyStr], the Python [str] methods used by the converter;
    - exceptions and the [result] monad;
    - NumPy arrays as a shape and a row-major buffer, NumPy scalars;
    - configuration records and module constants;
    - the converter itself;
    - the vocabulary of the properties, the checkpoint layout, sample
      inputs;
    - facts about strings and arrays;
    - the properties of the two rule tables and of the orchestrator;
    - element laws of the remaining rules, conservation, the dispatch of
      the vision table, more on the orchestrator, [transpose_reshape]. *)

From stdpp Require Import base gmap strings list pretty.
From Stdlib Require Import ZArith Lia Ascii.

Local Open Scope Z_scope.

(* ===================================================================== *)
(** ** Python strings *)
(* ===================================================================== *)

Module PyStr.

(** [len(s)] *)
Definition len (s : string) : Z := Z.of_nat (String.length s).

(** [s.startswith(p)] *)
Fixpoint startswith (s p : string) : bool :=
  match p, s with
  | EmptyString, _ => true
  | String _ _, EmptyString => false
  | String a p', String b s' =>
      if Ascii.eqb a b then startswith s' p' else false
  end.

Fixpoint drop (n : nat) (s : string) : string :=
  match n, s with
  | O, _ => s
  | S _, EmptyString => EmptyString
  | S n', String _ s' => drop n' s'
  end.

Fixpoint take (n : nat) (s : string) : string :=
  match n, s with
  | O, _ => EmptyString
  | S _, EmptyString => EmptyString
  | S n', String a s' => String a (take n' s')
  end.

(** [s.endswith(p)] *)
Definition endswith (s p : string) : bool :=
  if (String.length p <=? String.length s)%nat
  then String.eqb (drop (String.length s - String.length p) s) p
  else false.

(** [s.find(sub)], counted from position [i] of the original string:
    the lowest index at which [sub] occurs, [-1] when it does not. *)
Fixpoint find_from (i : Z) (s sub : string) : Z :=
  if startswith s sub then i
  else match s with
       | EmptyString => -1
       | String _ s' => find_from (i + 1) s' sub
       end.

Definition find (s sub : string) : Z := find_from 0 s sub.

(** [sub in s] *)
Definition contains (s sub : string) : bool := negb (find s sub =? -1).

(** A slice bound as Python normalises it: a negative bound counts from
    the end, and the result is clamped to [0 .. len(s)]. *)
Definition bound (s : string) (i : Z) : nat :=
  Z.to_nat (Z.min (Z.max 0 (if i <? 0 then i + len s else i)) (len s)).

(** [s[i:]] *)
Definition slice_from (s : string) (i : Z) : string := drop (bound s i) s.

(** [s[:i]] *)
Definition slice_to (s : string) (i : Z) : string := take (bound s i) s.

End PyStr.

(* ===================================================================== *)
(** ** Exceptions *)
(* ===================================================================== *)

(** The exceptions a conversion can end with, one constructor for each
    place an exception comes from.  [ValueError msg] is what the module's
    own [raise ValueError(f"...")] statements raise, with the formatted
    message.  The other constructors are raised by the interpreter or
    inside NumPy or torch: unpacking a sequence that does not have the
    expected number of items, iterating a 0-d array or a NumPy scalar, a
    [reshape] or [transpose] NumPy rejects, indexing an empty tuple, and
    [torch.from_numpy] applied to something that is not an array. *)
Inductive exn : Type :=
  | ValueError (msg : string)
  | UnpackError (expected got : nat)
  | IterationError
  | ReshapeError (size : nat) (newshape : list Z)
  | TransposeError (ndim : nat) (axes : list nat)
  | IndexError
  | FromNumpyError.

(** The Python classes of these exceptions. *)
Inductive exn_class : Type :=
  | PyValueError
  | PyTypeError
  | PyIndexError.

#[global] Instance exn_class_eq_dec : EqDecision exn_class.
Proof. solve_decision. Defined.

(** The class an [except] clause sees.  A failed unpacking ("too many
    values to unpack", "not enough values to unpack") and NumPy's
    rejections ("cannot reshape array of size ...", "axes don't match
    array") are [ValueError]s like the module's own; iterating a 0-d
    array and [torch.from_numpy] on a NumPy scalar ("expected
    np.ndarray") are [TypeError]s. *)
Definition class_of (e : exn) : exn_class :=
  match e with
  | ValueError _ | UnpackError _ _ | ReshapeError _ _ | TransposeError _ _ =>
      PyValueError
  | IterationError | FromNumpyError => PyTypeError
  | IndexError => PyIndexError
  end.

Inductive result (A : Type) : Type :=
  | Ok (a : A)
  | Raise (e : exn).

Arguments Ok {A} a.
Arguments Raise {A} e.

#[global] Instance result_ret : MRet result := λ A a, Ok a.
#[global] Instance result_bind : MBind result := λ A B f m,
  match m with
  | Ok a => f a
  | Raise e => Raise e
  end.
#[global] Instance result_fmap : FMap result := λ A B f m,
  match m with
  | Ok a => Ok (f a)
  | Raise e => Raise e
  end.

(** [a, b = xs] for a sequence that is already a list. *)
Definition unpack2 {A : Type} (xs : list A) : result (A * A) :=
  match xs with
  | [a; b] => Ok (a, b)
  | _ => Raise (UnpackError 2 (length xs))
  end.

(* ===================================================================== *)
(** ** NumPy arrays and torch tensors *)
(* ===================================================================== *)

(** Element types.  The converter names three of them ([_DTYPES]); a
    checkpoint may store others. *)
Inductive dtype : Type :=
  | float32
  | bfloat16
  | float16
  | other_dtype (name : string).

#[global] Instance dtype_eq_dec : EqDecision dtype.
Proof. solve_decision. Defined.

(** Number of elements of an array of shape [sh]. *)
Definition size_of (sh : list nat) : nat := foldr Nat.mul 1%nat sh.

(** Row-major (C order) strides, in elements. *)
Fixpoint strides (sh : list nat) : list nat :=
  match sh with
  | [] => []
  | _ :: sh' => size_of sh' :: strides sh'
  end.

(** The multi-index of the [k]-th element in row-major order
    ([np.unravel_index]). *)
Fixpoint unravel (sh : list nat) (k : nat) : list nat :=
  match sh with
  | [] => []
  | _ :: sh' => (k / size_of sh')%nat :: unravel sh' (k mod size_of sh')%nat
  end.

(** The buffer position of a multi-index under the given strides. *)
Definition offset (st idx : list nat) : nat :=
  sum_list (zip_with Nat.mul idx st).

(** [axes] is a permutation of [0 .. ndim-1]. *)
Definition valid_axes (ndim : nat) (axes : list nat) : bool :=
  bool_decide (length axes = ndim ∧ NoDup axes ∧ Forall (λ ax, ax < ndim)%nat axes).

(** [l] rearranged so that position [k] holds [l[axes[k]]]. *)
Definition permute {A : Type} (axes : list nat) (l : list A) : list A :=
  omap (λ ax, l !! ax) axes.

(** One dimension of a [reshape] request: a negative one, usually
    written [-1], asks NumPy to infer it. *)
Definition infer_dim (inferred : nat) (d : Z) : nat :=
  if d <? 0 then inferred else Z.to_nat d.

Section Arrays.

(** The stored elements are kept abstract, and so is the conversion of
    an element from one element type to another. *)
Context {elt : Type}.
Variable cast_elt : dtype → dtype → elt → elt.

(** What the converter handles as an array.  [NDArray] is a dense
    array ([np.ndarray]): element type, shape, and the elements in
    row-major order.  [NPScalar] is a NumPy scalar ([np.generic]), what
    indexing or iterating a 1-d array yields: it answers [shape],
    [size], [dtype], [transpose], [reshape] and [astype] as a 0-d array
    does, with its one element kept in a buffer like an array's, but it
    is not an [np.ndarray]. *)
Inductive ndarray : Type :=
  | NDArray (dt : dtype) (sh : list nat) (data : list elt)
  | NPScalar (dt : dtype) (data : list elt).

(** [a.dtype] *)
Definition nd_dtype (a : ndarray) : dtype :=
  match a with NDArray dt _ _ | NPScalar dt _ => dt end.

(** [a.shape] *)
Definition nd_shape (a : ndarray) : list nat :=
  match a with NDArray _ sh _ => sh | NPScalar _ _ => [] end.

(** The elements of [a] in row-major order. *)
Definition nd_data (a : ndarray) : list elt :=
  match a with NDArray _ _ data | NPScalar _ data => data end.

(** [isinstance(a, np.ndarray)] *)
Definition is_ndarray (a : ndarray) : bool :=
  match a with NDArray _ _ _ => true | NPScalar _ _ => false end.

(** What a method of [a] returns for a result of shape [sh]: an array,
    except that the methods of a NumPy scalar return a 0-d result as a
    scalar again. *)
Definition np_result (a : ndarray) (sh : list nat) (data : list elt)
    : ndarray :=
  match sh with
  | [] => if is_ndarray a then NDArray (nd_dtype a) [] data
          else NPScalar (nd_dtype a) data
  | _ => NDArray (nd_dtype a) sh data
  end.

(** A torch tensor has the same three components. *)
Record tensor : Type := Tensor {
  t_dtype : dtype;
  t_shape : list nat;
  t_data : list elt;
}.

(** The buffer holds exactly as many elements as the shape announces. *)
Definition well_formed (a : ndarray) : Prop :=
  length (nd_data a) = size_of (nd_shape a).

(** [a.size] *)
Definition np_size (a : ndarray) : nat := size_of (nd_shape a).

(** [a.reshape(newshape)].  NumPy takes every negative dimension as
    unknown and allows one of them, which it infers from the size.  Two
    unknown dimensions, known dimensions whose product does not divide
    the size, and a total that differs from the size are rejected.  The
    elements keep their row-major order.  (NumPy also caps the number
    of dimensions of an array; the converter asks for one or two, and
    no cap is put on the length of a shape here.) *)
Definition np_reshape (a : ndarray) (newshape : list Z) : result ndarray :=
  let n := np_size a in
  let known := filter (λ d, 0 ≤ d) newshape in
  let unknown := (length newshape - length known)%nat in
  let prod := size_of (Z.to_nat <$> known) in
  match unknown with
  | O =>
      if (prod =? n)%nat
      then Ok (np_result a (Z.to_nat <$> newshape) (nd_data a))
      else Raise (ReshapeError n newshape)
  | S O =>
      if negb (prod =? 0)%nat && (n mod prod =? 0)%nat
      then Ok (np_result a (infer_dim (n / prod) <$> newshape) (nd_data a))
      else Raise (ReshapeError n newshape)
  | _ => Raise (ReshapeError n newshape)
  end.

(** [a.transpose(axes)]: axis [k] of the result is axis [axes[k]] of
    [a].  NumPy permutes shape and strides; the elements are listed here
    in the row-major order of the result, which is the order every later
    [reshape] or copy reads them in. *)
Definition np_transpose (a : ndarray) (axes : list nat) : result ndarray :=
  if valid_axes (length (nd_shape a)) axes then
    let sh := permute axes (nd_shape a) in
    let st := permute axes (strides (nd_shape a)) in
    Ok (np_result a sh
          (omap (λ k, nd_data a !! offset st (unravel sh k))
             (seq 0 (size_of sh))))
  else Raise (TransposeError (length (nd_shape a)) axes).

(** [a.transpose()] without arguments reverses the axes. *)
Definition np_transpose_rev (a : ndarray) : result ndarray :=
  np_transpose a (reverse (seq 0 (length (nd_shape a)))).

(** [a[i]] for an array with at least one axis and [sh'] the rest of
    its shape: a sub-array, or a NumPy scalar when [a] is 1-d. *)
Definition np_row (sh' : list nat) (a : ndarray) (i : nat) : ndarray :=
  let data := take (size_of sh') (drop (i * size_of sh') (nd_data a)) in
  match sh' with
  | [] => NPScalar (nd_dtype a) data
  | _ => NDArray (nd_dtype a) sh' data
  end.

(** [list(a)]: iterating an array yields its sub-arrays along axis 0,
    NumPy scalars for a 1-d array; a 0-d array and a NumPy scalar
    cannot be iterated. *)
Definition np_iter (a : ndarray) : result (list ndarray) :=
  match nd_shape a with
  | [] => Raise IterationError
  | n :: sh' => Ok (np_row sh' a <$> seq 0 n)
  end.

(** [x, y = a] *)
Definition np_unpack2 (a : ndarray) : result (ndarray * ndarray) :=
  rows ← np_iter a; unpack2 rows.

(** [a.astype(dt)]: an array for an array, a scalar for a scalar. *)
Definition np_astype (a : ndarray) (dt : dtype) : ndarray :=
  match a with
  | NDArray dt0 sh data => NDArray dt sh (cast_elt dt0 dt <$> data)
  | NPScalar dt0 data => NPScalar dt (cast_elt dt0 dt <$> data)
  end.

(** [torch.from_numpy(a)] for an array [a]: the tensor has its dtype,
    shape and buffer.  On anything that is not an [np.ndarray] torch
    raises [TypeError]; [update_tree] below makes that test. *)
Definition torch_from_numpy (a : ndarray) : tensor :=
  Tensor (nd_dtype a) (nd_shape a) (nd_data a).

(** [t.type(dt)] *)
Definition torch_type (t : tensor) (dt : dtype) : tensor :=
  Tensor dt (t_shape t) (cast_elt (t_dtype t) dt <$> t_data t).

End Arrays.

Arguments ndarray : clear implicits.
Arguments tensor : clear implicits.

(* ===================================================================== *)
(** ** Configuration and module constants *)
(* ===================================================================== *)

(** Modelled from the spec: the configuration classes live in
    [configuration_gemma3], outside this module.  Of the text
    configuration the converter reads the hidden size, the two head
    counts and the per-head dimension. *)
Record Gemma3TextConfig : Type := {
  hidden_size : Z;
  num_attention_heads : Z;
  num_key_value_heads : Z;
  head_dim : Z;
}.

(** Modelled from the spec: of the vision configuration the converter
    reads the hidden size only ([config.hidden_size]). *)
Record Gemma3VisionConfig : Type := {
  vision_hidden_size : Z;
}.

(** Modelled from the spec: the composite configuration; [vision_config]
    is [None] for a text-only variant. *)
Record Gemma3Config : Type := {
  text_config : Gemma3TextConfig;
  vision_config : option Gemma3VisionConfig;
}.

Definition _SIGLIP_BASE : string := "SigLiPFromPatches_0/siglip_encoder".
Definition _SIGLIP_EMBEDDING : string :=
  "SigLiPFromPatches_0/siglip_encoder/embedding".
Definition _SIGLIP_TRANSFORMER_ENCODER_BLOCK : string :=
  "SigLiPFromPatches_0/siglip_encoder/Transformer/encoderblock_".
Definition _SIGLIP_TRANSFORMER_ENCODER_BLOCK_LEN : Z :=
  PyStr.len _SIGLIP_TRANSFORMER_ENCODER_BLOCK.
Definition _SIGLIP_TRANSFORMER_ENCODER_NORM : string :=
  "SigLiPFromPatches_0/siglip_encoder/Transformer/encoder_norm".

Definition _TRANSFORMER_DECODER_BLOCK : string := "transformer/layer_".
Definition _TRANSFORMER_DECODER_BLOCK_LEN : Z :=
  PyStr.len _TRANSFORMER_DECODER_BLOCK.
Definition _TRANSFORMER_EMBEDDER : string := "transformer/embedder".
Definition _TRANSFORMER_FINAL_NORM : string := "transformer/final_norm".

(** The prefix [convert] tests [paths[0]] against. *)
Definition vision_sentinel : string := "SigLiPFromPatches_".

(** The prefix [convert] slices off for a text-only configuration. *)
Definition language_model_prefix : string := "language_model.".

(* ===================================================================== *)
(** ** The converter *)
(* ===================================================================== *)

(** How the [if]/[elif] chain of [_convert_transformer_weights] is left:
    by one of the early [return zip([], [])] statements, or by falling
    through to the length check with the two lists assigned. *)
Inductive flow (A : Type) : Type :=
  | Returned (pairs : list (string * A))
  | Assigned (converted_paths : list string) (converted_weights : list A).

Arguments Returned {A} pairs.
Arguments Assigned {A} converted_paths converted_weights.

Section Converter.

Context {elt : Type}.
Variable cast_elt : dtype → dtype → elt → elt.

Abbreviation ndarray := (ndarray elt).
Abbreviation tensor := (tensor elt).

Definition member_error (prop path expected : string) : exn :=
  ValueError ("Upexpected member, `" +:+ prop +:+ "`, for path `" +:+ path
              +:+ "`. Should be " +:+ expected +:+ ".").

Definition _convert_siglip_weight (config : Gemma3VisionConfig)
    (paths : list string) (weights : ndarray) : result (string * ndarray) :=
  '(path, prop) ← unpack2 paths;
  if String.eqb path _SIGLIP_BASE then
    updated_weights ← np_reshape weights [-1; vision_hidden_size config];
    Ok ("vision_model.vision_model.embeddings.position_embedding.weight",
        updated_weights)
  else if String.eqb path _SIGLIP_EMBEDDING then
    if String.eqb prop "kernel" then
      updated_weights ← np_transpose weights [3; 2; 0; 1]%nat;
      Ok ("vision_model.vision_model.embeddings.patch_embedding.weight",
          updated_weights)
    else if String.eqb prop "bias" then
      Ok ("vision_model.vision_model.embeddings.patch_embedding.bias",
          weights)
    else Raise (member_error prop path "`bias` or `kernel`")
  else if PyStr.startswith path _SIGLIP_TRANSFORMER_ENCODER_BLOCK then
    let encoder_block_path :=
      PyStr.slice_from path _SIGLIP_TRANSFORMER_ENCODER_BLOCK_LEN in
    let next_path_seperator_idx := PyStr.find encoder_block_path "/" in
    let layer_idx := PyStr.slice_to encoder_block_path next_path_seperator_idx in
    let encoder_block_path :=
      PyStr.slice_from encoder_block_path next_path_seperator_idx in
    let normalized_path :=
      "vision_model.vision_model.encoder.layers." +:+ layer_idx in
    if PyStr.startswith encoder_block_path "/LayerNorm" then
      let normalized_path :=
        normalized_path +:+
        (if PyStr.endswith path "_0" then ".layer_norm1" else ".layer_norm2") in
      if String.eqb prop "scale" then
        updated_weights ← np_transpose_rev weights;
        Ok (normalized_path +:+ ".weight", updated_weights)
      else if String.eqb prop "bias" then
        Ok (normalized_path +:+ ".bias", weights)
      else Raise (member_error prop path "`bias` or `scale`")
    else if PyStr.startswith encoder_block_path "/MlpBlock_0" then
      let normalized_path :=
        normalized_path +:+
        (if PyStr.contains encoder_block_path "/Dense_0"
         then ".mlp.fc1" else ".mlp.fc2") in
      if String.eqb prop "kernel" then
        updated_weights ← np_transpose_rev weights;
        Ok (normalized_path +:+ ".weight", updated_weights)
      else if String.eqb prop "bias" then
        Ok (normalized_path +:+ ".bias", weights)
      else Raise (member_error prop path "`bias` or `kernel`")
    else if PyStr.startswith encoder_block_path
              "/MultiHeadDotProductAttention_0" then
      normalized_path ←
        (if PyStr.endswith encoder_block_path "/key" then
           Ok (normalized_path +:+ ".self_attn.k_proj")
         else if PyStr.endswith encoder_block_path "/out" then
           Ok (normalized_path +:+ ".self_attn.out_proj")
         else if PyStr.endswith encoder_block_path "/query" then
           Ok (normalized_path +:+ ".self_attn.q_proj")
         else if PyStr.endswith encoder_block_path "/value" then
           Ok (normalized_path +:+ ".self_attn.v_proj")
         else
           Raise (ValueError
             ("Upexpected path `" +:+ path +:+
              "` in SigLIP Transformer MultiHeadDotProductAttention_0.")));
      if String.eqb prop "bias" then
        w ← np_reshape weights [-1; vision_hidden_size config];
        updated_weights ← np_reshape w [-1];
        Ok (normalized_path +:+ ".bias", updated_weights)
      else if String.eqb prop "kernel" then
        w ← np_reshape weights [-1; vision_hidden_size config];
        updated_weights ← np_transpose_rev w;
        Ok (normalized_path +:+ ".weight", updated_weights)
      else Raise (member_error prop path "`bias` or `kernel`")
    else
      Raise (ValueError
        ("Upexpected path `" +:+ path +:+
         "` in SigLIP Transformer Encoder Block."))
  else if String.eqb path _SIGLIP_TRANSFORMER_ENCODER_NORM then
    if String.eqb prop "scale" then
      updated_weights ← np_transpose_rev weights;
      Ok ("vision_model.vision_model.post_layernorm.weight", updated_weights)
    else if String.eqb prop "bias" then
      Ok ("vision_model.vision_model.post_layernorm.bias", weights)
    else Raise (member_error prop path "`bias` or `scale`")
  else Raise (ValueError ("Upexpected path `" +:+ path +:+ "`.")).

Definition _convert_transformer_weights_chain (config : Gemma3TextConfig)
    (path prop : string) (weights : ndarray) : result (flow ndarray) :=
  let attn_head_dim := num_attention_heads config * head_dim config in
  let kv_head_dim := num_key_value_heads config * head_dim config in
  if String.eqb path _TRANSFORMER_EMBEDDER then
    if String.eqb prop "input_embedding" then
      Ok (Assigned
            ["language_model.model.embed_tokens.weight";
             "language_model.lm_head.weight"]
            [weights; weights])
    else if String.eqb prop "mm_input_embedding_extra" then
      Ok (Returned [])
    else if String.eqb prop "mm_output_embedding" then
      Ok (Returned [])
    else
      Raise (ValueError ("Upexpected member, " +:+ prop +:+ ", in Embedder."))
  else if PyStr.startswith path (_TRANSFORMER_EMBEDDER +:+ "/mm") then
    if PyStr.endswith path "/mm_input_projection" then
      Ok (Returned [])
    else if PyStr.endswith path "/mm_soft_embedding_norm" then
      Ok (Returned [])
    else
      Raise (ValueError
        ("Upexpected subpath, `" +:+ path +:+ "`, in Embedder."))
  else if String.eqb path _TRANSFORMER_FINAL_NORM then
    Ok (Assigned ["language_model.model.norm.weight"] [weights])
  else if PyStr.startswith path _TRANSFORMER_DECODER_BLOCK then
    let decoder_block_path :=
      PyStr.slice_from path _TRANSFORMER_DECODER_BLOCK_LEN in
    let next_path_seperator_idx := PyStr.find decoder_block_path "/" in
    let layer_idx := PyStr.slice_to decoder_block_path next_path_seperator_idx in
    let decoder_block_path :=
      PyStr.slice_from decoder_block_path next_path_seperator_idx in
    let base_path := "language_model.model.layers." +:+ layer_idx in
    if PyStr.endswith path "attn/attn_vec_einsum" then
      t ← np_transpose weights [2; 0; 1]%nat;
      w ← np_reshape t [hidden_size config; attn_head_dim];
      Ok (Assigned [base_path +:+ ".self_attn.o_proj.weight"] [w])
    else if PyStr.endswith path "attn/_key_norm" then
      Ok (Assigned [base_path +:+ ".self_attn.k_norm.weight"] [weights])
    else if PyStr.endswith path "attn/kv_einsum" then
      '(k_proj_weights, v_proj_weights) ← np_unpack2 weights;
      kt ← np_transpose k_proj_weights [0; 2; 1]%nat;
      k ← np_reshape kt [kv_head_dim; hidden_size config];
      vt ← np_transpose v_proj_weights [0; 2; 1]%nat;
      v ← np_reshape vt [kv_head_dim; hidden_size config];
      Ok (Assigned
            [base_path +:+ ".self_attn.k_proj.weight";
             base_path +:+ ".self_attn.v_proj.weight"]
            [k; v])
    else if PyStr.endswith path "attn/q_einsum" then
      t ← np_transpose weights [0; 2; 1]%nat;
      w ← np_reshape t [attn_head_dim; hidden_size config];
      Ok (Assigned [base_path +:+ ".self_attn.q_proj.weight"] [w])
    else if PyStr.endswith path "attn/_query_norm" then
      Ok (Assigned [base_path +:+ ".self_attn.q_norm.weight"] [weights])
    else if PyStr.endswith path "mlp/gating_einsum" then
      '(gate_proj_weight, up_proj_weight) ← np_unpack2 weights;
      Ok (Assigned
            [base_path +:+ ".mlp.gate_proj.weight";
             base_path +:+ ".mlp.up_proj.weight"]
            [gate_proj_weight; up_proj_weight])
    else if PyStr.endswith path "mlp/linear" then
      w ← np_transpose_rev weights;
      Ok (Assigned [base_path +:+ ".mlp.down_proj.weight"] [w])
    else if PyStr.endswith path "post_attention_norm" then
      Ok (Assigned [base_path +:+ ".post_attention_layernorm.weight"] [weights])
    else if PyStr.endswith path "post_ffw_norm" then
      Ok (Assigned [base_path +:+ ".post_feedforward_layernorm.weight"] [weights])
    else if PyStr.endswith path "pre_attention_norm" then
      Ok (Assigned [base_path +:+ ".input_layernorm.weight"] [weights])
    else if PyStr.endswith path "pre_ffw_norm" then
      Ok (Assigned [base_path +:+ ".pre_feedforward_layernorm.weight"] [weights])
    else
      Raise (ValueError ("Upexpected path `" +:+ path +:+ "` in Decoder Block."))
  else Raise (ValueError ("Upexpected path `" +:+ path +:+ "`.")).

(** The whole function: unpack [paths], run the chain, and, unless the
    chain returned early, compare the two lengths before zipping. *)
Definition _convert_transformer_weights (config : Gemma3TextConfig)
    (paths : list string) (weights : ndarray)
    : result (list (string * ndarray)) :=
  '(path, prop) ← unpack2 paths;
  r ← _convert_transformer_weights_chain config path prop weights;
  match r with
  | Returned pairs => Ok pairs
  | Assigned converted_paths converted_weights =>
      let cpl := length converted_paths in
      let cwl := length converted_weights in
      if negb (cpl =? cwl)%nat then
        Raise (ValueError
          ("The `converted_paths` and `converted_weights` should be the same "
           +:+ "length. Got " +:+ pretty cpl +:+ " and " +:+ pretty cwl
           +:+ ", respectively, for " +:+ path +:+ "."))
      else Ok (zip converted_paths converted_weights)
  end.

Record ConversionResult : Type := {
  state_tree : gmap string tensor;
  config_of : Gemma3Config;
}.

(** The local function [update_tree] of [convert], with the dictionary
    it closes over made a parameter.  [torch.from_numpy] takes arrays
    only: for a NumPy scalar, which [astype] leaves a scalar, it raises
    and nothing is written. *)
Definition update_tree (target_dtype : dtype) (hf_tree : gmap string tensor)
    (path : string) (weights : ndarray) : result (gmap string tensor) :=
  let as_float32 := np_astype cast_elt weights float32 in
  if is_ndarray as_float32 then
    Ok (<[path := torch_type cast_elt (torch_from_numpy as_float32)
                    target_dtype]> hf_tree)
  else Raise FromNumpyError.

(** One iteration of the loop of [convert], up to the dictionary
    writes: the arguments of the [update_tree] calls it makes, in
    order.  A vision leaf is skipped when there is no vision
    configuration; a text leaf loses the [language_model.] prefix in
    that case. *)
Definition leaf_updates (config : Gemma3Config)
    (leaf : list string * ndarray) : result (list (string * ndarray)) :=
  let '(paths, value) := leaf in
  match paths !! 0%nat with
  | None => Raise IndexError
  | Some first =>
      if PyStr.startswith first vision_sentinel then
        match vision_config config with
        | None => Ok []
        | Some vision =>
            '(path, weights) ← _convert_siglip_weight vision paths value;
            Ok [(path, weights)]
        end
      else
        pairs ← _convert_transformer_weights (text_config config) paths value;
        Ok (map (λ '(path, weights),
                   (match vision_config config with
                    | None =>
                        PyStr.slice_from path (PyStr.len language_model_prefix)
                    | Some _ => path
                    end, weights)) pairs)
  end.

(** The [update_tree] calls for the pairs of one leaf, in order. *)
Fixpoint update_all (target_dtype : dtype)
    (hf_tree : gmap string tensor) (updates : list (string * ndarray))
    : result (gmap string tensor) :=
  match updates with
  | [] => Ok hf_tree
  | (path, weights) :: rest =>
      hf_tree ← update_tree target_dtype hf_tree path weights;
      update_all target_dtype hf_tree rest
  end.

(** The loop of [convert] over the flattened checkpoint; the first
    exception ends it. *)
Fixpoint convert_loop (config : Gemma3Config) (target_dtype : dtype)
    (hf_tree : gmap string tensor) (leaves : list (list string * ndarray))
    : result (gmap string tensor) :=
  match leaves with
  | [] => Ok hf_tree
  | leaf :: rest =>
      updates ← leaf_updates config leaf;
      hf_tree ← update_all target_dtype hf_tree updates;
      convert_loop config target_dtype hf_tree rest
  end.

(** [convert], given what [tree.flatten_with_path] yields for the
    restored checkpoint. *)
Definition convert (ckpt : list (list string * ndarray))
    (config : Gemma3Config) (target_dtype : dtype) : result ConversionResult :=
  hf_tree ← convert_loop config target_dtype ∅ ckpt;
  Ok {| state_tree := hf_tree; config_of := config |}.

(** The arguments of the [update_tree] calls of a run, in order, when
    every leaf is converted and every call goes through; otherwise the
    exception that ends the run. *)
Fixpoint emitted (config : Gemma3Config)
    (leaves : list (list string * ndarray))
    : result (list (string * ndarray)) :=
  match leaves with
  | [] => Ok []
  | leaf :: rest =>
      updates ← leaf_updates config leaf;
      if forallb (λ update, is_ndarray update.2) updates then
        later ← emitted config rest;
        Ok (updates ++ later)
      else Raise FromNumpyError
  end.

End Converter.

(* ===================================================================== *)
(** ** Vocabulary for stating the properties *)
(* ===================================================================== *)

(** The layer index both block rules read off a path: what lies between
    the block prefix (of length [prefix_len]) and the next ["/"]. *)
Definition block_layer_idx (prefix_len : Z) (path : string) : string :=
  let rest := PyStr.slice_from path prefix_len in
  PyStr.slice_to rest (PyStr.find rest "/").

(** What is left of a block path from that ["/"] on. *)
Definition block_subpath (prefix_len : Z) (path : string) : string :=
  let rest := PyStr.slice_from path prefix_len in
  PyStr.slice_from rest (PyStr.find rest "/").

(** The destination name of decoder layer [path]. *)
Definition decoder_base_path (path : string) : string :=
  "language_model.model.layers." +:+
  block_layer_idx _TRANSFORMER_DECODER_BLOCK_LEN path.

(** The destination name of vision encoder layer [path]. *)
Definition encoder_base_path (path : string) : string :=
  "vision_model.vision_model.encoder.layers." +:+
  block_layer_idx _SIGLIP_TRANSFORMER_ENCODER_BLOCK_LEN path.

(** The suffixes the decoder-block rules dispatch on, in the order they
    are tested. *)
Definition decoder_suffixes : list string :=
  ["attn/attn_vec_einsum"; "attn/_key_norm"; "attn/kv_einsum";
   "attn/q_einsum"; "attn/_query_norm"; "mlp/gating_einsum"; "mlp/linear";
   "post_attention_norm"; "post_ffw_norm"; "pre_attention_norm";
   "pre_ffw_norm"].

(** The leaf properties the embedder rule knows. *)
Definition embedder_members : list string :=
  ["input_embedding"; "mm_input_embedding_extra"; "mm_output_embedding"].

(** The markers an embedder sub-path may end in. *)
Definition embedder_subpath_markers : list string :=
  ["/mm_input_projection"; "/mm_soft_embedding_norm"].

(** A source leaf has a recognized rule shape when one of the rules of
    the text table is written for it: the embedder with one of its three
    members, an embedder sub-path ["transformer/embedder/mm..."] ending in
    one of the two markers, the final norm, or a decoder-block path ending
    in one of the eleven suffixes. *)
Definition recognized (path prop : string) : Prop :=
  (path = _TRANSFORMER_EMBEDDER ∧ prop ∈ embedder_members) ∨
  ((∃ r, path = "transformer/embedder/mm" +:+ r) ∧
   ∃ m, m ∈ embedder_subpath_markers ∧ ∃ q, path = q +:+ m) ∨
  path = _TRANSFORMER_FINAL_NORM ∨
  ((∃ r, path = _TRANSFORMER_DECODER_BLOCK +:+ r) ∧
   ∃ s, s ∈ decoder_suffixes ∧ ∃ q, path = q +:+ s).

(** The number of destination pairs each rule of the text table is
    written to produce: two for the duplicated embedding and for the two
    fused projections, none for the multimodal embedder leaves, one for
    every other rule. *)
Definition declared_fan_out (path prop : string) : nat :=
  if String.eqb path _TRANSFORMER_EMBEDDER then
    if String.eqb prop "input_embedding" then 2 else 0
  else if PyStr.startswith path "transformer/embedder/mm" then 0
  else if PyStr.endswith path "attn/kv_einsum"
          || PyStr.endswith path "mlp/gating_einsum" then 2
  else 1.

(** The exception comes from one of the module's own [raise]
    statements, not from tuple unpacking or from NumPy. *)
Definition raised_by_module (e : exn) : bool :=
  match e with ValueError _ => true | _ => false end.

(** The exception comes from unpacking an array into two names. *)
Definition raised_by_unpacking (e : exn) : bool :=
  match e with UnpackError _ _ | IterationError => true | _ => false end.

(** The exception comes from a [reshape] or [transpose] NumPy rejects. *)
Definition raised_by_numpy (e : exn) : bool :=
  match e with ReshapeError _ _ | TransposeError _ _ => true | _ => false end.

(** The array has the shape the rule for [path] is written for.  The
    three attention projections of a decoder block are tied to the
    configuration, the fused gate/up array stacks two sub-arrays along
    its leading axis, and every other rule takes any array. *)
Definition well_shaped {elt : Type} (config : Gemma3TextConfig)
    (path : string) (weights : ndarray elt) : Prop :=
  let shape := Z.of_nat <$> nd_shape weights in
  PyStr.startswith path _TRANSFORMER_DECODER_BLOCK = true →
  (PyStr.endswith path "attn/attn_vec_einsum" = true →
   shape = [num_attention_heads config; head_dim config; hidden_size config]) ∧
  (PyStr.endswith path "attn/kv_einsum" = true →
   shape = [2; num_key_value_heads config; hidden_size config;
            head_dim config]) ∧
  (PyStr.endswith path "attn/q_einsum" = true →
   shape = [num_attention_heads config; hidden_size config; head_dim config]) ∧
  (PyStr.endswith path "mlp/gating_einsum" = true →
   ∃ sh, nd_shape weights = 2%nat :: sh).

(** [recognized], decided with the string tests of the converter. *)
Definition recognizedb (path prop : string) : bool :=
  (String.eqb path _TRANSFORMER_EMBEDDER
   && existsb (String.eqb prop) embedder_members)
  || (PyStr.startswith path "transformer/embedder/mm"
      && existsb (PyStr.endswith path) embedder_subpath_markers)
  || String.eqb path _TRANSFORMER_FINAL_NORM
  || (PyStr.startswith path _TRANSFORMER_DECODER_BLOCK
      && existsb (PyStr.endswith path) decoder_suffixes).

(** The pairs the function returns for a given way of leaving the chain,
    once the length check has passed. *)
Definition flow_pairs {A : Type} (r : flow A) : list (string * A) :=
  match r with
  | Returned pairs => pairs
  | Assigned converted_paths converted_weights =>
      zip converted_paths converted_weights
  end.

(** The projections the attention sub-paths of a vision encoder block
    route to, by path suffix: query, key, value, output. *)
Definition attention_routes : list (string * string) :=
  [("/query", ".self_attn.q_proj"); ("/key", ".self_attn.k_proj");
   ("/value", ".self_attn.v_proj"); ("/out", ".self_attn.out_proj")].

Definition attention_projection (subpath : string) : option string :=
  snd <$> List.find (λ route, PyStr.endswith subpath route.1) attention_routes.

(** [p] is a destination path the text rule table produced for one of
    the leaves of [ckpt] that [convert] sends to it. *)
Definition text_branch_key {elt : Type} (config : Gemma3Config)
    (ckpt : list (list string * ndarray elt)) (p : string) : Prop :=
  ∃ paths value first pairs w,
    (paths, value) ∈ ckpt ∧
    paths !! 0%nat = Some first ∧
    PyStr.startswith first vision_sentinel = false ∧
    _convert_transformer_weights (text_config config) paths value = Ok pairs ∧
    (p, w) ∈ pairs.

Section Stored.

Context {elt : Type}.
Variable cast_elt : dtype → dtype → elt → elt.

(** The tensor [update_tree] stores for an array. *)
Definition stored (target_dtype : dtype) (w : ndarray elt) : tensor elt :=
  torch_type cast_elt (torch_from_numpy (np_astype cast_elt w float32))
    target_dtype.

(** The dictionary after the writes for the pairs [updates]. *)
Definition apply_updates (target_dtype : dtype)
    (hf_tree : gmap string (tensor elt))
    (updates : list (string * ndarray elt)) : gmap string (tensor elt) :=
  foldl (λ tree update, <[update.1 := stored target_dtype update.2]> tree)
    hf_tree updates.

End Stored.

(* ===================================================================== *)
(** ** The checkpoint layout the rules are written for *)
(* ===================================================================== *)

(** The sub-components of a decoder layer, one per suffix. *)
Inductive decoder_part : Type :=
  | AttnVecEinsum | KeyNorm | KvEinsum | QEinsum | QueryNorm
  | GatingEinsum | MlpLinear
  | PostAttentionNorm | PostFfwNorm | PreAttentionNorm | PreFfwNorm.

#[global] Instance decoder_part_eq_dec : EqDecision decoder_part.
Proof. solve_decision. Defined.

Definition decoder_suffix (part : decoder_part) : string :=
  match part with
  | AttnVecEinsum => "attn/attn_vec_einsum"
  | KeyNorm => "attn/_key_norm"
  | KvEinsum => "attn/kv_einsum"
  | QEinsum => "attn/q_einsum"
  | QueryNorm => "attn/_query_norm"
  | GatingEinsum => "mlp/gating_einsum"
  | MlpLinear => "mlp/linear"
  | PostAttentionNorm => "post_attention_norm"
  | PostFfwNorm => "post_ffw_norm"
  | PreAttentionNorm => "pre_attention_norm"
  | PreFfwNorm => "pre_ffw_norm"
  end.

(** The destination names a decoder sub-component is converted to,
    relative to the layer. *)
Definition decoder_names (part : decoder_part) : list string :=
  match part with
  | AttnVecEinsum => [".self_attn.o_proj.weight"]
  | KeyNorm => [".self_attn.k_norm.weight"]
  | KvEinsum => [".self_attn.k_proj.weight"; ".self_attn.v_proj.weight"]
  | QEinsum => [".self_attn.q_proj.weight"]
  | QueryNorm => [".self_attn.q_norm.weight"]
  | GatingEinsum => [".mlp.gate_proj.weight"; ".mlp.up_proj.weight"]
  | MlpLinear => [".mlp.down_proj.weight"]
  | PostAttentionNorm => [".post_attention_layernorm.weight"]
  | PostFfwNorm => [".post_feedforward_layernorm.weight"]
  | PreAttentionNorm => [".input_layernorm.weight"]
  | PreFfwNorm => [".pre_feedforward_layernorm.weight"]
  end.

(** The sub-components of a vision encoder block. *)
Inductive encoder_part : Type :=
  | LayerNorm0 | LayerNorm1 | Dense0 | Dense1
  | AttnKey | AttnOut | AttnQuery | AttnValue.

#[global] Instance encoder_part_eq_dec : EqDecision encoder_part.
Proof. solve_decision. Defined.

Definition encoder_subpath (part : encoder_part) : string :=
  match part with
  | LayerNorm0 => "/LayerNorm_0"
  | LayerNorm1 => "/LayerNorm_1"
  | Dense0 => "/MlpBlock_0/Dense_0"
  | Dense1 => "/MlpBlock_0/Dense_1"
  | AttnKey => "/MultiHeadDotProductAttention_0/key"
  | AttnOut => "/MultiHeadDotProductAttention_0/out"
  | AttnQuery => "/MultiHeadDotProductAttention_0/query"
  | AttnValue => "/MultiHeadDotProductAttention_0/value"
  end.

Definition encoder_name (part : encoder_part) : string :=
  match part with
  | LayerNorm0 => ".layer_norm1"
  | LayerNorm1 => ".layer_norm2"
  | Dense0 => ".mlp.fc1"
  | Dense1 => ".mlp.fc2"
  | AttnKey => ".self_attn.k_proj"
  | AttnOut => ".self_attn.out_proj"
  | AttnQuery => ".self_attn.q_proj"
  | AttnValue => ".self_attn.v_proj"
  end.

(** The member of a vision module that becomes its weight. *)
Definition weight_member (part : encoder_part) : string :=
  match part with
  | LayerNorm0 | LayerNorm1 => "scale"
  | _ => "kernel"
  end.

(** The parameter name a member is converted to: the weight member to
    [.weight], ["bias"] to [.bias]; nothing else is accepted. *)
Definition member_name (weight prop : string) : option string :=
  if String.eqb prop weight then Some ".weight"
  else if String.eqb prop "bias" then Some ".bias"
  else None.

(** The places of the checkpoint tree the rules are written for.  Layer
    numbers are kept as the numeral that appears in the path.  Where a
    rule looks at the leaf property, the property is part of the
    location; where it does not, every leaf below the path is at the same
    location. *)
Inductive location : Type :=
  | Embedder (prop : string)
  | EmbedderSub (sub : string)
  | FinalNorm
  | DecoderLayer (n : string) (part : decoder_part)
  | VisionPosition
  | VisionPatch (prop : string)
  | VisionLayer (n : string) (part : encoder_part) (prop : string)
  | VisionPostNorm (prop : string).

#[global] Instance location_eq_dec : EqDecision location.
Proof. solve_decision. Defined.

Definition is_digit (c : Ascii.ascii) : bool :=
  (48 <=? Ascii.nat_of_ascii c)%nat && (Ascii.nat_of_ascii c <=? 57)%nat.

(** A decimal numeral. *)
Fixpoint all_digits (s : string) : bool :=
  match s with
  | EmptyString => true
  | String c s' => is_digit c && all_digits s'
  end.

(** The leaf addressed by [paths] sits at location [loc]. *)
Definition at_location (loc : location) (paths : list string) : Prop :=
  match loc with
  | Embedder prop => paths = [_TRANSFORMER_EMBEDDER; prop]
  | EmbedderSub sub =>
      ∃ prop, paths = ["transformer/embedder/mm" +:+ sub; prop]
  | FinalNorm => ∃ prop, paths = [_TRANSFORMER_FINAL_NORM; prop]
  | DecoderLayer n part =>
      all_digits n = true ∧
      ∃ prop, paths = [_TRANSFORMER_DECODER_BLOCK +:+ n +:+ "/"
                         +:+ decoder_suffix part; prop]
  | VisionPosition => ∃ prop, paths = [_SIGLIP_BASE; prop]
  | VisionPatch prop => paths = [_SIGLIP_EMBEDDING; prop]
  | VisionLayer n part prop =>
      all_digits n = true ∧
      paths = [_SIGLIP_TRANSFORMER_ENCODER_BLOCK +:+ n
                 +:+ encoder_subpath part; prop]
  | VisionPostNorm prop => paths = [_SIGLIP_TRANSFORMER_ENCODER_NORM; prop]
  end.

Definition is_vision (loc : location) : bool :=
  match loc with
  | VisionPosition | VisionPatch _ | VisionLayer _ _ _ | VisionPostNorm _ => true
  | _ => false
  end.

(** The destination keys of a text location, below the
    ["language_model."] wrapper. *)
Definition text_keys (loc : location) : list string :=
  match loc with
  | Embedder prop =>
      if String.eqb prop "input_embedding"
      then ["model.embed_tokens.weight"; "lm_head.weight"] else []
  | FinalNorm => ["model.norm.weight"]
  | DecoderLayer n part =>
      (λ name, "model.layers." +:+ n +:+ name) <$> decoder_names part
  | _ => []
  end.

(** The destination keys of a vision location. *)
Definition vision_keys (loc : location) : list string :=
  match loc with
  | VisionPosition =>
      ["vision_model.vision_model.embeddings.position_embedding.weight"]
  | VisionPatch prop =>
      option_list
        ((λ m, "vision_model.vision_model.embeddings.patch_embedding" +:+ m)
           <$> member_name "kernel" prop)
  | VisionLayer n part prop =>
      option_list
        ((λ m, "vision_model.vision_model.encoder.layers." +:+ n
               +:+ encoder_name part +:+ m)
           <$> member_name (weight_member part) prop)
  | VisionPostNorm prop =>
      option_list
        ((λ m, "vision_model.vision_model.post_layernorm" +:+ m)
           <$> member_name "scale" prop)
  | _ => []
  end.

(** The keys a run writes for a location: with a vision configuration the
    wrapped text keys and the vision keys, without one the bare text
    keys. *)
Definition location_keys (config : Gemma3Config) (loc : location)
    : list string :=
  match vision_config config with
  | Some _ =>
      ((λ k, language_model_prefix +:+ k) <$> text_keys loc) ++ vision_keys loc
  | None => text_keys loc
  end.

(** The layer number of a layer location is a decimal numeral. *)
Definition layer_numbered (loc : location) : Prop :=
  match loc with
  | DecoderLayer n _ | VisionLayer n _ _ => all_digits n = true
  | _ => True
  end.

(* ===================================================================== *)
(** ** The rest of the module *)
(* ===================================================================== *)

(** The buffer position of a multi-index in an array of shape [sh]
    ([np.ravel_multi_index]). *)
Definition ravel (sh idx : list nat) : nat := offset (strides sh) idx.

(** A multi-index that addresses an element of an array of shape [sh]. *)
Definition in_bounds (idx sh : list nat) : Prop :=
  Forall2 (λ i d, i < d)%nat idx sh.

(** The largest buffer position reachable with the dimension and stride
    pairs [P]. *)
Definition reach (P : list (nat * nat)) : nat :=
  sum_list ((λ p, (p.1 - 1) * p.2)%nat <$> P).

Section Torch.

Context {elt : Type}.

Definition to_numpy (t : tensor elt) : ndarray elt :=
  NDArray (t_dtype t) (t_shape t) (t_data t).

(** [t.transpose(dim0, dim1)]: the two dimensions are exchanged; a
    dimension the tensor does not have is an [IndexError]. *)
Definition torch_transpose (t : tensor elt) (dim0 dim1 : nat)
    : result (tensor elt) :=
  let n := length (t_shape t) in
  if (dim0 <? n)%nat && (dim1 <? n)%nat then
    torch_from_numpy <$>
      np_transpose (to_numpy t) (<[dim0 := dim1]> (<[dim1 := dim0]> (seq 0 n)))
  else Raise IndexError.

(** [t.reshape(newshape)] *)
Definition torch_reshape (t : tensor elt) (newshape : list Z)
    : result (tensor elt) :=
  torch_from_numpy <$> np_reshape (to_numpy t) newshape.

(** [t.shape[i]] *)
Definition torch_shape_at (t : tensor elt) (i : nat) : result Z :=
  match t_shape t !! i with
  | Some d => Ok (Z.of_nat d)
  | None => Raise IndexError
  end.

(** [transpose_reshape]; [contiguous()] does not change the value. *)
Definition transpose_reshape (x : tensor elt) : result (tensor elt) :=
  x ← torch_transpose x 1 2;
  d0 ← torch_shape_at x 0;
  d1 ← torch_shape_at x 1;
  d2 ← torch_shape_at x 2;
  torch_reshape x [d0 * d1; d2].

End Torch.

(** The decoder-block rules that copy the array, with the parameter name
    each one writes. *)
Definition norm_rules : list (string * string) :=
  [("attn/_key_norm", ".self_attn.k_norm.weight");
   ("attn/_query_norm", ".self_attn.q_norm.weight");
   ("post_attention_norm", ".post_attention_layernorm.weight");
   ("post_ffw_norm", ".post_feedforward_layernorm.weight");
   ("pre_attention_norm", ".input_layernorm.weight");
   ("pre_ffw_norm", ".pre_feedforward_layernorm.weight")].

(** The first path segment of a leaf puts it in the vision branch. *)
Definition is_vision_leaf {A : Type} (leaf : list string * A) : bool :=
  match leaf.1 !! 0%nat with
  | Some first => PyStr.startswith first vision_sentinel
  | None => false
  end.

(** The leaf shapes the vision table has a rule for, decided with the
    string tests of the converter. *)
Definition siglip_recognizedb (path prop : string) : bool :=
  let sub := block_subpath _SIGLIP_TRANSFORMER_ENCODER_BLOCK_LEN path in
  String.eqb path _SIGLIP_BASE
  || (String.eqb path _SIGLIP_EMBEDDING
      && existsb (String.eqb prop) ["kernel"; "bias"])
  || (PyStr.startswith path _SIGLIP_TRANSFORMER_ENCODER_BLOCK
      && ((PyStr.startswith sub "/LayerNorm"
           && existsb (String.eqb prop) ["scale"; "bias"])
          || (PyStr.startswith sub "/MlpBlock_0"
              && existsb (String.eqb prop) ["kernel"; "bias"])
          || (PyStr.startswith sub "/MultiHeadDotProductAttention_0"
              && existsb (PyStr.endswith sub) ["/key"; "/out"; "/query"; "/value"]
              && existsb (String.eqb prop) ["kernel"; "bias"])))
  || (String.eqb path _SIGLIP_TRANSFORMER_ENCODER_NORM
      && existsb (String.eqb prop) ["scale"; "bias"]).

(* ===================================================================== *)
(** ** Sample inputs *)
(* ===================================================================== *)

Module Sample.

(** Stored values are integers here.  Converting to [bfloat16] clears
    the low sixteen bits; every other conversion keeps the value. *)
Definition cast (src dst : dtype) (x : Z) : Z :=
  match dst with
  | bfloat16 => Z.land x (Z.lnot 65535)
  | _ => x
  end.

(** The array of shape [sh] holding [0, 1, 2, ...], stored as
    [bfloat16]. *)
Definition arange (sh : list nat) : ndarray Z :=
  NDArray bfloat16 sh (Z.of_nat <$> seq 0 (size_of sh)).

Definition text : Gemma3TextConfig :=
  {| hidden_size := 3; num_attention_heads := 2;
     num_key_value_heads := 2; head_dim := 2 |}.

Definition vision : Gemma3VisionConfig := {| vision_hidden_size := 2 |}.

Definition text_only : Gemma3Config :=
  {| text_config := text; vision_config := None |}.

Definition multimodal : Gemma3Config :=
  {| text_config := text; vision_config := Some vision |}.

Definition attention_key_path : string :=
  "SigLiPFromPatches_0/siglip_encoder/Transformer/encoderblock_3/MultiHeadDotProductAttention_0/key".

(** Two leaves under the final norm, with different leaf properties. *)
Definition two_norm_leaves : list (list string * ndarray Z) :=
  [(["transformer/final_norm"; "scale"], arange [3%nat]);
   (["transformer/final_norm"; "bias"], NDArray float32 [3%nat] [7; 8; 9])].

(** A small tree in the layout the rules are written for. *)
Definition small_tree : list (list string * ndarray Z) :=
  [(["transformer/embedder"; "input_embedding"], arange [4; 3]%nat);
   (["transformer/embedder"; "mm_output_embedding"], arange [4; 3]%nat);
   (["transformer/final_norm"; "scale"], arange [3%nat]);
   (["transformer/layer_0/attn/kv_einsum"; "w"], arange [2; 2; 3; 2]%nat);
   (["transformer/layer_0/mlp/gating_einsum"; "w"], arange [2; 3; 5]%nat);
   (["transformer/layer_1/mlp/gating_einsum"; "w"], arange [2; 3; 5]%nat);
   ([attention_key_path; "kernel"], arange [2; 1; 3]%nat);
   ([attention_key_path; "bias"], arange [1; 2]%nat)].

(** A text leaf and a vision leaf. *)
Definition norm_and_vision : list (list string * ndarray Z) :=
  [(["transformer/final_norm"; "scale"], arange [3%nat]);
   ([attention_key_path; "kernel"], arange [2; 1; 3]%nat)].

Definition small_tree_locations : list location :=
  [Embedder "input_embedding"; Embedder "mm_output_embedding"; FinalNorm;
   DecoderLayer "0" KvEinsum; DecoderLayer "0" GatingEinsum;
   DecoderLayer "1" GatingEinsum;
   VisionLayer "3" AttnKey "kernel"; VisionLayer "3" AttnKey "bias"].

End Sample.

(* ===================================================================== *)
(** ** Facts about Python strings *)
(* ===================================================================== *)

Section StringFacts.

Implicit Types s p q r : string.

Lemma str_app_nil_r s : s +:+ "" = s.
Proof. induction s as [|a s IH]; [done|]. unfold String.app; simpl. by f_equal. Qed.

Lemma str_app_cons a s r : String a s +:+ r = String a (s +:+ r).
Proof. reflexivity. Qed.

Lemma str_app_assoc s p r : (s +:+ p) +:+ r = s +:+ (p +:+ r).
Proof.
  induction s as [|a s IH]; [done|]. rewrite !str_app_cons. by f_equal.
Qed.

Lemma str_length_app s r :
  String.length (s +:+ r) = (String.length s + String.length r)%nat.
Proof.
  induction s as [|a s IH]; [done|]. rewrite str_app_cons. simpl. by f_equal.
Qed.

Lemma str_take_drop n s : PyStr.take n s +:+ PyStr.drop n s = s.
Proof.
  revert s. induction n as [|n IH]; intros [|a s]; try done.
  simpl. rewrite str_app_cons. by f_equal.
Qed.

Lemma str_drop_app_length s r : PyStr.drop (String.length s) (s +:+ r) = r.
Proof. induction s as [|a s IH]; [done|]. by rewrite str_app_cons. Qed.

Lemma str_take_app_length s r : PyStr.take (String.length s) (s +:+ r) = s.
Proof.
  induction s as [|a s IH]; [by destruct r|]. rewrite str_app_cons. simpl. by f_equal.
Qed.

Lemma str_drop_drop n m s : PyStr.drop n (PyStr.drop m s) = PyStr.drop (m + n) s.
Proof.
  revert s. induction m as [|m IH]; intros s; [done|].
  destruct s as [|a s]; simpl; [by destruct n|]. apply IH.
Qed.

Lemma str_length_drop n s :
  String.length (PyStr.drop n s) = (String.length s - n)%nat.
Proof.
  revert s. induction n as [|n IH]; intros [|a s]; simpl; try done.
Qed.

Lemma str_drop_all n s : (String.length s ≤ n)%nat → PyStr.drop n s = "".
Proof.
  revert s. induction n as [|n IH]; intros [|a s] Hn; simpl in *; try done; try lia.
  apply IH. lia.
Qed.

Lemma startswith_empty s : PyStr.startswith s "" = true.
Proof. by destruct s. Qed.

Lemma startswith_app p r : PyStr.startswith (p +:+ r) p = true.
Proof.
  induction p as [|a p IH]; [by destruct r|].
  rewrite str_app_cons. simpl. by rewrite Ascii.eqb_refl.
Qed.

Lemma startswith_drop s p :
  PyStr.startswith s p = true → s = p +:+ PyStr.drop (String.length p) s.
Proof.
  revert s. induction p as [|a p IH]; intros s H; [done|].
  destruct s as [|b s]; [done|]. simpl in H.
  destruct (Ascii.eqb a b) eqn:Hab; [|done].
  apply Ascii.eqb_eq in Hab as ->. rewrite str_app_cons. simpl. f_equal. by apply IH.
Qed.

Lemma startswith_iff s p :
  PyStr.startswith s p = true ↔ ∃ r, s = p +:+ r.
Proof.
  split.
  - intros H. eexists. by apply startswith_drop.
  - intros [r ->]. apply startswith_app.
Qed.

(** Two prefixes of one string are comparable. *)
Lemma startswith_comparable s p q :
  PyStr.startswith s p = true → PyStr.startswith s q = true →
  PyStr.startswith p q = true ∨ PyStr.startswith q p = true.
Proof.
  revert s q. induction p as [|a p IH]; intros s q Hp Hq.
  - right. by destruct q.
  - destruct q as [|b q]; [by left|].
    destruct s as [|c s]; [done|]. simpl in *.
    destruct (Ascii.eqb a c) eqn:Hac; [|done].
    destruct (Ascii.eqb b c) eqn:Hbc; [|done].
    apply Ascii.eqb_eq in Hac as ->. apply Ascii.eqb_eq in Hbc as ->.
    rewrite Ascii.eqb_refl. eauto.
Qed.

Lemma startswith_excl s p q :
  PyStr.startswith s p = true →
  PyStr.startswith p q = false → PyStr.startswith q p = false →
  PyStr.startswith s q = false.
Proof.
  intros Hp Hpq Hqp. destruct (PyStr.startswith s q) eqn:Hq; [|done].
  destruct (startswith_comparable s p q Hp Hq); congruence.
Qed.

Lemma eqb_excl_startswith s p x :
  PyStr.startswith s p = true → PyStr.startswith x p = false →
  String.eqb s x = false.
Proof.
  intros Hp Hx. apply String.eqb_neq. intros ->. congruence.
Qed.

Lemma endswith_iff s p : PyStr.endswith s p = true ↔ ∃ r, s = r +:+ p.
Proof.
  unfold PyStr.endswith. split.
  - destruct (_ <=? _)%nat; [|done]. intros H%String.eqb_eq.
    exists (PyStr.take (String.length s - String.length p) s).
    etrans; [symmetry; apply (str_take_drop (String.length s - String.length p))|].
    by rewrite H.
  - intros [r ->]. rewrite str_length_app.
    destruct (Nat.leb_spec (String.length p) (String.length r + String.length p));
      [|lia].
    replace (String.length r + String.length p - String.length p)%nat
      with (String.length r) by lia.
    rewrite str_drop_app_length. apply String.eqb_refl.
Qed.

Lemma endswith_app r p : PyStr.endswith (r +:+ p) p = true.
Proof. apply endswith_iff. eauto. Qed.

Lemma endswith_drop s p :
  PyStr.endswith s p = true →
  (String.length p ≤ String.length s)%nat ∧
  PyStr.drop (String.length s - String.length p) s = p.
Proof.
  unfold PyStr.endswith.
  destruct (Nat.leb_spec (String.length p) (String.length s)) as [Hle|Hle];
    [|done].
  intros Heq%String.eqb_eq. done.
Qed.

Lemma str_drop_endswith n s : PyStr.endswith s (PyStr.drop n s) = true.
Proof.
  apply endswith_iff. exists (PyStr.take n s). by rewrite str_take_drop.
Qed.

(** Two suffixes of one string are comparable. *)
Lemma endswith_comparable s p q :
  PyStr.endswith s p = true → PyStr.endswith s q = true →
  PyStr.endswith p q = true ∨ PyStr.endswith q p = true.
Proof.
  intros [Hlp Hp]%endswith_drop [Hlq Hq]%endswith_drop.
  destruct (Nat.le_ge_cases (String.length p) (String.length q)) as [Hle|Hle].
  - right. rewrite <-Hp, <-Hq.
    replace (String.length s - String.length p)%nat
      with (String.length s - String.length q
            + (String.length q - String.length p))%nat by lia.
    rewrite <-str_drop_drop. apply str_drop_endswith.
  - left. rewrite <-Hp, <-Hq.
    replace (String.length s - String.length q)%nat
      with (String.length s - String.length p
            + (String.length p - String.length q))%nat by lia.
    rewrite <-str_drop_drop. apply str_drop_endswith.
Qed.

Lemma endswith_excl s p q :
  PyStr.endswith s p = true →
  PyStr.endswith p q = false → PyStr.endswith q p = false →
  PyStr.endswith s q = false.
Proof.
  intros Hp Hpq Hqp. destruct (PyStr.endswith s q) eqn:Hq; [|done].
  destruct (endswith_comparable s p q Hp Hq); congruence.
Qed.

Lemma slice_from_len_app p r : PyStr.slice_from (p +:+ r) (PyStr.len p) = r.
Proof.
  unfold PyStr.slice_from, PyStr.bound, PyStr.len. rewrite str_length_app.
  destruct (Z.ltb_spec (Z.of_nat (String.length p)) 0); [lia|].
  replace (Z.to_nat _) with (String.length p) by lia.
  apply str_drop_app_length.
Qed.

Lemma slice_to_len_app p r : PyStr.slice_to (p +:+ r) (PyStr.len p) = p.
Proof.
  unfold PyStr.slice_to, PyStr.bound, PyStr.len. rewrite str_length_app.
  destruct (Z.ltb_spec (Z.of_nat (String.length p)) 0); [lia|].
  replace (Z.to_nat _) with (String.length p) by lia.
  apply str_take_app_length.
Qed.

Lemma startswith_app_l p q r :
  PyStr.startswith p q = true → PyStr.startswith (p +:+ r) q = true.
Proof.
  intros [t ->]%startswith_iff. rewrite str_app_assoc. apply startswith_app.
Qed.

Lemma str_drop_app_ge n s r :
  PyStr.drop (String.length s + n) (s +:+ r) = PyStr.drop n r.
Proof. induction s as [|a s IH]; [done|]. by rewrite str_app_cons. Qed.

(** A test for a suffix no longer than the last part of a
    concatenation looks at that part only. *)
Lemma endswith_app_r s r p :
  (String.length p ≤ String.length r)%nat →
  PyStr.endswith (s +:+ r) p = PyStr.endswith r p.
Proof.
  intros Hle. unfold PyStr.endswith. rewrite str_length_app.
  destruct (Nat.leb_spec (String.length p) (String.length s + String.length r));
    [|lia].
  destruct (Nat.leb_spec (String.length p) (String.length r)); [|lia].
  replace (String.length s + String.length r - String.length p)%nat
    with (String.length s + (String.length r - String.length p))%nat by lia.
  by rewrite str_drop_app_ge.
Qed.

End StringFacts.

(* ===================================================================== *)
(** ** Facts about arrays *)
(* ===================================================================== *)

Lemma divmod_unique (k d q r : nat) :
  (r < d)%nat → k = (q * d + r)%nat → (k / d)%nat = q ∧ (k mod d)%nat = r.
Proof.
  intros Hr ->. split.
  - symmetry. apply (Nat.div_unique _ d q r); lia.
  - symmetry. apply (Nat.mod_unique _ d q r); lia.
Qed.

Lemma flat_lt (i n j m : nat) :
  (i < n)%nat → (j < m)%nat → (i * m + j < n * m)%nat.
Proof. intros Hi Hj. assert ((i + 1) * m ≤ n * m)%nat by (apply Nat.mul_le_mono_r; lia). lia. Qed.

Lemma omap_total {A B : Type} (g : A → option B) (l : list A) :
  (∀ x, x ∈ l → is_Some (g x)) →
  length (omap g l) = length l ∧ ∀ i, omap g l !! i = l !! i ≫= g.
Proof.
  induction l as [|x l IH]; intros Hl.
  - split; [done|]. by intros i.
  - destruct (Hl x) as [y Hy]; [left|].
    destruct IH as [IHlen IHlook]; [intros z Hz; apply Hl; by right|].
    change (omap g (x :: l)) with
      (match g x with Some y => y :: omap g l | None => omap g l end).
    rewrite Hy. split; [simpl; by f_equal|].
    intros [|i]; simpl; [done|apply IHlook].
Qed.

Lemma gather_lookup {A : Type} (data : list A) (f : nat → nat) (n : nat) :
  (∀ k, (k < n)%nat → (f k < length data)%nat) →
  length (omap (λ k, data !! f k) (seq 0 n)) = n ∧
  ∀ k, (k < n)%nat →
    omap (λ k, data !! f k) (seq 0 n) !! k = data !! f k.
Proof.
  intros Hf.
  destruct (omap_total (λ k, data !! f k) (seq 0 n)) as [Hlen Hlook].
  { intros k [i [-> Hi]%lookup_seq]%list_elem_of_lookup.
    apply lookup_lt_is_Some. apply Hf. lia. }
  split; [by rewrite Hlen, length_seq|].
  intros k Hk. rewrite Hlook, lookup_seq_lt by done. done.
Qed.

Lemma valid_axes_reverse (n : nat) : valid_axes n (reverse (seq 0 n)) = true.
Proof.
  apply bool_decide_eq_true. split_and!.
  - by rewrite length_reverse, length_seq.
  - rewrite reverse_Permutation. apply NoDup_seq.
  - apply Forall_reverse, Forall_seq. intros; lia.
Qed.

Section ArrayFacts.

Context {elt : Type}.
Implicit Types a b : ndarray elt.

Local Arguments Nat.div : simpl never.
Local Arguments Nat.modulo : simpl never.

(** The three components of a method result and of a row. *)
Lemma nd_dtype_result a (sh : list nat) (data : list elt) :
  nd_dtype (np_result a sh data) = nd_dtype a.
Proof. by destruct sh, a. Qed.

Lemma nd_shape_result a (sh : list nat) (data : list elt) :
  nd_shape (np_result a sh data) = sh.
Proof. by destruct sh, a. Qed.

Lemma nd_data_result a (sh : list nat) (data : list elt) :
  nd_data (np_result a sh data) = data.
Proof. by destruct sh, a. Qed.

Lemma np_size_result a (sh : list nat) (data : list elt) :
  np_size (np_result a sh data) = size_of sh.
Proof. by destruct sh, a. Qed.

Lemma np_result_array a (sh : list nat) (data : list elt) :
  is_ndarray a = true →
  np_result a sh data = NDArray (nd_dtype a) sh data.
Proof. by destruct sh, a. Qed.

Lemma nd_dtype_row a (sh : list nat) (i : nat) :
  nd_dtype (np_row sh a i) = nd_dtype a.
Proof. by destruct sh. Qed.

Lemma nd_shape_row a (sh : list nat) (i : nat) :
  nd_shape (np_row sh a i) = sh.
Proof. by destruct sh. Qed.

Lemma nd_data_row a (sh : list nat) (i : nat) :
  nd_data (np_row sh a i) =
  take (size_of sh) (drop (i * size_of sh) (nd_data a)).
Proof. by destruct sh. Qed.



(** Reshaping to explicit dimensions of the right total succeeds and
    keeps the buffer. *)
Lemma np_reshape_dims a (dims : list nat) :
  size_of dims = np_size a →
  np_reshape a (Z.of_nat <$> dims) = Ok (np_result a dims (nd_data a)).
Proof.
  intros Hsz. unfold np_reshape.
  assert (filter (λ d, 0 ≤ d) (Z.of_nat <$> dims) = Z.of_nat <$> dims) as ->.
  { clear Hsz. induction dims as [|d dims IH]; [done|].
    rewrite fmap_cons, filter_cons_True by lia. f_equal. apply IH. }
  rewrite Nat.sub_diag.
  assert (Z.to_nat <$> (Z.of_nat <$> dims) = dims) as ->.
  { rewrite <-list_fmap_compose. rewrite <-(list_fmap_id dims) at 2.
    apply list_fmap_ext. intros _ d _. simpl. apply Nat2Z.id. }
  rewrite Hsz, Nat.eqb_refl. done.
Qed.

(** [reshape(-1, n)] *)
Lemma np_reshape_rows a (n : nat) :
  n ≠ 0%nat → (np_size a mod n)%nat = 0%nat →
  np_reshape a [-1; Z.of_nat n] =
    Ok (NDArray (nd_dtype a) [(np_size a / n)%nat; n] (nd_data a)).
Proof.
  intros Hn Hmod. unfold np_reshape.
  rewrite filter_cons_False by lia.
  rewrite filter_cons_True by lia. rewrite filter_nil.
  simpl. rewrite Nat2Z.id, Nat.mul_1_r.
  destruct (Nat.eqb_spec n 0); [done|]. simpl.
  rewrite Hmod. simpl. unfold infer_dim. simpl.
  destruct (Z.ltb_spec (Z.of_nat n) 0); [lia|]. by rewrite Nat2Z.id.
Qed.

(** [reshape(-1)] flattens. *)
Lemma np_reshape_flat a :
  np_reshape a [-1] = Ok (NDArray (nd_dtype a) [np_size a] (nd_data a)).
Proof.
  unfold np_reshape.
  rewrite filter_cons_False by lia. rewrite filter_nil.
  cbn [length Nat.sub fmap list_fmap size_of foldr].
  by rewrite Nat.mod_1_r, Nat.div_1_r.
Qed.

(** Swapping the last two axes of a 3-d array. *)
Lemma np_transpose_021 a (d0 d1 d2 : nat) :
  nd_shape a = [d0; d1; d2] → well_formed a →
  ∃ b, np_transpose a [0; 2; 1]%nat = Ok b ∧
       nd_dtype b = nd_dtype a ∧
       nd_shape b = [d0; d2; d1] ∧
       well_formed b ∧
       ∀ x y z, (x < d0)%nat → (y < d1)%nat → (z < d2)%nat →
         nd_data b !! ((x * d2 + z) * d1 + y)%nat =
         nd_data a !! ((x * d1 + y) * d2 + z)%nat.
Proof.
  intros Hsh Hwf. unfold np_transpose. rewrite Hsh.
  change (valid_axes _ _) with true. cbv iota.
  eexists. split; [done|]. simpl.
  unfold well_formed in *. rewrite Hsh in Hwf. simpl in Hwf. simpl.
  rewrite !Nat.mul_1_r in *.
  edestruct (gather_lookup (nd_data a)) as [Hlen Hlook]; last first.
  { split; [done|]. split; [done|]. split; [exact Hlen|].
    intros x y z Hx Hy Hz.
    pose proof (flat_lt x d0 z d2 Hx Hz) as B1.
    pose proof (flat_lt _ _ y d1 B1 Hy) as B2.
    pose proof (flat_lt z d2 y d1 Hz Hy) as B3.
    rewrite Hlook by lia.
    destruct (divmod_unique ((x * d2 + z) * d1 + y) (d2 * d1) x (z * d1 + y))
      as [-> ->]; [lia|lia|].
    destruct (divmod_unique (z * d1 + y) d1 z y) as [-> ->]; [lia|lia|].
    rewrite Nat.div_1_r. f_equal. unfold offset. simpl. lia. }
  intros k Hk. simpl. unfold offset. simpl. rewrite Nat.div_1_r.
  assert (d2 * d1 ≠ 0)%nat as Hne by nia.
  assert (d1 ≠ 0)%nat as Hne1 by nia.
  pose proof (Nat.div_mod_eq k (d2 * d1)) as E1.
  pose proof (Nat.mod_upper_bound k (d2 * d1) Hne) as B1.
  pose proof (Nat.div_mod_eq (k mod (d2 * d1)) d1) as E2.
  pose proof (Nat.mod_upper_bound (k mod (d2 * d1)) d1 Hne1) as B2.
  set (x := (k / (d2 * d1))%nat) in *.
  set (r := (k mod (d2 * d1))%nat) in *.
  set (z := (r / d1)%nat) in *. set (y := (r mod d1)%nat) in *.
  assert (x < d0)%nat as Hx by nia. assert (z < d2)%nat as Hz by nia.
  pose proof (flat_lt x d0 y d1 Hx B2) as B3.
  pose proof (flat_lt _ _ z d2 B3 Hz) as B4.
  rewrite Hwf. lia.
Qed.

(** Transposing a 2-d array. *)
Lemma np_transpose_rev_2d a (d0 d1 : nat) :
  nd_shape a = [d0; d1] → well_formed a →
  ∃ b, np_transpose_rev a = Ok b ∧
       nd_dtype b = nd_dtype a ∧
       nd_shape b = [d1; d0] ∧
       well_formed b ∧
       ∀ i j, (i < d0)%nat → (j < d1)%nat →
         nd_data b !! (j * d0 + i)%nat = nd_data a !! (i * d1 + j)%nat.
Proof.
  intros Hsh Hwf. unfold np_transpose_rev, np_transpose. rewrite Hsh.
  change (valid_axes _ _) with true. cbv iota.
  eexists. split; [done|]. simpl.
  unfold well_formed in *. rewrite Hsh in Hwf. simpl in Hwf. simpl.
  rewrite !Nat.mul_1_r in *.
  edestruct (gather_lookup (nd_data a)) as [Hlen Hlook]; last first.
  { split; [done|]. split; [done|]. split; [exact Hlen|].
    intros i j Hi Hj.
    pose proof (flat_lt j d1 i d0 Hj Hi) as B1.
    rewrite Hlook by lia.
    destruct (divmod_unique (j * d0 + i) d0 j i) as [-> ->]; [lia|lia|].
    rewrite Nat.div_1_r. f_equal. unfold offset. simpl. lia. }
  intros k Hk. simpl. unfold offset. simpl. rewrite Nat.div_1_r.
  assert (d0 ≠ 0)%nat as Hne by nia.
  pose proof (Nat.div_mod_eq k d0) as E1.
  pose proof (Nat.mod_upper_bound k d0 Hne) as B1.
  set (j := (k / d0)%nat) in *. set (i := (k mod d0)%nat) in *.
  assert (j < d1)%nat as Hj by nia.
  pose proof (flat_lt i d0 j d1 B1 Hj) as B2.
  rewrite Hwf. lia.
Qed.

(** Unpacking an array whose leading axis has two entries. *)
Lemma np_unpack2_two a (sh : list nat) :
  nd_shape a = 2%nat :: sh →
  np_unpack2 a = Ok (np_row sh a 0, np_row sh a 1).
Proof. intros Hsh. unfold np_unpack2, np_iter. by rewrite Hsh. Qed.

Lemma np_row_well_formed a (n : nat) (sh : list nat) (i : nat) :
  nd_shape a = n :: sh → well_formed a → (i < n)%nat →
  well_formed (np_row sh a i) ∧
  ∀ k, (k < size_of sh)%nat →
    nd_data (np_row sh a i) !! k = nd_data a !! (i * size_of sh + k)%nat.
Proof.
  intros Hsh Hwf Hi. unfold well_formed in *. rewrite Hsh in Hwf.
  rewrite nd_shape_row, nd_data_row.
  simpl in *. split.
  - rewrite length_take, length_drop. nia.
  - intros k Hk. rewrite lookup_take_lt by done. by rewrite lookup_drop.
Qed.

End ArrayFacts.

(* ===================================================================== *)
(** ** The text rule table *)
(* ===================================================================== *)

(** A decoder-block path is none of the paths tested before it. *)
Lemma decoder_block_not_earlier (path : string) :
  PyStr.startswith path _TRANSFORMER_DECODER_BLOCK = true →
  String.eqb path _TRANSFORMER_EMBEDDER = false ∧
  PyStr.startswith path (_TRANSFORMER_EMBEDDER +:+ "/mm") = false ∧
  String.eqb path _TRANSFORMER_FINAL_NORM = false.
Proof.
  intros H. split_and!.
  - by eapply eqb_excl_startswith.
  - by eapply startswith_excl.
  - by eapply eqb_excl_startswith.
Qed.

Ltac enter_decoder_block H :=
  let E1 := fresh in let E2 := fresh in let E3 := fresh in
  destruct (decoder_block_not_earlier _ H) as (E1 & E2 & E3);
  rewrite E1, E2, E3, H; clear E1 E2 E3.

Ltac not_suffix H s :=
  rewrite (endswith_excl _ _ s H eq_refl eq_refl).

Section TextRules.

Context {elt : Type}.
Implicit Types weights : ndarray elt.

Local Arguments Nat.div : simpl never.
Local Arguments Nat.modulo : simpl never.

(** C4.  The embedder's ["input_embedding"] leaf is emitted twice, under
    the token-embedding key and under the output-projection key, and
    both emitted arrays are the source array itself. *)
Theorem input_embedding_duplicated (config : Gemma3TextConfig) weights :
  _convert_transformer_weights config
    [_TRANSFORMER_EMBEDDER; "input_embedding"] weights =
  Ok [("language_model.model.embed_tokens.weight", weights);
      ("language_model.lm_head.weight", weights)].
Proof. reflexivity. Qed.

(** C3.  For a decoder-block path ending in ["mlp/gating_einsum"] and an
    array of shape (2, H, I), exactly two pairs are emitted,
    [gate_proj.weight] and [up_proj.weight]; their arrays are the two
    slices along axis 0 with nothing else done to them: each has the
    dtype of the source and shape (H, I), holds H * I elements, and
    element (i, j) of the gate array is element (0, i, j) of the
    source, element (i, j) of the up array is element (1, i, j). *)
Theorem gating_einsum_split (config : Gemma3TextConfig)
    (path prop : string) weights (H I : nat) :
  PyStr.startswith path _TRANSFORMER_DECODER_BLOCK = true →
  PyStr.endswith path "mlp/gating_einsum" = true →
  nd_shape weights = [2; H; I]%nat →
  well_formed weights →
  ∃ gate up : ndarray elt,
    _convert_transformer_weights config [path; prop] weights =
      Ok [(decoder_base_path path +:+ ".mlp.gate_proj.weight", gate);
          (decoder_base_path path +:+ ".mlp.up_proj.weight", up)] ∧
    nd_dtype gate = nd_dtype weights ∧ nd_dtype up = nd_dtype weights ∧
    nd_shape gate = [H; I] ∧ nd_shape up = [H; I] ∧
    length (nd_data gate) = (H * I)%nat ∧
    length (nd_data up) = (H * I)%nat ∧
    nd_data weights = nd_data gate ++ nd_data up ∧
    ∀ i j, (i < H)%nat → (j < I)%nat →
      nd_data gate !! ravel [H; I] [i; j] =
        nd_data weights !! ravel [2; H; I]%nat [0%nat; i; j] ∧
      nd_data up !! ravel [H; I] [i; j] =
        nd_data weights !! ravel [2; H; I]%nat [1%nat; i; j].
Proof.
  intros Hblk Hsuf Hsh Hwf.
  destruct (np_row_well_formed weights 2 [H; I] 0 Hsh Hwf) as [Hwf0 Hel0]; [lia|].
  destruct (np_row_well_formed weights 2 [H; I] 1 Hsh Hwf) as [Hwf1 Hel1]; [lia|].
  exists (np_row [H; I] weights 0), (np_row [H; I] weights 1).
  split_and!; [|done|done|done|done| | | |].
  - unfold _convert_transformer_weights, _convert_transformer_weights_chain.
    cbn [unpack2 mbind result_bind].
    enter_decoder_block Hblk.
    not_suffix Hsuf "attn/attn_vec_einsum". not_suffix Hsuf "attn/_key_norm".
    not_suffix Hsuf "attn/kv_einsum". not_suffix Hsuf "attn/q_einsum".
    not_suffix Hsuf "attn/_query_norm". rewrite Hsuf.
    rewrite (np_unpack2_two _ _ Hsh). reflexivity.
  - rewrite Hwf0. simpl. lia.
  - rewrite Hwf1. simpl. lia.
  - unfold well_formed in Hwf. rewrite Hsh in Hwf. simpl in *.
    rewrite Nat.mul_1_r in *. rewrite drop_0.
    rewrite Nat.add_0_r.
    rewrite (take_ge (drop _ _)) by (rewrite length_drop; lia).
    by rewrite take_drop.
  - intros i j Hi Hj.
    assert (i * I + j < size_of [H; I])%nat as Hlt.
    { simpl. rewrite Nat.mul_1_r. by apply flat_lt. }
    replace (ravel [H; I] [i; j]) with (i * I + j)%nat
      by (unfold ravel; cbn; lia).
    replace (ravel [2; H; I]%nat [0%nat; i; j])
      with (0 * size_of [H; I] + (i * I + j))%nat
      by (unfold ravel; cbn; lia).
    replace (ravel [2; H; I]%nat [1%nat; i; j])
      with (1 * size_of [H; I] + (i * I + j))%nat
      by (unfold ravel; cbn; lia).
    split; [by apply Hel0|by apply Hel1].
Qed.

(** C2.  For a decoder-block path ending in ["attn/kv_einsum"] and an
    array stacking two sub-tensors of shape
    (num_key_value_heads, hidden_size, head_dim) along the leading axis,
    exactly two pairs are emitted, [k_proj.weight] and [v_proj.weight].
    Each array is the corresponding slice permuted by axes (0, 2, 1) and
    reshaped to (num_key_value_heads * head_dim, hidden_size): row
    [h * head_dim + d], column [i] of the result is element (h, i, d)
    of the slice. *)
Theorem kv_einsum_split (config : Gemma3TextConfig)
    (path prop : string) weights (kvh hs hd : nat) :
  PyStr.startswith path _TRANSFORMER_DECODER_BLOCK = true →
  PyStr.endswith path "attn/kv_einsum" = true →
  num_key_value_heads config = Z.of_nat kvh →
  hidden_size config = Z.of_nat hs →
  head_dim config = Z.of_nat hd →
  nd_shape weights = [2; kvh; hs; hd]%nat →
  well_formed weights →
  ∃ k v : ndarray elt,
    _convert_transformer_weights config [path; prop] weights =
      Ok [(decoder_base_path path +:+ ".self_attn.k_proj.weight", k);
          (decoder_base_path path +:+ ".self_attn.v_proj.weight", v)] ∧
    (t ← np_transpose (np_row [kvh; hs; hd] weights 0) [0; 2; 1]%nat;
     np_reshape t [Z.of_nat kvh * Z.of_nat hd; Z.of_nat hs]) = Ok k ∧
    (t ← np_transpose (np_row [kvh; hs; hd] weights 1) [0; 2; 1]%nat;
     np_reshape t [Z.of_nat kvh * Z.of_nat hd; Z.of_nat hs]) = Ok v ∧
    nd_shape k = [(kvh * hd)%nat; hs] ∧
    nd_shape v = [(kvh * hd)%nat; hs] ∧
    ∀ h i d, (h < kvh)%nat → (i < hs)%nat → (d < hd)%nat →
      nd_data k !! ((h * hd + d) * hs + i)%nat =
        nd_data weights !! ((h * hs + i) * hd + d)%nat ∧
      nd_data v !! ((h * hd + d) * hs + i)%nat =
        nd_data weights !! (kvh * hs * hd + (h * hs + i) * hd + d)%nat.
Proof.
  intros Hblk Hsuf Hkvh Hhs Hhd Hsh Hwf.
  destruct (np_row_well_formed weights 2 [kvh; hs; hd] 0 Hsh Hwf)
    as [Hwf0 Hrow0]; [lia|].
  destruct (np_row_well_formed weights 2 [kvh; hs; hd] 1 Hsh Hwf)
    as [Hwf1 Hrow1]; [lia|].
  destruct (np_transpose_021 (np_row [kvh; hs; hd] weights 0) kvh hs hd
              eq_refl Hwf0) as (kt & Hkt & Hkdt & Hksh & Hkwf & Hkel).
  destruct (np_transpose_021 (np_row [kvh; hs; hd] weights 1) kvh hs hd
              eq_refl Hwf1) as (vt & Hvt & Hvdt & Hvsh & Hvwf & Hvel).
  assert (∀ t : ndarray elt, nd_shape t = [kvh; hd; hs] →
            np_reshape t [Z.of_nat kvh * Z.of_nat hd; Z.of_nat hs] =
            Ok (NDArray (nd_dtype t) [(kvh * hd)%nat; hs] (nd_data t)))
    as Hreshape.
  { intros t Ht. rewrite <-Nat2Z.inj_mul.
    apply (np_reshape_dims t [(kvh * hd)%nat; hs]).
    unfold np_size. rewrite Ht. simpl. lia. }
  exists (NDArray (nd_dtype kt) [(kvh * hd)%nat; hs] (nd_data kt)),
         (NDArray (nd_dtype vt) [(kvh * hd)%nat; hs] (nd_data vt)).
  split_and!; [| | |done|done|].
  - unfold _convert_transformer_weights, _convert_transformer_weights_chain.
    cbn [unpack2 mbind result_bind].
    enter_decoder_block Hblk.
    not_suffix Hsuf "attn/attn_vec_einsum". not_suffix Hsuf "attn/_key_norm".
    rewrite Hsuf.
    rewrite (np_unpack2_two _ _ Hsh). cbn [mbind result_bind].
    rewrite Hkt, Hvt, Hkvh, Hhs, Hhd. cbn [mbind result_bind].
    rewrite !Hreshape by done. reflexivity.
  - rewrite Hkt. cbn [mbind result_bind]. by apply Hreshape.
  - rewrite Hvt. cbn [mbind result_bind]. by apply Hreshape.
  - intros h i d Hh Hi Hd. cbn [nd_data].
    pose proof (flat_lt h kvh i hs Hh Hi).
    pose proof (flat_lt (h * hs + i) (kvh * hs) d hd ltac:(done) Hd).
    rewrite Hkel, Hvel by done.
    rewrite Hrow0, Hrow1 by (simpl; lia).
    split; f_equal; simpl; lia.
Qed.

End TextRules.

Ltac solve_keys :=
  repeat (apply Forall_cons; split;
          [first [by left | right; eexists; reflexivity]|]);
  apply Forall_nil_2.

Section TextDispatch.

Context {elt : Type}.
Implicit Types weights : ndarray elt.

Lemma np_reshape_raises weights sh e :
  np_reshape weights sh = Raise e → raised_by_module e = false.
Proof.
  unfold np_reshape. intros H.
  repeat case_match; by simplify_eq.
Qed.

Lemma np_transpose_raises weights axes e :
  np_transpose weights axes = Raise e → raised_by_module e = false.
Proof. unfold np_transpose. intros H. case_match; by simplify_eq. Qed.

Lemma np_transpose_rev_ok weights :
  ∃ t, np_transpose_rev weights = Ok t.
Proof.
  unfold np_transpose_rev, np_transpose.
  rewrite valid_axes_reverse. eauto.
Qed.

Lemma np_unpack2_raises weights e :
  np_unpack2 weights = Raise e → raised_by_module e = false.
Proof.
  unfold np_unpack2, np_iter, unpack2. intros H.
  destruct (nd_shape weights) as [|n sh]; simpl in H; [by simplify_eq|].
  repeat case_match; by simplify_eq.
Qed.

Lemma np_reshape_raise_kind weights sh e :
  np_reshape weights sh = Raise e → raised_by_numpy e = true.
Proof.
  unfold np_reshape. intros H.
  repeat case_match; by simplify_eq.
Qed.

Lemma np_transpose_raise_kind weights axes e :
  np_transpose weights axes = Raise e → raised_by_numpy e = true.
Proof. unfold np_transpose. intros H. case_match; by simplify_eq. Qed.

Lemma np_unpack2_raise_kind weights e :
  np_unpack2 weights = Raise e → raised_by_unpacking e = true.
Proof.
  unfold np_unpack2, np_iter, unpack2. intros H.
  destruct (nd_shape weights) as [|n sh]; simpl in H; [by simplify_eq|].
  repeat case_match; by simplify_eq.
Qed.

Lemma recognized_iff (path prop : string) :
  recognized path prop ↔ recognizedb path prop = true.
Proof.
  unfold recognized, recognizedb.
  rewrite !orb_true_iff, !andb_true_iff, !existsb_exists.
  rewrite !String.eqb_eq, !startswith_iff.
  assert (∀ (l : list string) (P : string → Prop) (f : string → bool),
            (∀ x, f x = true ↔ P x) →
            (∃ x, x ∈ l ∧ P x) ↔ (∃ x, In x l ∧ f x = true)) as Hex.
  { intros l P f Hf. split; intros (x & Hx & HP); exists x;
      (split; [by apply list_elem_of_In|by apply Hf]). }
  rewrite <-(Hex embedder_subpath_markers (λ m, ∃ q, path = q +:+ m))
    by (intros; apply endswith_iff).
  rewrite <-(Hex decoder_suffixes (λ m, ∃ q, path = q +:+ m))
    by (intros; apply endswith_iff).
  assert (prop ∈ embedder_members ↔
          ∃ x, In x embedder_members ∧ String.eqb prop x = true) as ->.
  { split.
    - intros Hin. exists prop. split; [by apply list_elem_of_In|].
      apply String.eqb_refl.
    - intros (x & Hin & ->%String.eqb_eq). by apply list_elem_of_In. }
  tauto.
Qed.

(** What the chain hands to the length check: equally many paths and
    weights, at most two, as many as the rule is written to produce;
    and every path is the output-projection key or lies under
    ["language_model.model."]. *)
Lemma chain_result (config : Gemma3TextConfig) (path prop : string)
    weights (r : flow (ndarray elt)) :
  _convert_transformer_weights_chain config path prop weights = Ok r →
  match r with
  | Returned pairs => pairs = [] ∧ declared_fan_out path prop = 0%nat
  | Assigned cp cw =>
      length cp = length cw ∧
      length cp = declared_fan_out path prop ∧
      Forall (λ p, p = "language_model.lm_head.weight" ∨
                   ∃ rest, p = "language_model.model." +:+ rest) cp
  end.
Proof.
  unfold _convert_transformer_weights_chain, declared_fan_out.
  change (_TRANSFORMER_EMBEDDER +:+ "/mm") with "transformer/embedder/mm".
  intros H.
  destruct (String.eqb path _TRANSFORMER_EMBEDDER) eqn:E1.
  { repeat case_match; simplify_eq; split_and?; try done; solve_keys. }
  destruct (PyStr.startswith path "transformer/embedder/mm") eqn:E2.
  { repeat case_match; by simplify_eq. }
  destruct (String.eqb path _TRANSFORMER_FINAL_NORM) eqn:E3.
  { apply String.eqb_eq in E3 as ->. simplify_eq. split_and!; try done.
    solve_keys. }
  destruct (PyStr.startswith path _TRANSFORMER_DECODER_BLOCK) eqn:E4;
    [|done].
  unfold mbind, result_bind in H.
  repeat match type of H with
  | context [if PyStr.endswith path ?s then _ else _] =>
      let E := fresh "E" in
      destruct (PyStr.endswith path s) eqn:E;
      [ try not_suffix E "attn/kv_einsum";
        try not_suffix E "mlp/gating_einsum";
        cbv beta iota in H;
        repeat case_match; simplify_eq; split_and?; try done; solve_keys
      | ]
  end.
  done.
Qed.

(** The function is its chain followed by [zip]: the length check
    never fails. *)
Lemma convert_transformer_weights_chain_eq (config : Gemma3TextConfig)
    (path prop : string) weights :
  _convert_transformer_weights config [path; prop] weights =
  r ← _convert_transformer_weights_chain config path prop weights;
  Ok (flow_pairs r).
Proof.
  unfold _convert_transformer_weights. cbn [unpack2 mbind result_bind].
  destruct (_convert_transformer_weights_chain _ _ _ _) as [r|e] eqn:Hr;
    [|done].
  apply chain_result in Hr. destruct r as [pairs|cp cw]; [done|].
  destruct Hr as (Hlen & _ & _). cbn [mbind result_bind flow_pairs]. cbv zeta.
  by rewrite Hlen, Nat.eqb_refl.
Qed.

(** The chain raises [ValueError] exactly on the leaves no rule is
    written for; every other exception comes from a recognized leaf. *)
Lemma chain_raises (config : Gemma3TextConfig) (path prop : string)
    weights :
  match _convert_transformer_weights_chain config path prop weights with
  | Ok _ => recognizedb path prop = true
  | Raise e => raised_by_module e = negb (recognizedb path prop)
  end.
Proof.
  unfold _convert_transformer_weights_chain, recognizedb.
  change (_TRANSFORMER_EMBEDDER +:+ "/mm") with "transformer/embedder/mm".
  destruct (String.eqb path _TRANSFORMER_EMBEDDER) eqn:E1.
  { apply String.eqb_eq in E1 as ->. cbn [existsb embedder_members].
    repeat case_match; simplify_eq; done. }
  destruct (PyStr.startswith path "transformer/embedder/mm") eqn:E2.
  { rewrite (eqb_excl_startswith _ _ _TRANSFORMER_FINAL_NORM E2 eq_refl).
    rewrite (startswith_excl _ _ _TRANSFORMER_DECODER_BLOCK E2 eq_refl eq_refl).
    cbn [existsb embedder_subpath_markers andb orb].
    repeat case_match; simplify_eq; done. }
  destruct (String.eqb path _TRANSFORMER_FINAL_NORM) eqn:E3.
  { by rewrite !orb_true_r. }
  destruct (PyStr.startswith path _TRANSFORMER_DECODER_BLOCK) eqn:E4;
    [|done].
  cbn [existsb decoder_suffixes andb orb].
  unfold mbind, result_bind.
  repeat match goal with
  | |- context [if PyStr.endswith path ?s then _ else _] =>
      destruct (PyStr.endswith path s);
      [ cbn [orb negb]; cbv beta iota;
        repeat case_match; simplify_eq;
        by eauto using np_reshape_raises, np_transpose_raises,
             np_unpack2_raises
      | ]
  end.
  done.
Qed.

(** C7.  Whenever the rule chain finishes without raising, it has
    produced as many destination paths as arrays: none on an early
    return, otherwise one or two, the number the matched rule is
    written to produce.  The length check therefore passes and the
    function returns the zipped pairs: the internal-consistency error
    is never raised. *)
Theorem path_weight_counts_agree (config : Gemma3TextConfig)
    (path prop : string) weights (r : flow (ndarray elt)) :
  _convert_transformer_weights_chain config path prop weights = Ok r →
  match r with
  | Returned pairs => pairs = []
  | Assigned converted_paths converted_weights =>
      length converted_paths = length converted_weights
  end ∧
  length (flow_pairs r) = declared_fan_out path prop ∧
  (declared_fan_out path prop ≤ 2)%nat ∧
  _convert_transformer_weights config [path; prop] weights =
    Ok (flow_pairs r).
Proof.
  intros Hr. pose proof (chain_result _ _ _ _ _ Hr) as Hres.
  rewrite convert_transformer_weights_chain_eq, Hr.
  split_and!; [| | |done].
  - destruct r; [by destruct Hres|by destruct Hres as (? & _)].
  - destruct r as [pairs|cp cw]; simpl.
    + destruct Hres as [-> Hzero]. by rewrite Hzero.
    + destruct Hres as (Hlen & <- & _). rewrite length_zip. lia.
  - unfold declared_fan_out. repeat case_match; lia.
Qed.

(** Every destination path of the text table is the prefix
    ["language_model."] followed by ["lm_head.weight"] or by something
    that begins with ["model."]. *)
Lemma text_keys_prefixed (config : Gemma3TextConfig) (paths : list string)
    weights (pairs : list (string * ndarray elt)) (p : string)
    (w : ndarray elt) :
  _convert_transformer_weights config paths weights = Ok pairs →
  (p, w) ∈ pairs →
  ∃ rest, p = language_model_prefix +:+ rest ∧
          (rest = "lm_head.weight" ∨ PyStr.startswith rest "model." = true).
Proof.
  intros Hf Hin.
  destruct paths as [|path [|prop [|]]];
    try (by unfold _convert_transformer_weights in Hf; simplify_eq).
  rewrite convert_transformer_weights_chain_eq in Hf.
  destruct (_convert_transformer_weights_chain _ _ _ _) as [r|e] eqn:Hr;
    [|done].
  cbn [mbind result_bind] in Hf. simplify_eq.
  apply chain_result in Hr. destruct r as [pairs|cp cw].
  { destruct Hr as [-> _]. by apply elem_of_nil in Hin. }
  destruct Hr as (_ & _ & Hkeys). simpl in Hin.
  apply elem_of_zip_l in Hin.
  rewrite Forall_forall in Hkeys.
  destruct (Hkeys p Hin) as [->|[rest ->]].
  - exists "lm_head.weight". by auto.
  - exists ("model." +:+ rest). split; [done|right].
    apply (startswith_app "model.").
Qed.

(** C10.  Every destination path the text rule table produces begins
    with ["language_model."], so the slice
    [path[len("language_model."):]] removes exactly that prefix; what
    remains is ["lm_head.weight"] or begins with ["model."]. *)
Theorem destination_paths_start_with_language_model
    (config : Gemma3TextConfig) (paths : list string) weights
    (pairs : list (string * ndarray elt)) (p : string) (w : ndarray elt) :
  _convert_transformer_weights config paths weights = Ok pairs →
  (p, w) ∈ pairs →
  PyStr.startswith p language_model_prefix = true ∧
  p = language_model_prefix +:+
        PyStr.slice_from p (PyStr.len language_model_prefix) ∧
  (PyStr.slice_from p (PyStr.len language_model_prefix) = "lm_head.weight" ∨
   PyStr.startswith
     (PyStr.slice_from p (PyStr.len language_model_prefix)) "model." = true).
Proof.
  intros Hf Hin.
  destruct (text_keys_prefixed _ _ _ _ _ _ Hf Hin) as (rest & -> & Hrest).
  by rewrite slice_from_len_app, startswith_app.
Qed.

(** An exception of the chain comes from one of the module's [raise]
    statements, from the unpacking of an array, or from NumPy. *)
Lemma chain_raise_kind (config : Gemma3TextConfig) (path prop : string)
    weights e :
  _convert_transformer_weights_chain config path prop weights = Raise e →
  raised_by_module e || raised_by_unpacking e || raised_by_numpy e = true.
Proof.
  unfold _convert_transformer_weights_chain, mbind, result_bind. intros H.
  repeat case_match; simplify_eq; try done;
    repeat match goal with
    | H : np_reshape _ _ = Raise _ |- _ =>
        apply np_reshape_raise_kind in H; rewrite H
    | H : np_transpose _ _ = Raise _ |- _ =>
        apply np_transpose_raise_kind in H; rewrite H
    | H : np_transpose_rev _ = Raise _ |- _ =>
        apply np_transpose_raise_kind in H; rewrite H
    | H : np_unpack2 _ = Raise _ |- _ =>
        apply np_unpack2_raise_kind in H; rewrite H
    end;
    by rewrite ?orb_true_r.
Qed.

(** Transposing by a permutation of the right length succeeds. *)
Lemma np_transpose_returns weights (axes : list nat) :
  valid_axes (length (nd_shape weights)) axes = true →
  ∃ t, np_transpose weights axes = Ok t ∧
       nd_shape t = permute axes (nd_shape weights).
Proof.
  intros Hv. unfold np_transpose. rewrite Hv.
  eexists. split; [done|]. apply nd_shape_result.
Qed.

Lemma np_reshape_2d weights (d0 d1 : nat) :
  (d0 * d1)%nat = np_size weights →
  np_reshape weights [Z.of_nat d0; Z.of_nat d1] =
    Ok (NDArray (nd_dtype weights) [d0; d1] (nd_data weights)).
Proof.
  intros Hsz. apply (np_reshape_dims weights [d0; d1]). simpl. lia.
Qed.

(** On a leaf with a rule and an array of the shape the rule is
    written for, the chain finishes. *)
Lemma chain_well_shaped (config : Gemma3TextConfig) (path prop : string)
    weights :
  recognizedb path prop = true →
  well_shaped config path weights →
  ∃ r, _convert_transformer_weights_chain config path prop weights = Ok r.
Proof.
  unfold _convert_transformer_weights_chain, recognizedb, well_shaped.
  change (_TRANSFORMER_EMBEDDER +:+ "/mm") with "transformer/embedder/mm".
  cbv zeta. intros Hrec Hws.
  destruct (String.eqb path _TRANSFORMER_EMBEDDER) eqn:E1.
  { apply String.eqb_eq in E1 as ->.
    cbn [existsb embedder_members andb orb] in Hrec.
    repeat case_match; simplify_eq; by eauto. }
  destruct (PyStr.startswith path "transformer/embedder/mm") eqn:E2.
  { rewrite (eqb_excl_startswith _ _ _TRANSFORMER_FINAL_NORM E2 eq_refl) in Hrec.
    rewrite (startswith_excl _ _ _TRANSFORMER_DECODER_BLOCK E2 eq_refl eq_refl)
      in Hrec.
    cbn [existsb embedder_subpath_markers andb orb] in Hrec.
    repeat case_match; simplify_eq; by eauto. }
  destruct (String.eqb path _TRANSFORMER_FINAL_NORM) eqn:E3; [by eauto|].
  destruct (PyStr.startswith path _TRANSFORMER_DECODER_BLOCK) eqn:E4;
    [|done].
  destruct (Hws eq_refl) as (Hattn & Hkv & Hq & Hgate). clear Hws.
  cbn [existsb decoder_suffixes andb orb] in Hrec.
  destruct (PyStr.endswith path "attn/attn_vec_einsum") eqn:S1.
  { specialize (Hattn eq_refl).
    destruct (nd_shape weights) as [|nh [|hd [|hs [|]]]] eqn:Hsh;
      simplify_eq/=.
    destruct (np_transpose_returns weights [2; 0; 1]%nat) as (t & -> & Ht).
    { by rewrite Hsh. }
    cbn [mbind result_bind].
    repeat match goal with
    | H : Z.of_nat _ = _ config |- _ => rewrite <-H; clear H
    end.
    rewrite <-Nat2Z.inj_mul.
    rewrite (np_reshape_2d t hs (nh * hd)); [by eauto|].
    unfold np_size. rewrite Ht, Hsh. cbn. lia. }
  destruct (PyStr.endswith path "attn/_key_norm"); [by eauto|].
  destruct (PyStr.endswith path "attn/kv_einsum") eqn:S3.
  { specialize (Hkv eq_refl).
    destruct (nd_shape weights) as [|two [|kvh [|hs [|hd [|]]]]] eqn:Hsh;
      simplify_eq/=.
    assert (two = 2%nat) as -> by lia.
    repeat match goal with
    | H : Z.of_nat _ = _ config |- _ => rewrite <-H; clear H
    end.
    rewrite (np_unpack2_two _ _ Hsh). cbn [mbind result_bind].
    destruct (np_transpose_returns (np_row [kvh; hs; hd] weights 0)
                [0; 2; 1]%nat) as (k & -> & Hk); [done|].
    destruct (np_transpose_returns (np_row [kvh; hs; hd] weights 1)
                [0; 2; 1]%nat) as (v & -> & Hv); [done|].
    cbn [mbind result_bind]. rewrite <-Nat2Z.inj_mul.
    rewrite (np_reshape_2d k (kvh * hd) hs).
    2:{ unfold np_size. rewrite Hk. cbn. lia. }
    rewrite (np_reshape_2d v (kvh * hd) hs).
    2:{ unfold np_size. rewrite Hv. cbn. lia. }
    by eauto. }
  destruct (PyStr.endswith path "attn/q_einsum") eqn:S4.
  { specialize (Hq eq_refl).
    destruct (nd_shape weights) as [|nh [|hs [|hd [|]]]] eqn:Hsh;
      simplify_eq/=.
    destruct (np_transpose_returns weights [0; 2; 1]%nat) as (t & -> & Ht).
    { by rewrite Hsh. }
    cbn [mbind result_bind].
    repeat match goal with
    | H : Z.of_nat _ = _ config |- _ => rewrite <-H; clear H
    end.
    rewrite <-Nat2Z.inj_mul.
    rewrite (np_reshape_2d t (nh * hd) hs); [by eauto|].
    unfold np_size. rewrite Ht, Hsh. cbn. lia. }
  destruct (PyStr.endswith path "attn/_query_norm"); [by eauto|].
  destruct (PyStr.endswith path "mlp/gating_einsum") eqn:S6.
  { destruct (Hgate eq_refl) as [sh Hsh].
    rewrite (np_unpack2_two _ _ Hsh). by eauto. }
  destruct (PyStr.endswith path "mlp/linear").
  { destruct (np_transpose_rev_ok weights) as [t ->]. by eauto. }
  destruct (PyStr.endswith path "post_attention_norm"); [by eauto|].
  destruct (PyStr.endswith path "post_ffw_norm"); [by eauto|].
  destruct (PyStr.endswith path "pre_attention_norm"); [by eauto|].
  destruct (PyStr.endswith path "pre_ffw_norm"); [by eauto|].
  done.
Qed.

(** C6, as the converter has it.  A leaf that matches no rule always
    ends in one of the module's own [raise ValueError] statements.  A
    leaf that matches a rule and whose array has the shape the rule is
    written for is converted without error.  A leaf that matches a
    rule can still raise, but only from the unpacking of its array or
    from NumPy's [reshape] or [transpose], which are [ValueError]s as
    well, or a [TypeError] for a 0-d array; so an error does not tell
    that the leaf is unrecognized.  The multimodal embedder leaves,
    among them every path under ["transformer/embedder/mm"] that ends
    in one of the two markers, yield no pair and no error, and the
    decoder-block path ["transformer/layer_0/mlp/unknown_leaf"] is
    rejected. *)
Theorem unrecognized_raises_well_shaped_returns (config : Gemma3TextConfig)
    (path prop : string) weights :
  (¬ recognized path prop →
   ∃ msg, _convert_transformer_weights config [path; prop] weights =
          Raise (ValueError msg)) ∧
  (recognized path prop → well_shaped config path weights →
   ∃ pairs, _convert_transformer_weights config [path; prop] weights =
            Ok pairs) ∧
  (recognized path prop →
   ∀ e, _convert_transformer_weights config [path; prop] weights = Raise e →
        raised_by_unpacking e || raised_by_numpy e = true ∧
        (class_of e = PyValueError ∨ class_of e = PyTypeError)) ∧
  _convert_transformer_weights config
    [_TRANSFORMER_EMBEDDER; "mm_input_embedding_extra"] weights = Ok [] ∧
  _convert_transformer_weights config
    [_TRANSFORMER_EMBEDDER; "mm_output_embedding"] weights = Ok [] ∧
  (PyStr.startswith path "transformer/embedder/mm" = true →
   PyStr.endswith path "/mm_input_projection" = true ∨
   PyStr.endswith path "/mm_soft_embedding_norm" = true →
   _convert_transformer_weights config [path; prop] weights = Ok []) ∧
  _convert_transformer_weights config
    ["transformer/embedder/mm_input_projection"; prop] weights = Ok [] ∧
  _convert_transformer_weights config
    ["transformer/embedder/mm_soft_embedding_norm"; prop] weights = Ok [] ∧
  _convert_transformer_weights config
    ["transformer/layer_0/mlp/unknown_leaf"; prop] weights =
    Raise (ValueError
      "Upexpected path `transformer/layer_0/mlp/unknown_leaf` in Decoder Block.").
Proof.
  split_and!; try reflexivity.
  - rewrite recognized_iff, convert_transformer_weights_chain_eq.
    pose proof (chain_raises config path prop weights) as Hc.
    intros Hrec. apply not_true_is_false in Hrec. rewrite Hrec in Hc.
    destruct (_convert_transformer_weights_chain _ _ _ _) as [r|e];
      [done|]. cbn [mbind result_bind].
    destruct e; try done. by eexists.
  - rewrite recognized_iff, convert_transformer_weights_chain_eq.
    intros Hrec Hws.
    destruct (chain_well_shaped config path prop weights Hrec Hws) as [r ->].
    by eexists.
  - rewrite recognized_iff, convert_transformer_weights_chain_eq.
    pose proof (chain_raises config path prop weights) as Hc.
    intros Hrec e.
    destruct (_convert_transformer_weights_chain _ _ _ _) as [r|e'] eqn:Hr;
      [done|]. cbn [mbind result_bind]. intros [= ->].
    rewrite Hrec in Hc. apply chain_raise_kind in Hr.
    destruct e; try done; eauto.
  - rewrite convert_transformer_weights_chain_eq.
    unfold _convert_transformer_weights_chain.
    change (_TRANSFORMER_EMBEDDER +:+ "/mm") with "transformer/embedder/mm".
    intros Hmm Hend.
    rewrite (eqb_excl_startswith _ _ _TRANSFORMER_EMBEDDER Hmm eq_refl), Hmm.
    destruct (PyStr.endswith path "/mm_input_projection"); [done|].
    destruct Hend as [Hend|Hend]; [done|]. by rewrite Hend.
Qed.

End TextDispatch.

(* ===================================================================== *)
(** ** The vision rule table *)
(* ===================================================================== *)

Section VisionRules.

Context {elt : Type}.
Implicit Types weights : ndarray elt.

(** The attention branch of an encoder block, reached. *)
Lemma siglip_attention_branch (config : Gemma3VisionConfig)
    (path prop : string) weights :
  PyStr.startswith path _SIGLIP_TRANSFORMER_ENCODER_BLOCK = true →
  PyStr.startswith
    (block_subpath _SIGLIP_TRANSFORMER_ENCODER_BLOCK_LEN path)
    "/MultiHeadDotProductAttention_0" = true →
  _convert_siglip_weight config [path; prop] weights =
  match attention_projection
          (block_subpath _SIGLIP_TRANSFORMER_ENCODER_BLOCK_LEN path) with
  | None =>
      Raise (ValueError
        ("Upexpected path `" +:+ path +:+
         "` in SigLIP Transformer MultiHeadDotProductAttention_0."))
  | Some proj =>
      let name := encoder_base_path path +:+ proj in
      if String.eqb prop "bias" then
        w ← np_reshape weights [-1; vision_hidden_size config];
        u ← np_reshape w [-1];
        Ok (name +:+ ".bias", u)
      else if String.eqb prop "kernel" then
        w ← np_reshape weights [-1; vision_hidden_size config];
        u ← np_transpose_rev w;
        Ok (name +:+ ".weight", u)
      else Raise (member_error prop path "`bias` or `kernel`")
  end.
Proof.
  intros Hblk Hsub.
  unfold _convert_siglip_weight. cbn [unpack2 mbind result_bind].
  rewrite (eqb_excl_startswith _ _ _SIGLIP_BASE Hblk eq_refl).
  rewrite (eqb_excl_startswith _ _ _SIGLIP_EMBEDDING Hblk eq_refl).
  rewrite Hblk.
  fold (block_subpath _SIGLIP_TRANSFORMER_ENCODER_BLOCK_LEN path).
  fold (block_layer_idx _SIGLIP_TRANSFORMER_ENCODER_BLOCK_LEN path).
  fold (encoder_base_path path).
  rewrite (startswith_excl _ _ "/LayerNorm" Hsub eq_refl eq_refl).
  rewrite (startswith_excl _ _ "/MlpBlock_0" Hsub eq_refl eq_refl).
  rewrite Hsub.
  unfold attention_projection. cbn [List.find attention_routes fst].
  set (sub := block_subpath _ _).
  destruct (PyStr.endswith sub "/key") eqn:Ekey.
  { not_suffix Ekey "/query". done. }
  destruct (PyStr.endswith sub "/out") eqn:Eout.
  { not_suffix Eout "/query". not_suffix Eout "/value". done. }
  destruct (PyStr.endswith sub "/query") eqn:Equery; [done|].
  destruct (PyStr.endswith sub "/value") eqn:Evalue; done.
Qed.

(** C8.  For an encoder-block path under the attention marker, the
    sub-path suffix selects the query, key, value or output projection.
    A ["bias"] leaf is reshaped to (-1, hidden_size) and then flattened
    to 1-d; a ["kernel"] leaf is reshaped to (-1, hidden_size) and then
    transposed; when hidden_size divides the size of the array each
    yields exactly one pair, the bias with its elements in order and
    the kernel with rows and columns exchanged.  Any other leaf
    property, and a sub-path with none of the four suffixes, raises
    [ValueError]. *)
Theorem siglip_attention_transforms (config : Gemma3VisionConfig)
    (path prop : string) weights (hs : nat) :
  PyStr.startswith path _SIGLIP_TRANSFORMER_ENCODER_BLOCK = true →
  PyStr.startswith
    (block_subpath _SIGLIP_TRANSFORMER_ENCODER_BLOCK_LEN path)
    "/MultiHeadDotProductAttention_0" = true →
  vision_hidden_size config = Z.of_nat hs →
  well_formed weights →
  match attention_projection
          (block_subpath _SIGLIP_TRANSFORMER_ENCODER_BLOCK_LEN path) with
  | None =>
      ∃ msg, _convert_siglip_weight config [path; prop] weights =
             Raise (ValueError msg)
  | Some proj =>
      let name := encoder_base_path path +:+ proj in
      let rows := (np_size weights / hs)%nat in
      (prop = "bias" →
         _convert_siglip_weight config [path; prop] weights =
           (w ← np_reshape weights [-1; Z.of_nat hs];
            u ← np_reshape w [-1];
            Ok (name +:+ ".bias", u)) ∧
         (hs ≠ 0%nat → (np_size weights mod hs)%nat = 0%nat →
          _convert_siglip_weight config [path; prop] weights =
            Ok (name +:+ ".bias",
                NDArray (nd_dtype weights) [np_size weights]
                  (nd_data weights)))) ∧
      (prop = "kernel" →
         _convert_siglip_weight config [path; prop] weights =
           (w ← np_reshape weights [-1; Z.of_nat hs];
            u ← np_transpose_rev w;
            Ok (name +:+ ".weight", u)) ∧
         (hs ≠ 0%nat → (np_size weights mod hs)%nat = 0%nat →
          ∃ u, _convert_siglip_weight config [path; prop] weights =
                 Ok (name +:+ ".weight", u) ∧
               nd_shape u = [hs; rows] ∧
               ∀ i j, (i < rows)%nat → (j < hs)%nat →
                 nd_data u !! (j * rows + i)%nat =
                 nd_data weights !! (i * hs + j)%nat)) ∧
      (prop ≠ "bias" → prop ≠ "kernel" →
         ∃ msg, _convert_siglip_weight config [path; prop] weights =
                Raise (ValueError msg))
  end.
Proof.
  intros Hblk Hsub Hhs Hwf.
  rewrite (siglip_attention_branch config path prop weights Hblk Hsub).
  destruct (attention_projection _) as [proj|]; [|by eexists].
  rewrite Hhs. cbv zeta. split_and!.
  - intros ->. change (String.eqb "bias" "bias") with true. cbv iota.
    split; [done|].
    intros Hne Hmod. rewrite (np_reshape_rows _ _ Hne Hmod).
    cbn [mbind result_bind]. rewrite np_reshape_flat.
    cbn [mbind result_bind nd_dtype nd_data]. do 4 f_equal.
    unfold np_size at 1. cbn [nd_shape size_of foldr].
    pose proof (Nat.div_mod_eq (np_size weights) hs). lia.
  - intros ->. change (String.eqb "kernel" "bias") with false.
    change (String.eqb "kernel" "kernel") with true. cbv iota.
    split; [done|].
    intros Hne Hmod. rewrite (np_reshape_rows _ _ Hne Hmod).
    cbn [mbind result_bind].
    set (w := NDArray _ _ _).
    assert (well_formed w) as Hw.
    { unfold well_formed, w. cbn [nd_data nd_shape size_of foldr].
      rewrite Hwf. fold (np_size weights).
      pose proof (Nat.div_mod_eq (np_size weights) hs). lia. }
    destruct (np_transpose_rev_2d w _ _ eq_refl Hw)
      as (u & Hu & _ & Hush & _ & Hel).
    rewrite Hu. cbn [mbind result_bind]. exists u. split_and!; try done.
  - intros Hb%String.eqb_neq Hk%String.eqb_neq. rewrite Hb, Hk.
    by eexists.
Qed.

End VisionRules.

(* ===================================================================== *)
(** ** The orchestrator *)
(* ===================================================================== *)

Section Conversion.

Context {elt : Type}.
Variable cast_elt : dtype → dtype → elt → elt.

Implicit Types (hf_tree : gmap string (tensor elt))
               (ups : list (string * ndarray elt))
               (leaves : list (list string * ndarray elt)).

Abbreviation stored := (stored cast_elt).

Lemma apply_updates_app target hf_tree ups1 ups2 :
  apply_updates cast_elt target hf_tree (ups1 ++ ups2) =
  apply_updates cast_elt target
    (apply_updates cast_elt target hf_tree ups1) ups2.
Proof. unfold apply_updates. apply foldl_app. Qed.

(** [astype] gives an array for an array and a scalar for a scalar. *)
Lemma is_ndarray_astype (w : ndarray elt) (dt : dtype) :
  is_ndarray (np_astype cast_elt w dt) = is_ndarray w.
Proof. by destruct w. Qed.

(** A write goes through exactly for an array, and stores its tensor. *)
Lemma update_tree_stored target hf_tree (path : string) (w : ndarray elt) :
  update_tree cast_elt target hf_tree path w =
  if is_ndarray w then Ok (<[path := stored target w]> hf_tree)
  else Raise FromNumpyError.
Proof. unfold update_tree. cbv zeta. by rewrite is_ndarray_astype. Qed.

(** The writes for the pairs of a leaf go through exactly when each of
    them is an array. *)
Lemma update_all_arrays target hf_tree ups :
  update_all cast_elt target hf_tree ups =
  if forallb (λ update, is_ndarray update.2) ups
  then Ok (apply_updates cast_elt target hf_tree ups)
  else Raise FromNumpyError.
Proof.
  revert hf_tree. induction ups as [|[p w] ups IH]; intros hf_tree; [done|].
  cbn [update_all forallb snd]. rewrite update_tree_stored.
  destruct (is_ndarray w); [|done].
  cbn [mbind result_bind andb]. by rewrite IH.
Qed.

(** The loop writes the emitted pairs, in order. *)
Lemma convert_loop_emitted config target hf_tree leaves :
  convert_loop cast_elt config target hf_tree leaves =
  ups ← emitted config leaves;
  Ok (apply_updates cast_elt target hf_tree ups).
Proof.
  revert hf_tree. induction leaves as [|leaf rest IH]; intros hf_tree; [done|].
  cbn [convert_loop emitted].
  destruct (leaf_updates config leaf) as [ups|e]; [|done].
  cbn [mbind result_bind]. rewrite update_all_arrays.
  destruct (forallb _ ups); [|done].
  cbn [mbind result_bind]. rewrite IH.
  destruct (emitted config rest) as [later|e]; [|done].
  cbn [mbind result_bind]. by rewrite apply_updates_app.
Qed.

Lemma apply_updates_lookup target hf_tree ups k t :
  apply_updates cast_elt target hf_tree ups !! k = Some t →
  hf_tree !! k = Some t ∨ ∃ w, (k, w) ∈ ups ∧ t = stored target w.
Proof.
  unfold apply_updates.
  revert hf_tree. induction ups as [|[p w] ups IH]; intros hf_tree H; [by left|].
  cbn [foldl] in H. apply IH in H as [H|(w' & Hin & ->)].
  - cbn [fst snd] in H. apply lookup_insert_Some in H as [[-> <-]|[_ H]].
    + right. exists w. split; [left|done].
    + by left.
  - right. exists w'. split; [by right|done].
Qed.

Lemma apply_updates_is_Some target hf_tree ups k :
  is_Some (apply_updates cast_elt target hf_tree ups !! k) ↔
  is_Some (hf_tree !! k) ∨ k ∈ ups.*1.
Proof.
  unfold apply_updates.
  revert hf_tree. induction ups as [|[p w] ups IH]; intros hf_tree.
  { cbn. rewrite elem_of_nil. tauto. }
  cbn [foldl]. rewrite IH. cbn [fst snd]. rewrite lookup_insert_is_Some'.
  rewrite fmap_cons, elem_of_cons. cbn [fst].
  assert (p = k ↔ k = p) by (split; congruence). tauto.
Qed.

Lemma emitted_elem config leaves ups x :
  emitted config leaves = Ok ups →
  x ∈ ups ↔
  ∃ leaf lups, leaf ∈ leaves ∧ leaf_updates config leaf = Ok lups ∧ x ∈ lups.
Proof.
  revert ups. induction leaves as [|leaf rest IH]; intros ups H.
  { cbn in H. simplify_eq. split; [by intros ?%elem_of_nil|].
    by intros (? & ? & ?%elem_of_nil & _). }
  cbn [emitted] in H.
  destruct (leaf_updates config leaf) as [lups|e] eqn:Hl; [|done].
  cbn [mbind result_bind] in H.
  destruct (forallb _ lups); [|done].
  destruct (emitted config rest) as [later|e]; [|done].
  cbn [mbind result_bind] in H. simplify_eq.
  rewrite elem_of_app, (IH later eq_refl). split.
  - intros [Hin|(leaf' & lups' & Hin & Hl' & Hx)].
    + exists leaf, lups. split_and!; [left|done|done].
    + exists leaf', lups'. split_and!; [by right|done|done].
  - intros (leaf' & lups' & [->|Hin]%elem_of_cons & Hl' & Hx).
    + left. rewrite Hl in Hl'. by injection Hl' as ->.
    + right. by exists leaf', lups'.
Qed.

(** C9.  Every tensor of the resulting state tree was written by
    [update_tree] for an emitted pair: it is the emitted array cast to
    [float32] first and to the target dtype second, so its dtype is the
    target dtype and its elements went through both casts. *)
Theorem stored_tensors_cast_via_float32 (ckpt : list (list string * ndarray elt))
    (config : Gemma3Config) (target_dtype : dtype)
    (res : ConversionResult) (k : string) (t : tensor elt) :
  convert cast_elt ckpt config target_dtype = Ok res →
  state_tree res !! k = Some t →
  t_dtype t = target_dtype ∧
  ∃ ups w,
    emitted config ckpt = Ok ups ∧ (k, w) ∈ ups ∧
    nd_dtype (np_astype cast_elt w float32) = float32 ∧
    t = torch_type cast_elt
          (torch_from_numpy (np_astype cast_elt w float32)) target_dtype ∧
    t_shape t = nd_shape w ∧
    t_data t =
      cast_elt float32 target_dtype <$>
        (cast_elt (nd_dtype w) float32 <$> nd_data w).
Proof.
  unfold convert. rewrite convert_loop_emitted. intros Hc Hk.
  destruct (emitted config ckpt) as [ups|e]; [|done].
  cbn [mbind result_bind] in Hc. simplify_eq. cbn [state_tree] in Hk.
  apply apply_updates_lookup in Hk as [Hk|(w & Hin & ->)].
  { by rewrite lookup_empty in Hk. }
  split; [done|]. exists ups, w. by destruct w.
Qed.

(** What a text-only run emits for one leaf. *)
Lemma leaf_updates_text_only config (paths : list string)
    (value : ndarray elt) lups (k : string) (w : ndarray elt) :
  vision_config config = None →
  leaf_updates config (paths, value) = Ok lups →
  (k, w) ∈ lups ↔
  ∃ first pairs,
    paths !! 0%nat = Some first ∧
    PyStr.startswith first vision_sentinel = false ∧
    _convert_transformer_weights (text_config config) paths value = Ok pairs ∧
    (language_model_prefix +:+ k, w) ∈ pairs.
Proof.
  intros Hv. unfold leaf_updates. rewrite Hv.
  destruct (paths !! 0%nat) as [first|]; [|done].
  destruct (PyStr.startswith first vision_sentinel) eqn:Hs.
  { intros Hl. simplify_eq. split; [by intros ?%elem_of_nil|].
    intros (first' & ? & [= <-] & Hs' & _). congruence. }
  destruct (_convert_transformer_weights (text_config config) paths value)
    as [pairs|e] eqn:Hf; [|done].
  cbn [mbind result_bind]. intros; simplify_eq.
  rewrite list_elem_of_fmap. split.
  - intros ([p w'] & [= -> ->] & Hin).
    exists first, pairs. split_and!; try done.
    destruct (text_keys_prefixed _ _ _ _ _ _ Hf Hin) as (rest & -> & _).
    by rewrite slice_from_len_app.
  - intros (first' & pairs' & ? & _ & ? & Hin). simplify_eq.
    eexists (_, w). split; [|done]. by rewrite slice_from_len_app.
Qed.

(** C5, as the converter has it.  With no vision configuration, the
    keys of the resulting mapping are exactly the destination paths of
    the text rule table for the leaves whose first path segment does
    not begin with the vision sentinel, with the prefix
    ["language_model."] removed; none of them begins with the vision
    sentinel or with ["vision_model."], none keeps the wrapper prefix,
    and vision leaves contribute nothing.  The sentinel is tested as a
    prefix of source paths; a key may contain it further in. *)
Theorem vision_skipped_and_prefix_stripped
    (ckpt : list (list string * ndarray elt)) (config : Gemma3Config)
    (target_dtype : dtype) (res : ConversionResult) (k : string) :
  vision_config config = None →
  convert cast_elt ckpt config target_dtype = Ok res →
  (is_Some (state_tree res !! k) ↔
   text_branch_key config ckpt (language_model_prefix +:+ k)) ∧
  (is_Some (state_tree res !! k) →
   PyStr.startswith k vision_sentinel = false ∧
   PyStr.startswith k "vision_model." = false ∧
   PyStr.startswith k language_model_prefix = false).
Proof.
  intros Hv. unfold convert. rewrite convert_loop_emitted. intros Hc.
  destruct (emitted config ckpt) as [ups|e] eqn:Hups; [|done].
  cbn [mbind result_bind] in Hc. simplify_eq. cbn [state_tree].
  assert (is_Some (apply_updates cast_elt target_dtype ∅ ups !! k) ↔
          text_branch_key config ckpt (language_model_prefix +:+ k)) as Hiff.
  { rewrite apply_updates_is_Some, lookup_empty, list_elem_of_fmap.
    unfold text_branch_key. split.
    - intros [[? [=]]|([k' w] & -> & Hin)]. cbn [fst].
      apply (emitted_elem _ _ _ _ Hups) in Hin
        as ([paths value] & lups & Hleaf & Hl & Hin).
      apply (leaf_updates_text_only _ _ _ _ _ _ Hv Hl) in Hin
        as (first & pairs & ? & ? & ? & ?).
      by exists paths, value, first, pairs, w.
    - intros (paths & value & first & pairs & w & Hleaf & H0 & Hs & Hf & Hin).
      right. exists (k, w). split; [done|].
      destruct (leaf_updates config (paths, value)) as [lups|e] eqn:Hl.
      + apply (emitted_elem _ _ _ _ Hups). exists (paths, value), lups.
        split_and!; try done.
        apply (leaf_updates_text_only _ _ _ _ _ _ Hv Hl).
        by exists first, pairs.
      + unfold leaf_updates in Hl. rewrite Hv, H0, Hs, Hf in Hl. done. }
  split; [done|]. intros Hk. apply Hiff in Hk.
  destruct Hk as (paths & value & first & pairs & w & _ & _ & _ & Hf & Hin).
  destruct (text_keys_prefixed _ _ _ _ _ _ Hf Hin) as (rest & Heq & Hrest).
  apply String.app_inj in Heq as <-.
  destruct Hrest as [->|Hm]; [done|].
  split_and!; by eapply startswith_excl.
Qed.

End Conversion.

(* ===================================================================== *)
(** ** Parsing the paths of the layout *)
(* ===================================================================== *)

Section LayoutPaths.

Implicit Types n r s : string.

(** A numeral contains no path separator, so [find] stops right after
    it. *)
Lemma find_from_digits i n r :
  all_digits n = true →
  PyStr.find_from i (n +:+ String "/"%char r) "/" = i + PyStr.len n.
Proof.
  revert i. induction n as [|c n IH]; intros i Hn.
  - change ("" +:+ String "/"%char r) with (String "/"%char r).
    unfold PyStr.len. simpl. rewrite startswith_empty. lia.
  - simpl in Hn. apply andb_true_iff in Hn as [Hc Hn].
    rewrite str_app_cons. cbn [PyStr.find_from PyStr.startswith].
    destruct (Ascii.eqb_spec "/"%char c) as [<-|_]; [done|].
    rewrite IH by done. unfold PyStr.len. cbn [String.length]. lia.
Qed.

Lemma block_layer_idx_layout (pre n r : string) :
  all_digits n = true →
  block_layer_idx (PyStr.len pre) (pre +:+ n +:+ String "/"%char r) = n.
Proof.
  intros Hn. unfold block_layer_idx. rewrite slice_from_len_app.
  unfold PyStr.find. rewrite find_from_digits by done.
  apply slice_to_len_app.
Qed.

Lemma block_subpath_layout (pre n r : string) :
  all_digits n = true →
  block_subpath (PyStr.len pre) (pre +:+ n +:+ String "/"%char r) = String "/"%char r.
Proof.
  intros Hn. unfold block_subpath. rewrite slice_from_len_app.
  unfold PyStr.find. rewrite find_from_digits by done.
  apply slice_from_len_app.
Qed.

(** A numeral followed by a name that starts with a dot determines
    both. *)
Lemma numeral_dot_inj n1 n2 t1 t2 :
  all_digits n1 = true → all_digits n2 = true →
  n1 +:+ String "."%char t1 = n2 +:+ String "."%char t2 →
  n1 = n2 ∧ t1 = t2.
Proof.
  revert n2. induction n1 as [|c1 n1 IH]; intros [|c2 n2] H1 H2 Heq.
  - by simplify_eq.
  - rewrite str_app_cons in Heq. injection Heq as <- _.
    simpl in H2. done.
  - rewrite str_app_cons in Heq. injection Heq as -> _.
    simpl in H1. done.
  - rewrite !str_app_cons in Heq. injection Heq as -> Heq.
    simpl in H1, H2.
    apply andb_true_iff in H1 as [_ H1]. apply andb_true_iff in H2 as [_ H2].
    destruct (IH n2 H1 H2 Heq) as [-> ->]. done.
Qed.

End LayoutPaths.

(** Evaluate the string tests whose arguments are literals. *)
Ltac eval_tests :=
  repeat match goal with
  | |- context [PyStr.startswith ?a ?b] =>
      let v := eval vm_compute in (PyStr.startswith a b) in
      lazymatch v with true => idtac | false => idtac end;
      change (PyStr.startswith a b) with v
  | |- context [PyStr.endswith ?a ?b] =>
      let v := eval vm_compute in (PyStr.endswith a b) in
      lazymatch v with true => idtac | false => idtac end;
      change (PyStr.endswith a b) with v
  | |- context [PyStr.contains ?a ?b] =>
      let v := eval vm_compute in (PyStr.contains a b) in
      lazymatch v with true => idtac | false => idtac end;
      change (PyStr.contains a b) with v
  | |- context [String.eqb ?a ?b] =>
      let v := eval vm_compute in (String.eqb a b) in
      lazymatch v with true => idtac | false => idtac end;
      change (String.eqb a b) with v
  end;
  cbv beta iota.

Section LayoutRules.

Context {elt : Type}.
Implicit Types (weights value : ndarray elt) (loc : location).

(** [convert] sends a leaf to the vision table exactly when its
    location is a vision location. *)
Lemma location_first loc (paths : list string) :
  at_location loc paths →
  ∃ first, paths !! 0%nat = Some first ∧
           PyStr.startswith first vision_sentinel = is_vision loc.
Proof.
  destruct loc; simpl.
  - intros ->. by eexists.
  - intros [prop ->]. eexists. split; [done|].
    by eapply startswith_excl; [apply startswith_app|..].
  - intros [prop ->]. by eexists.
  - intros [_ [prop ->]]. eexists. split; [done|].
    by eapply startswith_excl; [apply startswith_app|..].
  - intros [prop ->]. by eexists.
  - intros ->. by eexists.
  - intros [_ ->]. eexists. split; [done|].
    by apply startswith_app_l.
  - intros ->. by eexists.
Qed.

(** The text table on a decoder-layer leaf of the layout. *)
Lemma decoder_layer_keys (config : Gemma3TextConfig) (n prop : string)
    (part : decoder_part) weights (r : flow (ndarray elt)) :
  all_digits n = true →
  _convert_transformer_weights_chain config
    (_TRANSFORMER_DECODER_BLOCK +:+ n +:+ "/" +:+ decoder_suffix part)
    prop weights = Ok r →
  (flow_pairs r).*1 =
    (λ name, "language_model.model.layers." +:+ n +:+ name)
      <$> decoder_names part.
Proof.
  intros Hn. unfold _convert_transformer_weights_chain.
  set (path := _TRANSFORMER_DECODER_BLOCK +:+ n +:+ "/" +:+ decoder_suffix part).
  assert (PyStr.startswith path _TRANSFORMER_DECODER_BLOCK = true) as Hblk
    by apply startswith_app.
  assert (PyStr.endswith path (decoder_suffix part) = true) as Hsuf.
  { unfold path. rewrite <-!str_app_assoc. apply endswith_app. }
  fold (block_layer_idx _TRANSFORMER_DECODER_BLOCK_LEN path).
  assert (block_layer_idx _TRANSFORMER_DECODER_BLOCK_LEN path = n) as ->.
  { apply (block_layer_idx_layout _TRANSFORMER_DECODER_BLOCK n). done. }
  enter_decoder_block Hblk.
  unfold mbind, result_bind.
  destruct part; cbn [decoder_suffix] in Hsuf;
    repeat match goal with
    | |- context [if PyStr.endswith path ?s then _ else _] =>
        first [ rewrite Hsuf
              | rewrite (endswith_excl path _ s Hsuf eq_refl eq_refl) ]
    end;
    intros H; repeat case_match; simplify_eq; reflexivity.
Qed.

(** The text table on a text leaf of the layout. *)
Lemma text_location_keys (config : Gemma3TextConfig) loc
    (paths : list string) weights (pairs : list (string * ndarray elt)) :
  is_vision loc = false →
  at_location loc paths →
  _convert_transformer_weights config paths weights = Ok pairs →
  pairs.*1 = (λ k, language_model_prefix +:+ k) <$> text_keys loc.
Proof.
  destruct loc as [prop|sub| |n part| | | |]; try done; intros _; simpl.
  - intros ->. rewrite convert_transformer_weights_chain_eq.
    unfold _convert_transformer_weights_chain. eval_tests.
    unfold mbind, result_bind.
    intros H; repeat case_match; simplify_eq; reflexivity.
  - intros [prop ->]. rewrite convert_transformer_weights_chain_eq.
    unfold _convert_transformer_weights_chain.
    rewrite (eqb_excl_startswith _ _ _TRANSFORMER_EMBEDDER
               (startswith_app "transformer/embedder/mm" _) eq_refl).
    change (_TRANSFORMER_EMBEDDER +:+ "/mm") with "transformer/embedder/mm".
    rewrite startswith_app.
    unfold mbind, result_bind.
    intros H; repeat case_match; simplify_eq; reflexivity.
  - intros [prop ->] H. cbv in H. by simplify_eq.
  - intros [Hn [prop ->]]. rewrite convert_transformer_weights_chain_eq.
    destruct (_convert_transformer_weights_chain _ _ _ _) as [r|e] eqn:Hr;
      [|done].
    cbn [mbind result_bind]. intros [= <-].
    rewrite (decoder_layer_keys _ _ _ _ _ _ Hn Hr).
    by rewrite <-list_fmap_compose.
Qed.

(** The vision table on a vision leaf of the layout. *)
Lemma vision_location_keys (config : Gemma3VisionConfig) loc
    (paths : list string) weights (k : string) (w : ndarray elt) :
  is_vision loc = true →
  at_location loc paths →
  _convert_siglip_weight config paths weights = Ok (k, w) →
  vision_keys loc = [k].
Proof.
  destruct loc as [| | | | |prop|n part prop|prop]; try done; intros _; simpl.
  - intros [prop ->]. unfold _convert_siglip_weight.
    cbn [unpack2 mbind result_bind]. eval_tests.
    unfold mbind, result_bind.
    intros H; repeat case_match; by simplify_eq.
  - intros ->. unfold _convert_siglip_weight, member_name.
    cbn [unpack2 mbind result_bind]. eval_tests.
    unfold mbind, result_bind.
    intros H; repeat case_match; by simplify_eq.
  - intros [Hn ->]. unfold _convert_siglip_weight, member_name.
    cbn [unpack2 mbind result_bind].
    set (sub := encoder_subpath part).
    set (path := _SIGLIP_TRANSFORMER_ENCODER_BLOCK +:+ n +:+ sub).
    assert (PyStr.startswith path _SIGLIP_TRANSFORMER_ENCODER_BLOCK = true)
      as Hblk by apply startswith_app.
    rewrite (eqb_excl_startswith _ _ _SIGLIP_BASE Hblk eq_refl).
    rewrite (eqb_excl_startswith _ _ _SIGLIP_EMBEDDING Hblk eq_refl).
    rewrite Hblk.
    fold (block_subpath _SIGLIP_TRANSFORMER_ENCODER_BLOCK_LEN path).
    fold (block_layer_idx _SIGLIP_TRANSFORMER_ENCODER_BLOCK_LEN path).
    assert (PyStr.endswith path "_0" = PyStr.endswith sub "_0") as ->.
    { unfold path. rewrite <-str_app_assoc. apply endswith_app_r.
      unfold sub. destruct part; simpl; lia. }
    assert (∃ r, sub = String "/"%char r) as [r Hr]
      by (unfold sub; destruct part; by eexists).
    assert (block_subpath _SIGLIP_TRANSFORMER_ENCODER_BLOCK_LEN path = sub)
      as ->.
    { unfold path. rewrite Hr.
      by apply (block_subpath_layout _SIGLIP_TRANSFORMER_ENCODER_BLOCK). }
    assert (block_layer_idx _SIGLIP_TRANSFORMER_ENCODER_BLOCK_LEN path = n)
      as ->.
    { unfold path. rewrite Hr.
      by apply (block_layer_idx_layout _SIGLIP_TRANSFORMER_ENCODER_BLOCK). }
    clear Hr r. clearbody path.
    destruct part; subst sub; cbn [encoder_subpath encoder_name weight_member];
      eval_tests; unfold mbind, result_bind;
      destruct (String.eqb_spec prop "bias") as [->|Hb];
      eval_tests;
      intros H; repeat case_match; simplify_eq; try done;
      cbn [fmap option_fmap option_map option_list];
      by rewrite !str_app_assoc.
  - intros ->. unfold _convert_siglip_weight, member_name.
    cbn [unpack2 mbind result_bind]. eval_tests.
    unfold mbind, result_bind.
    intros H; repeat case_match; by simplify_eq.
Qed.

End LayoutRules.

(* ===================================================================== *)
(** ** Distinct locations have distinct keys *)
(* ===================================================================== *)

(** Split a membership in a literal list into its cases. *)
Ltac elems H :=
  repeat (apply elem_of_cons in H as [H|H]); [..|by apply elem_of_nil in H].

Lemma decoder_names_dot (part : decoder_part) (name : string) :
  name ∈ decoder_names part → ∃ t, name = String "."%char t.
Proof. destruct part; simpl; intros H; elems H; subst; by eexists. Qed.

Lemma decoder_names_inj (p1 p2 : decoder_part) (name : string) :
  name ∈ decoder_names p1 → name ∈ decoder_names p2 → p1 = p2.
Proof.
  destruct p1; simpl; intros H1; elems H1; subst;
    destruct p2; simpl; intros H2; elems H2; done.
Qed.

Lemma decoder_names_NoDup (part : decoder_part) : NoDup (decoder_names part).
Proof. destruct part; simpl; by apply (bool_decide_unpack (NoDup _)). Qed.

Lemma encoder_name_dot (part : encoder_part) :
  ∃ t, encoder_name part = String "."%char t.
Proof. destruct part; by eexists. Qed.

Lemma member_name_Some (weight prop m : string) :
  member_name weight prop = Some m →
  (prop = weight ∧ m = ".weight") ∨ (prop = "bias" ∧ m = ".bias").
Proof.
  unfold member_name.
  destruct (String.eqb_spec prop weight); [intros [= <-]; by left|].
  destruct (String.eqb_spec prop "bias"); [intros [= <-]; by right|done].
Qed.

Lemma elem_of_member_keys (f : string → string) (weight prop k : string) :
  k ∈ option_list (f <$> member_name weight prop) →
  (prop = weight ∧ k = f ".weight") ∨ (prop = "bias" ∧ k = f ".bias").
Proof.
  destruct (member_name weight prop) as [m|] eqn:Hm; simpl.
  - intros ->%list_elem_of_singleton.
    destruct (member_name_Some _ _ _ Hm) as [[-> ->]|[-> ->]]; auto.
  - by intros ?%elem_of_nil.
Qed.

Lemma encoder_names_inj (p1 p2 : encoder_part) (m1 m2 : string) :
  m1 ∈ [".weight"; ".bias"] → m2 ∈ [".weight"; ".bias"] →
  encoder_name p1 +:+ m1 = encoder_name p2 +:+ m2 → p1 = p2 ∧ m1 = m2.
Proof.
  intros H1 H2. elems H1; elems H2; subst;
    destruct p1, p2; simpl; intros H; by simplify_eq.
Qed.

(** A literal that does not begin with [pre] is not [pre] followed by
    something. *)
Lemma not_prefixed (k pre r : string) :
  PyStr.startswith k pre = false → k ≠ pre +:+ r.
Proof. intros H ->. by rewrite startswith_app in H. Qed.

Ltac not_layer H :=
  first [ by apply not_prefixed in H
        | symmetry in H; by apply not_prefixed in H ].

Lemma text_keys_inj (loc1 loc2 : location) (k : string) :
  layer_numbered loc1 → layer_numbered loc2 →
  k ∈ text_keys loc1 → k ∈ text_keys loc2 → loc1 = loc2.
Proof.
  assert (∀ n part k, k ∈ text_keys (DecoderLayer n part) →
            ∃ name, name ∈ decoder_names part ∧
                    k = "model.layers." +:+ n +:+ name) as Hlayer.
  { intros n part k' (name & -> & Hin)%list_elem_of_fmap. by exists name. }
  destruct loc1 as [p1| | |n1 part1| | | |]; simpl;
    try (by intros _ _ ?%elem_of_nil);
    destruct loc2 as [p2| | |n2 part2| | | |]; simpl;
    try (by intros _ _ _ ?%elem_of_nil); intros Hn1 Hn2 H1 H2.
  - destruct (String.eqb_spec p1 "input_embedding") as [->|];
      [|by apply elem_of_nil in H1].
    destruct (String.eqb_spec p2 "input_embedding") as [->|];
      [done|by apply elem_of_nil in H2].
  - destruct (String.eqb p1 "input_embedding"); elems H1; elems H2; by subst.
  - apply Hlayer in H2 as (name & _ & ->).
    destruct (String.eqb p1 "input_embedding"); elems H1;
      not_layer H1.
  - destruct (String.eqb p2 "input_embedding"); elems H1; elems H2; by subst.
  - done.
  - apply Hlayer in H2 as (name & _ & ->). elems H1.
    not_layer H1.
  - apply Hlayer in H1 as (name & _ & ->).
    destruct (String.eqb p2 "input_embedding"); elems H2;
      not_layer H2.
  - apply Hlayer in H1 as (name & _ & ->). elems H2.
    not_layer H2.
  - apply Hlayer in H1 as (name1 & Hin1 & ->).
    apply Hlayer in H2 as (name2 & Hin2 & Heq).
    apply String.app_inj in Heq.
    destruct (decoder_names_dot _ _ Hin1) as [t1 ->].
    destruct (decoder_names_dot _ _ Hin2) as [t2 ->].
    destruct (numeral_dot_inj _ _ _ _ Hn1 Hn2 Heq) as [-> ->].
    by rewrite (decoder_names_inj _ _ _ Hin1 Hin2).
Qed.

Lemma vision_layer_keys (n : string) (part : encoder_part)
    (prop k : string) :
  k ∈ vision_keys (VisionLayer n part prop) →
  ∃ m, m ∈ [".weight"; ".bias"] ∧
       (m = ".weight" → prop = weight_member part) ∧
       (m = ".bias" → prop = "bias") ∧
       k = "vision_model.vision_model.encoder.layers." +:+ n
             +:+ encoder_name part +:+ m.
Proof.
  intros [[-> ->]|[-> ->]]%elem_of_member_keys.
  - exists ".weight". split_and!; [left|done|done|done].
  - exists ".bias". split_and!; [right; left|done|done|done].
Qed.

Lemma vision_layer_keys_inj (n1 n2 : string) (part1 part2 : encoder_part)
    (p1 p2 k : string) :
  all_digits n1 = true → all_digits n2 = true →
  k ∈ vision_keys (VisionLayer n1 part1 p1) →
  k ∈ vision_keys (VisionLayer n2 part2 p2) →
  VisionLayer n1 part1 p1 = VisionLayer n2 part2 p2.
Proof.
  intros Hn1 Hn2 (m1 & Hm1 & Hw1 & Hb1 & ->)%vision_layer_keys
    (m2 & Hm2 & Hw2 & Hb2 & Heq)%vision_layer_keys.
  apply String.app_inj in Heq.
  destruct (encoder_name_dot part1) as [t1 Ht1].
  destruct (encoder_name_dot part2) as [t2 Ht2].
  assert (n1 = n2 ∧ encoder_name part1 +:+ m1 = encoder_name part2 +:+ m2)
    as [-> Hnames].
  { rewrite Ht1, Ht2, !str_app_cons in Heq |- *.
    destruct (numeral_dot_inj _ _ _ _ Hn1 Hn2 Heq) as [-> ->]. done. }
  destruct (encoder_names_inj _ _ _ _ Hm1 Hm2 Hnames) as [-> ->].
  f_equal. elems Hm2; subst.
  - by rewrite Hw1, Hw2.
  - by rewrite Hb1, Hb2.
Qed.

Lemma vision_keys_inj (loc1 loc2 : location) (k : string) :
  layer_numbered loc1 → layer_numbered loc2 →
  k ∈ vision_keys loc1 → k ∈ vision_keys loc2 → loc1 = loc2.
Proof.
  destruct loc1 as [| | | | |p1|n1 part1 p1|p1]; simpl;
    try (by intros _ _ ?%elem_of_nil);
    destruct loc2 as [| | | | |p2|n2 part2 p2|p2]; simpl;
    try (by intros _ _ _ ?%elem_of_nil); intros Hn1 Hn2 H1 H2;
    try done;
    try (by eapply vision_layer_keys_inj);
    repeat match goal with
    | H : _ ∈ option_list
              ((λ m, "vision_model.vision_model.encoder.layers." +:+ _)
                 <$> _) |- _ =>
        apply (vision_layer_keys _ _ _ _) in H as (? & ? & _ & _ & ?)
    | H : _ ∈ option_list _ |- _ =>
        apply elem_of_member_keys in H as [[-> ?]|[-> ?]]
    | H : _ ∈ [_] |- _ => apply list_elem_of_singleton in H
    end; subst; try done;
    exfalso;
    match goal with
    | H : _ = "vision_model.vision_model.encoder.layers." +:+ _ |- _ =>
        not_layer H
    | H : "vision_model.vision_model.encoder.layers." +:+ _ = _ |- _ =>
        not_layer H
    end.
Qed.

Lemma at_location_numbered (loc : location) (paths : list string) :
  at_location loc paths → layer_numbered loc.
Proof. destruct loc; simpl; tauto. Qed.

Lemma text_keys_vision (loc : location) :
  is_vision loc = true → text_keys loc = [].
Proof. by destruct loc. Qed.

Lemma vision_keys_text (loc : location) :
  is_vision loc = false → vision_keys loc = [].
Proof. by destruct loc. Qed.

Lemma vision_keys_prefixed (loc : location) (k : string) :
  k ∈ vision_keys loc → PyStr.startswith k "vision_model." = true.
Proof.
  destruct loc as [| | | | |p|n part p|p]; simpl;
    try (by intros ?%elem_of_nil).
  - by intros ->%list_elem_of_singleton.
  - by intros [[_ ->]|[_ ->]]%elem_of_member_keys.
  - intros (m & _ & _ & _ & ->)%vision_layer_keys.
    apply (startswith_app_l "vision_model.vision_model.encoder.layers."). done.
  - by intros [[_ ->]|[_ ->]]%elem_of_member_keys.
Qed.

Lemma location_keys_inj (config : Gemma3Config) (loc1 loc2 : location)
    (k : string) :
  layer_numbered loc1 → layer_numbered loc2 →
  k ∈ location_keys config loc1 → k ∈ location_keys config loc2 →
  loc1 = loc2.
Proof.
  intros Hn1 Hn2. unfold location_keys.
  destruct (vision_config config); [|by apply text_keys_inj].
  rewrite !elem_of_app, !list_elem_of_fmap.
  intros [(t1 & -> & H1)|H1] [(t2 & Heq & H2)|H2].
  - apply String.app_inj in Heq as <-. by eapply text_keys_inj.
  - apply vision_keys_prefixed in H2.
    by rewrite (startswith_excl _ _ "vision_model."
                  (startswith_app language_model_prefix t1) eq_refl eq_refl)
      in H2.
  - apply vision_keys_prefixed in H1. subst k.
    by rewrite (startswith_excl _ _ "vision_model."
                  (startswith_app language_model_prefix t2) eq_refl eq_refl)
      in H1.
  - by eapply vision_keys_inj.
Qed.

Lemma text_keys_NoDup (loc : location) : NoDup (text_keys loc).
Proof.
  destruct loc as [p| | |n part| | | |]; simpl; try apply NoDup_nil_2.
  - destruct (String.eqb p "input_embedding"); [|apply NoDup_nil_2].
    by apply (bool_decide_unpack (NoDup _)).
  - apply NoDup_singleton.
  - apply NoDup_fmap_2; [|apply decoder_names_NoDup].
    intros x y Heq. apply String.app_inj in Heq.
    by apply String.app_inj in Heq.
Qed.

Lemma vision_keys_NoDup (loc : location) : NoDup (vision_keys loc).
Proof.
  destruct loc as [| | | | |p|n part p|p]; simpl; try apply NoDup_nil_2.
  - apply NoDup_singleton.
  - destruct (member_name _ _); [apply NoDup_singleton|apply NoDup_nil_2].
  - destruct (member_name _ _); [apply NoDup_singleton|apply NoDup_nil_2].
  - destruct (member_name _ _); [apply NoDup_singleton|apply NoDup_nil_2].
Qed.

Lemma location_keys_NoDup (config : Gemma3Config) (loc : location) :
  NoDup (location_keys config loc).
Proof.
  unfold location_keys.
  destruct (vision_config config); [|apply text_keys_NoDup].
  destruct (is_vision loc) eqn:Hv.
  - rewrite text_keys_vision by done. apply vision_keys_NoDup.
  - rewrite vision_keys_text, app_nil_r by done.
    apply NoDup_fmap_2; [|apply text_keys_NoDup].
    intros x y Heq. by apply String.app_inj in Heq.
Qed.

(** Distinct locations contribute disjoint, duplicate-free keys. *)
Lemma location_keys_concat_NoDup (config : Gemma3Config)
    (locs : list location) :
  Forall layer_numbered locs → NoDup locs →
  NoDup (mjoin (location_keys config <$> locs)).
Proof.
  induction locs as [|loc locs IH]; intros Hn Hnd; [apply NoDup_nil_2|].
  apply Forall_cons in Hn as [Hn Hns]. apply NoDup_cons in Hnd as [Hnotin Hnd].
  rewrite fmap_cons. cbn [mjoin list_join]. apply NoDup_app. split_and!.
  - apply location_keys_NoDup.
  - intros k Hk (ks & Hin & (loc' & -> & Hloc')%list_elem_of_fmap)%list_elem_of_join.
    assert (loc = loc') as <-; [|done].
    eapply location_keys_inj; [done| |done|done].
    rewrite Forall_forall in Hns. by apply Hns.
  - by apply IH.
Qed.

Section LayoutRun.

Context {elt : Type}.
Variable cast_elt : dtype → dtype → elt → elt.

(** One iteration of [convert] on a leaf of the layout writes the keys
    of its location. *)
Lemma leaf_updates_keys (config : Gemma3Config) (loc : location)
    (paths : list string) (value : ndarray elt)
    (ups : list (string * ndarray elt)) :
  at_location loc paths →
  leaf_updates config (paths, value) = Ok ups →
  ups.*1 = location_keys config loc.
Proof.
  intros Hloc. destruct (location_first loc paths Hloc) as (first & H0 & Hs).
  unfold leaf_updates, location_keys. rewrite H0, Hs.
  destruct (is_vision loc) eqn:Hv.
  - rewrite text_keys_vision by done.
    destruct (vision_config config) as [vision|]; [|by intros [= <-]].
    destruct (_convert_siglip_weight vision paths value) as [[k w]|e] eqn:Hk;
      [|done].
    cbn [mbind result_bind]. intros [= <-]. simpl.
    by rewrite (vision_location_keys _ _ _ _ _ _ Hv Hloc Hk).
  - rewrite vision_keys_text, ?app_nil_r by done.
    destruct (_convert_transformer_weights (text_config config) paths value)
      as [pairs|e] eqn:Hp; [|done].
    cbn [mbind result_bind]. intros [= <-].
    pose proof (text_location_keys _ _ _ _ _ Hv Hloc Hp) as Hkeys.
    destruct (vision_config config).
    + rewrite <-Hkeys. clear. induction pairs as [|[p w] pairs IH]; [done|].
      simpl. by f_equal.
    + transitivity
        ((λ p, PyStr.slice_from p (PyStr.len language_model_prefix))
           <$> pairs.*1).
      { clear. induction pairs as [|[p w] pairs IH]; [done|].
        simpl. by f_equal. }
      rewrite Hkeys, <-list_fmap_compose.
      rewrite <-(list_fmap_id (text_keys loc)) at 2.
      apply list_fmap_ext. intros _ k _. simpl. apply slice_from_len_app.
Qed.

(** A run over a tree of the layout writes the keys of its locations,
    in order. *)
Lemma emitted_keys (config : Gemma3Config) (locs : list location)
    (ckpt : list (list string * ndarray elt))
    (ups : list (string * ndarray elt)) :
  Forall2 at_location locs ckpt.*1 →
  emitted config ckpt = Ok ups →
  ups.*1 = mjoin (location_keys config <$> locs).
Proof.
  revert locs ups. induction ckpt as [|[paths value] ckpt IH];
    intros locs ups Hlocs.
  - apply Forall2_nil_inv_r in Hlocs as ->. by intros [= <-].
  - rewrite fmap_cons in Hlocs.
    apply Forall2_cons_inv_r in Hlocs as (loc & locs' & Hloc & Hlocs & ->).
    cbn [emitted].
    destruct (leaf_updates config (paths, value)) as [lups|e] eqn:Hl; [|done].
    cbn [mbind result_bind].
    destruct (forallb _ lups); [|done].
    destruct (emitted config ckpt) as [later|e] eqn:He; [|done].
    cbn [mbind result_bind]. intros [= <-].
    rewrite fmap_app, fmap_cons. cbn [mjoin list_join].
    by rewrite (leaf_updates_keys _ _ _ _ _ Hloc Hl), (IH _ _ Hlocs eq_refl).
Qed.

(** Writing pairs with distinct fresh keys adds one entry per pair. *)
Lemma apply_updates_size (target : dtype)
    (hf_tree : gmap string (tensor elt))
    (ups : list (string * ndarray elt)) :
  NoDup ups.*1 →
  (∀ k, k ∈ ups.*1 → hf_tree !! k = None) →
  size (apply_updates cast_elt target hf_tree ups) =
    (size hf_tree + length ups)%nat.
Proof.
  unfold apply_updates. revert hf_tree.
  induction ups as [|[p w] ups IH]; intros hf_tree Hnd Hfresh; [simpl; lia|].
  rewrite fmap_cons in Hnd. apply NoDup_cons in Hnd as [Hp Hnd].
  cbn [foldl]. rewrite IH; [|done|].
  - cbn [fst snd]. rewrite map_size_insert_None; [simpl; lia|].
    apply Hfresh. left.
  - intros k Hk. cbn [fst snd]. rewrite lookup_insert_ne.
    + apply Hfresh. by right.
    + intros ->. done.
Qed.

End LayoutRun.

Section UniqueKeys.

Context {elt : Type}.
Variable cast_elt : dtype → dtype → elt → elt.

(** C1, as the converter has it.  For a source tree in the layout the
    rules are written for, with at most one leaf per location, and for
    either configuration, a run that completes never emits two pairs
    with the same destination key; no insertion overwrites an earlier
    entry, and the resulting mapping has one entry per emitted pair. *)
Theorem layout_keys_unique (ckpt : list (list string * ndarray elt))
    (locs : list location) (config : Gemma3Config) (target_dtype : dtype)
    (ups : list (string * ndarray elt)) :
  Forall2 at_location locs ckpt.*1 →
  NoDup locs →
  emitted config ckpt = Ok ups →
  NoDup ups.*1 ∧
  ∃ res, convert cast_elt ckpt config target_dtype = Ok res ∧
         size (state_tree res) = length ups.
Proof.
  intros Hlocs Hnd Hups.
  assert (NoDup ups.*1) as Hkeys.
  { rewrite (emitted_keys _ _ _ _ Hlocs Hups).
    apply location_keys_concat_NoDup; [|done].
    clear -Hlocs. induction Hlocs; constructor; [|done].
    by eapply at_location_numbered. }
  split; [done|].
  unfold convert. rewrite convert_loop_emitted, Hups.
  cbn [mbind result_bind]. eexists. split; [done|].
  cbn [state_tree]. rewrite apply_updates_size; [by rewrite map_size_empty|done|].
  intros k _. apply lookup_empty.
Qed.

End UniqueKeys.

(* ===================================================================== *)
(** ** The properties on the sample inputs *)
(* ===================================================================== *)

(** C1 as stated fails.  Two leaves with different (path, property) pairs are
    written under one key, with or without a vision configuration: the
    second write replaces the first, and the mapping ends with a single
    entry. *)
Lemma unique_pairs_shared_key :
  NoDup Sample.two_norm_leaves.*1 ∧
  emitted Sample.text_only Sample.two_norm_leaves =
    Ok [("model.norm.weight", Sample.arange [3%nat]);
        ("model.norm.weight", NDArray float32 [3%nat] [7; 8; 9])] ∧
  emitted Sample.multimodal Sample.two_norm_leaves =
    Ok [("language_model.model.norm.weight", Sample.arange [3%nat]);
        ("language_model.model.norm.weight", NDArray float32 [3%nat] [7; 8; 9])] ∧
  ∃ res, convert Sample.cast Sample.two_norm_leaves Sample.text_only float32
           = Ok res ∧
         size (state_tree res) = 1%nat ∧
         state_tree res !! "model.norm.weight" =
           Some (Tensor float32 [3%nat] [7; 8; 9]).
Proof.
  split_and!; [|reflexivity|reflexivity|].
  - apply (bool_decide_unpack (NoDup _)). by vm_compute.
  - eexists. split; [reflexivity|]. split; by vm_compute.
Qed.

(** C6 as stated fails.  A leaf with a recognized path whose array does not
    have two entries along its leading axis: the unpacking raises, a
    [ValueError] like the one an unrecognized leaf ends in. *)
Lemma recognized_leaf_raises :
  recognized "transformer/layer_0/mlp/gating_einsum" "w" ∧
  _convert_transformer_weights Sample.text
    ["transformer/layer_0/mlp/gating_einsum"; "w"] (Sample.arange [3%nat]) =
  Raise (UnpackError 2 3) ∧
  class_of (UnpackError 2 3) = PyValueError.
Proof.
  split_and!; [|reflexivity|reflexivity]. apply recognized_iff. reflexivity.
Qed.

(** C5 as stated fails.  The layer segment of a decoder path is copied
    into the key as it is; a text leaf whose layer segment is the vision
    sentinel gives, in a run without vision configuration, a key that
    contains the sentinel. *)
Lemma sentinel_inside_text_key :
  vision_config Sample.text_only = None ∧
  ∃ res,
    convert Sample.cast
      [(["transformer/layer_SigLiPFromPatches_0/pre_ffw_norm"; "scale"],
        Sample.arange [3%nat])]
      Sample.text_only float32 = Ok res ∧
    is_Some (state_tree res !!
      "model.layers.SigLiPFromPatches_0.pre_feedforward_layernorm.weight") ∧
    PyStr.contains
      "model.layers.SigLiPFromPatches_0.pre_feedforward_layernorm.weight"
      vision_sentinel = true.
Proof.
  split; [reflexivity|].
  exists {| state_tree :=
              apply_updates Sample.cast float32 ∅
                [("model.layers.SigLiPFromPatches_0.pre_feedforward_layernorm.weight",
                  Sample.arange [3%nat])];
            config_of := Sample.text_only |}.
  split_and!; [|apply apply_updates_is_Some; right; left|reflexivity].
  unfold convert. rewrite convert_loop_emitted. reflexivity.
Qed.

(** The sample tree, converted with a vision configuration, has distinct
    keys. *)
Lemma layout_keys_unique_witness :
  NoDup Sample.small_tree_locations ∧
  ∃ ups, emitted Sample.multimodal Sample.small_tree = Ok ups ∧
         NoDup ups.*1 ∧
         ∃ res, convert Sample.cast Sample.small_tree Sample.multimodal
                  bfloat16 = Ok res ∧
                size (state_tree res) = length ups.
Proof.
  assert (NoDup Sample.small_tree_locations) as Hnd.
  { apply (bool_decide_unpack (NoDup _)). by vm_compute. }
  split; [exact Hnd|].
  eexists. split; [vm_compute; reflexivity|].
  apply (layout_keys_unique Sample.cast Sample.small_tree
           Sample.small_tree_locations Sample.multimodal bfloat16).
  - repeat constructor; simpl; eauto.
  - exact Hnd.
  - vm_compute. reflexivity.
Defined.

(** The key/value split on a (2, 2, 3, 2) array. *)
Lemma kv_einsum_split_witness :
  ∃ k v,
    _convert_transformer_weights Sample.text
      ["transformer/layer_7/attn/kv_einsum"; "w"]
      (Sample.arange [2; 2; 3; 2]%nat) =
      Ok [("language_model.model.layers.7.self_attn.k_proj.weight", k);
          ("language_model.model.layers.7.self_attn.v_proj.weight", v)] ∧
    nd_shape k = [4; 3]%nat ∧ nd_shape v = [4; 3]%nat ∧
    nd_data k !! 1%nat = nd_data (Sample.arange [2; 2; 3; 2]%nat) !! 2%nat.
Proof.
  destruct (kv_einsum_split Sample.text "transformer/layer_7/attn/kv_einsum"
              "w" (Sample.arange [2; 2; 3; 2]%nat) 2 3 2)
    as (k & v & Hf & _ & _ & Hk & Hv & Hel); try reflexivity.
  exists k, v. split_and!; [exact Hf|exact Hk|exact Hv|].
  destruct (Hel 0 1 0)%nat as [H _]; [lia..|]. exact H.
Defined.

(** The gate/up split on a (2, 3, 5) array: the up array starts at
    element 15 of the source. *)
Lemma gating_einsum_split_witness :
  ∃ gate up,
    _convert_transformer_weights Sample.text
      ["transformer/layer_0/mlp/gating_einsum"; "w"]
      (Sample.arange [2; 3; 5]%nat) =
      Ok [("language_model.model.layers.0.mlp.gate_proj.weight", gate);
          ("language_model.model.layers.0.mlp.up_proj.weight", up)] ∧
    nd_shape gate = [3; 5]%nat ∧ nd_shape up = [3; 5]%nat ∧
    nd_data gate !! 7%nat = Some 7 ∧
    nd_data up !! 7%nat = Some 22.
Proof.
  destruct (gating_einsum_split Sample.text
              "transformer/layer_0/mlp/gating_einsum" "w"
              (Sample.arange [2; 3; 5]%nat) 3 5)
    as (gate & up & Hf & _ & _ & Hg & Hu & _ & _ & _ & Hel); try reflexivity.
  destruct (Hel 1 2)%nat as [Hgate Hup]; [lia..|].
  exists gate, up. split_and!; [exact Hf|exact Hg|exact Hu|exact Hgate|exact Hup].
Defined.

(** A text-only run over a text leaf and a vision leaf keeps the text key
    only, without its wrapper. *)
Lemma vision_skipped_and_prefix_stripped_witness :
  ∃ res,
    convert Sample.cast Sample.norm_and_vision Sample.text_only float32
      = Ok res ∧
    is_Some (state_tree res !! "model.norm.weight") ∧
    text_branch_key Sample.text_only Sample.norm_and_vision
      "language_model.model.norm.weight" ∧
    PyStr.startswith "model.norm.weight" vision_sentinel = false.
Proof.
  set (res := {| state_tree :=
                   apply_updates Sample.cast float32 ∅
                     [("model.norm.weight", Sample.arange [3%nat])];
                 config_of := Sample.text_only |}).
  assert (convert Sample.cast Sample.norm_and_vision Sample.text_only float32
          = Ok res) as Hc.
  { unfold convert. rewrite convert_loop_emitted. reflexivity. }
  assert (is_Some (state_tree res !! "model.norm.weight")) as Hsome.
  { apply apply_updates_is_Some. right. left. }
  destruct (vision_skipped_and_prefix_stripped Sample.cast
              Sample.norm_and_vision Sample.text_only float32 res
              "model.norm.weight" eq_refl Hc) as [Hiff Hpre].
  exists res. split_and!; [exact Hc|exact Hsome|apply Hiff, Hsome|apply Hpre, Hsome].
Defined.

(** The final norm produces one path and one array. *)
Lemma path_weight_counts_agree_witness :
  _convert_transformer_weights Sample.text ["transformer/final_norm"; "scale"]
    (Sample.arange [3%nat]) =
    Ok [("language_model.model.norm.weight", Sample.arange [3%nat])] ∧
  declared_fan_out "transformer/final_norm" "scale" = 1%nat.
Proof.
  destruct (path_weight_counts_agree Sample.text "transformer/final_norm"
              "scale" (Sample.arange [3%nat])
              (Assigned ["language_model.model.norm.weight"]
                 [Sample.arange [3%nat]]) eq_refl)
    as (_ & Hlen & _ & Hf).
  split; [exact Hf|]. symmetry. exact Hlen.
Defined.

(** The key projection's kernel of a vision encoder block. *)
Lemma siglip_attention_transforms_witness :
  ∃ u,
    _convert_siglip_weight Sample.vision [Sample.attention_key_path; "kernel"]
      (Sample.arange [2; 1; 3]%nat) =
      Ok (encoder_base_path Sample.attention_key_path
            +:+ ".self_attn.k_proj" +:+ ".weight", u) ∧
    nd_shape u = [2; 3]%nat ∧
    nd_data u !! 1%nat = nd_data (Sample.arange [2; 1; 3]%nat) !! 2%nat.
Proof.
  pose proof (siglip_attention_transforms Sample.vision
                Sample.attention_key_path "kernel"
                (Sample.arange [2; 1; 3]%nat) 2 eq_refl eq_refl eq_refl eq_refl)
    as H.
  change (attention_projection _) with (Some ".self_attn.k_proj") in H.
  cbv beta iota zeta in H. destruct H as (_ & Hk & _).
  destruct (Hk eq_refl) as [_ Hok].
  destruct Hok as (u & Hu & Hsh & Hel); [done|done|].
  exists u. split_and!; [exact Hu|exact Hsh|].
  apply (Hel 1 0)%nat; vm_compute; lia.
Defined.

(** A [bfloat16] run stores [bfloat16] tensors. *)
Lemma stored_tensors_cast_via_float32_witness :
  ∃ res t,
    convert Sample.cast Sample.norm_and_vision Sample.text_only bfloat16
      = Ok res ∧
    state_tree res !! "model.norm.weight" = Some t ∧
    t_dtype t = bfloat16.
Proof.
  set (res := {| state_tree :=
                   apply_updates Sample.cast bfloat16 ∅
                     [("model.norm.weight", Sample.arange [3%nat])];
                 config_of := Sample.text_only |}).
  assert (convert Sample.cast Sample.norm_and_vision Sample.text_only bfloat16
          = Ok res) as Hc.
  { unfold convert. rewrite convert_loop_emitted. reflexivity. }
  assert (state_tree res !! "model.norm.weight" =
          Some (stored Sample.cast bfloat16 (Sample.arange [3%nat]))) as Hk.
  { apply lookup_insert_eq. }
  destruct (stored_tensors_cast_via_float32 Sample.cast Sample.norm_and_vision
              Sample.text_only bfloat16 res "model.norm.weight" _ Hc Hk)
    as [Hdt _].
  exists res. eexists. split_and!; [exact Hc|exact Hk|exact Hdt].
Defined.

(** The final-norm key and what the slice leaves of it. *)
Lemma destination_paths_start_with_language_model_witness :
  PyStr.startswith "language_model.model.norm.weight" language_model_prefix
    = true ∧
  PyStr.slice_from "language_model.model.norm.weight"
    (PyStr.len language_model_prefix) = "model.norm.weight".
Proof.
  destruct (destination_paths_start_with_language_model Sample.text
              ["transformer/final_norm"; "scale"] (Sample.arange [3%nat])
              [("language_model.model.norm.weight", Sample.arange [3%nat])]
              "language_model.model.norm.weight" (Sample.arange [3%nat])
              eq_refl) as (Hs & Hp & _).
  { left. }
  split; [exact Hs|].
  apply (String.app_inj language_model_prefix). symmetry. exact Hp.
Defined.

(** A query projection of the configured shape is converted, and the
    multimodal projection leaf yields no pair. *)
Lemma unrecognized_raises_well_shaped_returns_witness :
  (∃ pairs,
     _convert_transformer_weights Sample.text
       ["transformer/layer_0/attn/q_einsum"; "w"]
       (Sample.arange [2; 3; 2]%nat) = Ok pairs) ∧
  _convert_transformer_weights Sample.text
    ["transformer/embedder/mm_input_projection"; "w"]
    (Sample.arange [2; 3; 2]%nat) = Ok [].
Proof.
  destruct (unrecognized_raises_well_shaped_returns Sample.text
              "transformer/layer_0/attn/q_einsum" "w"
              (Sample.arange [2; 3; 2]%nat))
    as (_ & Hok & _ & _ & _ & _ & Hmm & _).
  split; [|exact (Hmm)].
  apply Hok.
  - apply recognized_iff. reflexivity.
  - intros _. split_and!; intros Hs; first [discriminate Hs|reflexivity].
Defined.

(* ===================================================================== *)
(** ** Transposition in general *)
(* ===================================================================== *)

Lemma sum_list_perm (l1 l2 : list nat) :
  l1 ≡ₚ l2 → sum_list l1 = sum_list l2.
Proof. induction 1; simpl; lia. Qed.

Lemma size_of_perm (sh1 sh2 : list nat) :
  sh1 ≡ₚ sh2 → size_of sh1 = size_of sh2.
Proof. unfold size_of. induction 1; simpl; lia. Qed.

Lemma valid_axes_perm (n : nat) (axes : list nat) :
  valid_axes n axes = true → axes ≡ₚ seq 0 n.
Proof.
  intros (Hlen & Hnd & Hlt)%bool_decide_eq_true.
  apply submseteq_length_Permutation.
  - apply NoDup_submseteq; [done|]. intros x Hx. apply elem_of_seq.
    rewrite Forall_forall in Hlt. specialize (Hlt x Hx). lia.
  - rewrite length_seq. lia.
Qed.

Lemma omap_cons {A B : Type} (g : A → option B) (x : A) (r : list A) :
  omap g (x :: r) = match g x with Some y => y :: omap g r | None => omap g r end.
Proof. reflexivity. Qed.

Lemma omap_lookup_seq {A : Type} (l : list A) (j n : nat) :
  omap (λ i, l !! i) (seq j n) = take n (drop j l).
Proof.
  revert j. induction n as [|n IH]; intros j; [done|].
  cbn [seq]. rewrite omap_cons, IH. destruct (l !! j) as [x|] eqn:Hj.
  - by rewrite (drop_S _ _ _ Hj).
  - apply lookup_ge_None in Hj.
    rewrite !(drop_ge l) by lia. by rewrite !take_nil.
Qed.

Lemma permute_perm {A : Type} (axes : list nat) (l : list A) :
  valid_axes (length l) axes = true → permute axes l ≡ₚ l.
Proof.
  intros Hv%valid_axes_perm. unfold permute. rewrite Hv.
  rewrite omap_lookup_seq, drop_0. by rewrite take_ge.
Qed.

Lemma permute_fmap {A B : Type} (f : A → B) (axes : list nat) (l : list A) :
  f <$> permute axes l = permute axes (f <$> l).
Proof.
  unfold permute. induction axes as [|ax axes IH]; [done|].
  rewrite !omap_cons, list_lookup_fmap.
  destruct (l !! ax); [rewrite fmap_cons|];
    cbn [fmap option_fmap option_map]; by rewrite IH.
Qed.

Lemma length_strides (sh : list nat) : length (strides sh) = length sh.
Proof. induction sh; simpl; by f_equal. Qed.

Lemma reach_cons (d st : nat) (P : list (nat * nat)) :
  reach ((d, st) :: P) = ((d - 1) * st + reach P)%nat.
Proof. reflexivity. Qed.

Lemma reach_row_major (sh : list nat) :
  Forall (λ d, 0 < d)%nat sh →
  (reach (zip sh (strides sh)) + 1)%nat = size_of sh.
Proof.
  induction 1 as [|d sh Hd _ IH]; [done|].
  change (zip (d :: sh) (strides (d :: sh)))
    with ((d, size_of sh) :: zip sh (strides sh)).
  change (size_of (d :: sh)) with (d * size_of sh)%nat.
  rewrite reach_cons.
  destruct d as [|d]; [lia|].
  replace (S d - 1)%nat with d by lia. lia.
Qed.

Lemma offset_le_reach (idx : list nat) (P : list (nat * nat)) :
  Forall2 (λ i p, i < p.1)%nat idx P →
  (offset P.*2 idx ≤ reach P)%nat.
Proof.
  induction 1 as [|i [d s] idx P Hi _ IH]; [done|].
  rewrite reach_cons.
  change (offset ((d, s) :: P).*2 (i :: idx))
    with (i * s + offset P.*2 idx)%nat.
  simpl in Hi.
  assert (i * s ≤ (d - 1) * s)%nat by (apply Nat.mul_le_mono_r; lia).
  lia.
Qed.

Lemma unravel_in_bounds (sh : list nat) (k : nat) :
  (k < size_of sh)%nat → in_bounds (unravel sh k) sh.
Proof.
  revert k. induction sh as [|d sh IH]; intros k Hk; [constructor|].
  simpl in *. fold (size_of sh) in *.
  assert (size_of sh ≠ 0)%nat by nia.
  constructor.
  - apply Nat.Div0.div_lt_upper_bound. lia.
  - apply IH. by apply Nat.mod_upper_bound.
Qed.

Lemma ravel_lt (sh idx : list nat) :
  in_bounds idx sh → (ravel sh idx < size_of sh)%nat.
Proof.
  unfold ravel, offset. induction 1 as [|i d idx sh Hi _ IH]; [simpl; lia|].
  simpl in *. fold (size_of sh) in *.
  pose proof (flat_lt i d _ _ Hi IH). lia.
Qed.

Lemma unravel_ravel (sh idx : list nat) :
  in_bounds idx sh → unravel sh (ravel sh idx) = idx.
Proof.
  induction 1 as [|i d idx sh Hi Hrest IH]; [done|].
  pose proof (ravel_lt _ _ Hrest) as Hlt.
  unfold ravel, offset in *. simpl in *. fold (size_of sh) in *.
  destruct (divmod_unique (i * size_of sh + sum_list (zip_with Nat.mul idx (strides sh)))
              (size_of sh) i (sum_list (zip_with Nat.mul idx (strides sh))))
    as [-> ->]; [done|done|].
  by rewrite IH.
Qed.

Lemma in_bounds_positive (idx sh : list nat) :
  in_bounds idx sh → Forall (λ d, 0 < d)%nat sh.
Proof. induction 1; constructor; [lia|done]. Qed.

Section TransposeGeneral.

Context {elt : Type}.
Implicit Types a b : ndarray elt.

(** A position reached through permuted strides stays inside the
    buffer. *)
Lemma permuted_offset_lt (sh axes idx : list nat) :
  valid_axes (length sh) axes = true →
  in_bounds idx (permute axes sh) →
  (offset (permute axes (strides sh)) idx < size_of sh)%nat.
Proof.
  intros Hv Hidx.
  set (P := zip sh (strides sh)).
  assert (length P = length sh) as HlenP.
  { unfold P. rewrite length_zip, length_strides. lia. }
  assert (P.*1 = sh) as HP1 by (apply fst_zip; rewrite length_strides; lia).
  assert (P.*2 = strides sh) as HP2 by (apply snd_zip; rewrite length_strides; lia).
  assert (permute axes P ≡ₚ P) as Hperm by (apply permute_perm; by rewrite HlenP).
  rewrite <-HP2, <-permute_fmap.
  unfold in_bounds in Hidx.
  rewrite <-HP1, <-permute_fmap, Forall2_fmap_r in Hidx.
  pose proof (offset_le_reach _ _ Hidx) as Hle.
  assert (reach (permute axes P) = reach P) as Hreach.
  { unfold reach. apply sum_list_perm. by rewrite Hperm. }
  assert (Forall (λ d, 0 < d)%nat sh) as Hpos.
  { rewrite <-HP1, <-Hperm.
    apply Forall_fmap. eapply Forall2_Forall_r; [exact Hidx|].
    apply Forall_true. intros i p. simpl. lia. }
  pose proof (reach_row_major sh Hpos). fold P in H. lia.
Qed.

(** Transposing a well-formed array by a permutation of its axes
    succeeds; the result is well-formed, has the permuted shape and as
    many elements, and holds at each multi-index the element the
    permuted strides lead to. *)
Lemma np_transpose_valid a (axes : list nat) :
  valid_axes (length (nd_shape a)) axes = true →
  well_formed a →
  ∃ b, np_transpose a axes = Ok b ∧
       nd_dtype b = nd_dtype a ∧
       nd_shape b = permute axes (nd_shape a) ∧
       well_formed b ∧
       np_size b = np_size a ∧
       ∀ idx, in_bounds idx (nd_shape b) →
         nd_data b !! ravel (nd_shape b) idx =
         nd_data a !! offset (permute axes (strides (nd_shape a))) idx.
Proof.
  intros Hv Hwf. unfold np_transpose. rewrite Hv.
  eexists. split; [done|]. unfold well_formed at 1, np_size.
  rewrite nd_dtype_result, !nd_shape_result, !nd_data_result.
  set (sh' := permute axes (nd_shape a)).
  set (st' := permute axes (strides (nd_shape a))).
  assert (size_of sh' = size_of (nd_shape a)) as Hsz.
  { apply size_of_perm, permute_perm, Hv. }
  destruct (gather_lookup (nd_data a) (λ k, offset st' (unravel sh' k))
              (size_of sh')) as [Hlen Hlook].
  { intros k Hk. rewrite Hwf.
    apply permuted_offset_lt; [done|]. by apply unravel_in_bounds. }
  split_and!; [done|done|exact Hlen|exact Hsz|].
  intros idx Hidx. rewrite Hlook by by apply ravel_lt.
  by rewrite unravel_ravel.
Qed.

End TransposeGeneral.

(** *** Reversing the axes *)

Lemma omap_reverse {A B : Type} (g : A → option B) (l : list A) :
  omap g (reverse l) = reverse (omap g l).
Proof.
  induction l as [|x l IH]; [done|].
  rewrite reverse_cons, omap_app, IH, (omap_cons g x l), (omap_cons g x []).
  destruct (g x) as [y|]; [by rewrite reverse_cons|].
  simpl. by rewrite app_nil_r.
Qed.

Lemma permute_reverse {A : Type} (l : list A) :
  permute (reverse (seq 0 (length l))) l = reverse l.
Proof.
  unfold permute.
  by rewrite omap_reverse, omap_lookup_seq, drop_0, take_ge.
Qed.

Lemma sum_list_append (l1 l2 : list nat) :
  sum_list (l1 ++ l2) = (sum_list l1 + sum_list l2)%nat.
Proof. induction l1; simpl; lia. Qed.

Lemma offset_reverse (st idx : list nat) :
  length idx = length st →
  offset (reverse st) (reverse idx) = offset st idx.
Proof.
  unfold offset. revert st. induction idx as [|i idx IH]; intros [|s st] Hlen;
    try done.
  simpl in Hlen. rewrite !reverse_cons.
  rewrite zip_with_app by (rewrite !length_reverse; lia).
  rewrite sum_list_append, IH by lia. simpl. lia.
Qed.

Lemma in_bounds_length (idx sh : list nat) :
  in_bounds idx sh → length idx = length sh.
Proof. apply Forall2_length. Qed.

(* ===================================================================== *)
(** ** The remaining rules of the text table *)
(* ===================================================================== *)

(** Run through the suffix tests of a decoder block, given the one that
    holds. *)
Ltac decoder_suffix_tests path Hsuf :=
  repeat match goal with
  | |- context [if PyStr.endswith path ?s then _ else _] =>
      first [ rewrite Hsuf
            | rewrite (endswith_excl path _ s Hsuf eq_refl eq_refl) ]
  end.

Section TextRulesMore.

Context {elt : Type}.
Implicit Types weights : ndarray elt.

(** X1.  Attention output projection.  For a decoder-block path ending
    in ["attn/attn_vec_einsum"] and an array of shape
    (num_attention_heads, head_dim, hidden_size), one pair is emitted,
    [o_proj.weight], of shape
    (hidden_size, num_attention_heads * head_dim); its element at row
    [i], column [h * head_dim + d] is element (h, d, i) of the
    source. *)
Theorem attn_vec_einsum_o_proj (config : Gemma3TextConfig)
    (path prop : string) weights (nh hd hs : nat) :
  PyStr.startswith path _TRANSFORMER_DECODER_BLOCK = true →
  PyStr.endswith path "attn/attn_vec_einsum" = true →
  num_attention_heads config = Z.of_nat nh →
  head_dim config = Z.of_nat hd →
  hidden_size config = Z.of_nat hs →
  nd_shape weights = [nh; hd; hs] →
  well_formed weights →
  ∃ o : ndarray elt,
    _convert_transformer_weights config [path; prop] weights =
      Ok [(decoder_base_path path +:+ ".self_attn.o_proj.weight", o)] ∧
    nd_dtype o = nd_dtype weights ∧
    nd_shape o = [hs; (nh * hd)%nat] ∧
    well_formed o ∧
    ∀ h d i, (h < nh)%nat → (d < hd)%nat → (i < hs)%nat →
      nd_data o !! ravel [hs; (nh * hd)%nat] [i; (h * hd + d)%nat] =
      nd_data weights !! ravel [nh; hd; hs] [h; d; i].
Proof.
  intros Hblk Hsuf Hnh Hhd Hhs Hsh Hwf.
  destruct (np_transpose_valid weights [2; 0; 1]%nat)
    as (t & Ht & Htdt & Htsh & Htwf & Htsz & Htel); [by rewrite Hsh|done|].
  rewrite Hsh in Htsh, Htel. cbn in Htsh.
  assert (np_reshape t [Z.of_nat hs; Z.of_nat nh * Z.of_nat hd] =
          Ok (NDArray (nd_dtype t) [hs; (nh * hd)%nat] (nd_data t))) as Hre.
  { rewrite <-Nat2Z.inj_mul. apply (np_reshape_dims t [hs; (nh * hd)%nat]).
    unfold np_size. rewrite Htsh. simpl. lia. }
  eexists. split_and!.
  - unfold _convert_transformer_weights, _convert_transformer_weights_chain.
    cbn [unpack2 mbind result_bind].
    enter_decoder_block Hblk. rewrite Hsuf, Ht. cbn [mbind result_bind].
    rewrite Hnh, Hhd, Hhs, Hre. reflexivity.
  - done.
  - done.
  - unfold well_formed in *. rewrite Htsh in Htwf. simpl in *. lia.
  - intros h d i Hh Hd Hi. cbn [nd_data].
    specialize (Htel [i; h; d]). rewrite Htsh in Htel.
    replace (ravel [hs; (nh * hd)%nat] [i; (h * hd + d)%nat])
      with (ravel [hs; nh; hd] [i; h; d])
      by (unfold ravel, offset; simpl; lia).
    rewrite Htel by (repeat constructor; done).
    f_equal. unfold ravel, offset. simpl. lia.
Qed.

(** X2.  Query projection.  For a decoder-block path ending in
    ["attn/q_einsum"] and an array of shape
    (num_attention_heads, hidden_size, head_dim), one pair is emitted,
    [q_proj.weight], of shape
    (num_attention_heads * head_dim, hidden_size); its element at row
    [h * head_dim + d], column [i] is element (h, i, d) of the
    source. *)
Theorem q_einsum_q_proj (config : Gemma3TextConfig)
    (path prop : string) weights (nh hs hd : nat) :
  PyStr.startswith path _TRANSFORMER_DECODER_BLOCK = true →
  PyStr.endswith path "attn/q_einsum" = true →
  num_attention_heads config = Z.of_nat nh →
  head_dim config = Z.of_nat hd →
  hidden_size config = Z.of_nat hs →
  nd_shape weights = [nh; hs; hd] →
  well_formed weights →
  ∃ q : ndarray elt,
    _convert_transformer_weights config [path; prop] weights =
      Ok [(decoder_base_path path +:+ ".self_attn.q_proj.weight", q)] ∧
    nd_dtype q = nd_dtype weights ∧
    nd_shape q = [(nh * hd)%nat; hs] ∧
    well_formed q ∧
    ∀ h i d, (h < nh)%nat → (i < hs)%nat → (d < hd)%nat →
      nd_data q !! ravel [(nh * hd)%nat; hs] [(h * hd + d)%nat; i] =
      nd_data weights !! ravel [nh; hs; hd] [h; i; d].
Proof.
  intros Hblk Hsuf Hnh Hhd Hhs Hsh Hwf.
  destruct (np_transpose_valid weights [0; 2; 1]%nat)
    as (t & Ht & Htdt & Htsh & Htwf & Htsz & Htel); [by rewrite Hsh|done|].
  rewrite Hsh in Htsh, Htel. cbn in Htsh.
  assert (np_reshape t [Z.of_nat nh * Z.of_nat hd; Z.of_nat hs] =
          Ok (NDArray (nd_dtype t) [(nh * hd)%nat; hs] (nd_data t))) as Hre.
  { rewrite <-Nat2Z.inj_mul. apply (np_reshape_dims t [(nh * hd)%nat; hs]).
    unfold np_size. rewrite Htsh. simpl. lia. }
  eexists. split_and!.
  - unfold _convert_transformer_weights, _convert_transformer_weights_chain.
    cbn [unpack2 mbind result_bind].
    enter_decoder_block Hblk. decoder_suffix_tests path Hsuf.
    rewrite Ht. cbn [mbind result_bind].
    rewrite Hnh, Hhd, Hhs, Hre. reflexivity.
  - done.
  - done.
  - unfold well_formed in *. rewrite Htsh in Htwf. simpl in *. lia.
  - intros h i d Hh Hi Hd. cbn [nd_data].
    specialize (Htel [h; d; i]). rewrite Htsh in Htel.
    replace (ravel [(nh * hd)%nat; hs] [(h * hd + d)%nat; i])
      with (ravel [nh; hd; hs] [h; d; i])
      by (unfold ravel, offset; simpl; lia).
    rewrite Htel by (repeat constructor; done).
    f_equal. unfold ravel, offset. simpl. lia.
Qed.

End TextRulesMore.

Section TextRulesMore2.

Context {elt : Type}.
Implicit Types weights : ndarray elt.

(** X3.  Down projection.  For a decoder-block path ending in
    ["mlp/linear"], whatever the rank of the array, one pair is
    emitted, [down_proj.weight]: the array with its axes reversed, so
    that the element at a multi-index of the source sits at the
    reversed multi-index of the result (the matrix transpose for a
    2-d array). *)
Theorem mlp_linear_down_proj (config : Gemma3TextConfig)
    (path prop : string) weights :
  PyStr.startswith path _TRANSFORMER_DECODER_BLOCK = true →
  PyStr.endswith path "mlp/linear" = true →
  well_formed weights →
  ∃ w : ndarray elt,
    _convert_transformer_weights config [path; prop] weights =
      Ok [(decoder_base_path path +:+ ".mlp.down_proj.weight", w)] ∧
    nd_dtype w = nd_dtype weights ∧
    nd_shape w = reverse (nd_shape weights) ∧
    well_formed w ∧
    ∀ idx, in_bounds idx (nd_shape weights) →
      nd_data w !! ravel (reverse (nd_shape weights)) (reverse idx) =
      nd_data weights !! ravel (nd_shape weights) idx.
Proof.
  intros Hblk Hsuf Hwf.
  destruct (np_transpose_valid weights
              (reverse (seq 0 (length (nd_shape weights)))))
    as (w & Hw & Hdt & Hsh & Hwwf & _ & Hel);
    [apply valid_axes_reverse|done|].
  rewrite permute_reverse in Hsh.
  exists w. split_and!; try done.
  - unfold _convert_transformer_weights, _convert_transformer_weights_chain.
    cbn [unpack2 mbind result_bind].
    enter_decoder_block Hblk. decoder_suffix_tests path Hsuf.
    unfold np_transpose_rev. rewrite Hw. reflexivity.
  - intros idx Hidx. rewrite <-Hsh. rewrite Hel.
    + rewrite <-(length_strides (nd_shape weights)), permute_reverse.
      rewrite offset_reverse; [done|].
      rewrite length_strides. by apply in_bounds_length.
    + rewrite Hsh. by apply Forall2_reverse.
Qed.

Lemma decoder_norm_branch (config : Gemma3TextConfig)
    (path prop suffix name : string) weights :
  PyStr.startswith path _TRANSFORMER_DECODER_BLOCK = true →
  (suffix, name) ∈ norm_rules →
  PyStr.endswith path suffix = true →
  _convert_transformer_weights config [path; prop] weights =
    Ok [(decoder_base_path path +:+ name, weights)].
Proof.
  intros Hblk Hin Hsuf.
  unfold _convert_transformer_weights, _convert_transformer_weights_chain.
  cbn [unpack2 mbind result_bind].
  enter_decoder_block Hblk.
  fold (block_layer_idx _TRANSFORMER_DECODER_BLOCK_LEN path).
  unfold norm_rules in Hin. elems Hin; simplify_eq;
    decoder_suffix_tests path Hsuf; reflexivity.
Qed.

(** X4.  The six norm rules of a decoder block and the final norm copy
    the array: one pair is emitted, under the parameter name of the
    rule, and its array is the source array itself, whatever its shape
    or dtype. *)
Theorem norms_copied (config : Gemma3TextConfig)
    (path prop suffix name : string) weights :
  PyStr.startswith path _TRANSFORMER_DECODER_BLOCK = true →
  (suffix, name) ∈ norm_rules →
  PyStr.endswith path suffix = true →
  _convert_transformer_weights config [path; prop] weights =
    Ok [(decoder_base_path path +:+ name, weights)] ∧
  _convert_transformer_weights config [_TRANSFORMER_FINAL_NORM; prop] weights =
    Ok [("language_model.model.norm.weight", weights)].
Proof.
  intros Hblk Hin Hsuf. split; [by apply (decoder_norm_branch _ _ _ suffix)|reflexivity].
Qed.

(** X5.  The gate/up rule succeeds exactly on arrays with two entries
    along the leading axis, of any rank: a 0-d array cannot be
    iterated, and any other leading length fails the unpacking into
    two names. *)
Theorem gating_einsum_needs_two_rows (config : Gemma3TextConfig)
    (path prop : string) weights :
  PyStr.startswith path _TRANSFORMER_DECODER_BLOCK = true →
  PyStr.endswith path "mlp/gating_einsum" = true →
  _convert_transformer_weights config [path; prop] weights =
  match nd_shape weights with
  | [] => Raise IterationError
  | n :: sh =>
      if (n =? 2)%nat then
        Ok [(decoder_base_path path +:+ ".mlp.gate_proj.weight",
             np_row sh weights 0);
            (decoder_base_path path +:+ ".mlp.up_proj.weight",
             np_row sh weights 1)]
      else Raise (UnpackError 2 n)
  end.
Proof.
  intros Hblk Hsuf.
  unfold _convert_transformer_weights, _convert_transformer_weights_chain.
  cbn [unpack2 mbind result_bind].
  enter_decoder_block Hblk. decoder_suffix_tests path Hsuf.
  fold (block_layer_idx _TRANSFORMER_DECODER_BLOCK_LEN path).
  unfold np_unpack2, np_iter.
  destruct (nd_shape weights) as [|n sh]; [done|].
  cbn [mbind result_bind].
  destruct n as [|[|[|n]]]; try done.
  unfold unpack2. cbn [seq fmap list_fmap]. rewrite !length_cons.
  by rewrite length_fmap, length_seq.
Qed.

(** X6.  Outside the embedder the text table never looks at the leaf
    property: two leaves under the same path are converted alike. *)
Theorem text_rules_ignore_property (config : Gemma3TextConfig)
    (path prop1 prop2 : string) weights :
  path ≠ _TRANSFORMER_EMBEDDER →
  _convert_transformer_weights config [path; prop1] weights =
  _convert_transformer_weights config [path; prop2] weights.
Proof.
  intros Hne%String.eqb_neq.
  unfold _convert_transformer_weights, _convert_transformer_weights_chain.
  cbn [unpack2 mbind result_bind]. by rewrite Hne.
Qed.

End TextRulesMore2.

(* ===================================================================== *)
(** ** The layer index *)
(* ===================================================================== *)

Section LayerIndex.

Implicit Types idx r s : string.

Lemma find_from_absent i s r :
  0 ≤ i → PyStr.find_from i s "/" = -1 →
  PyStr.find_from i (s +:+ String "/"%char r) "/" = i + PyStr.len s.
Proof.
  revert i. induction s as [|c s IH]; intros i Hi Hnone.
  - change ("" +:+ String "/"%char r) with (String "/"%char r).
    unfold PyStr.len. simpl. rewrite startswith_empty. lia.
  - rewrite str_app_cons.
    cbn [PyStr.find_from PyStr.startswith] in Hnone |- *.
    destruct (Ascii.eqb "/"%char c).
    + rewrite startswith_empty in Hnone. lia.
    + rewrite IH by (done || lia). unfold PyStr.len. cbn [String.length]. lia.
Qed.

Lemma contains_false_find s :
  PyStr.contains s "/" = false → PyStr.find s "/" = -1.
Proof.
  unfold PyStr.contains. intros H%negb_false_iff. by apply Z.eqb_eq in H.
Qed.

(** The index is what stands between the block prefix and the first
    separator after it. *)
Lemma block_layer_idx_split (pre idx r : string) :
  PyStr.contains idx "/" = false →
  block_layer_idx (PyStr.len pre) (pre +:+ idx +:+ String "/"%char r) = idx.
Proof.
  intros Hidx%contains_false_find. unfold block_layer_idx.
  rewrite slice_from_len_app.
  unfold PyStr.find in *. rewrite find_from_absent by done.
  apply slice_to_len_app.
Qed.

Lemma str_take_length s : PyStr.take (String.length s) s = s.
Proof. induction s as [|c s IH]; [done|]. simpl. by f_equal. Qed.

(** Without a separator after the block prefix, [find] answers [-1]
    and the slice drops the last character. *)
Lemma block_layer_idx_no_separator (pre rest : string) :
  PyStr.contains rest "/" = false →
  block_layer_idx (PyStr.len pre) (pre +:+ rest) =
    PyStr.take (String.length rest - 1) rest.
Proof.
  intros Hrest%contains_false_find. unfold block_layer_idx.
  rewrite slice_from_len_app, Hrest.
  unfold PyStr.slice_to, PyStr.bound, PyStr.len. f_equal.
  change (-1 <? 0) with true. cbv iota. lia.
Qed.

End LayerIndex.

Section LayerIndexRules.

Context {elt : Type}.
Implicit Types weights : ndarray elt.

(** X7.  The layer segment of a destination key is the text between
    ["transformer/layer_"] and the first ["/"] after it, whatever
    characters it is made of. *)
Theorem layer_index_is_first_segment (config : Gemma3TextConfig)
    (idx r prop suffix name : string) weights :
  PyStr.contains idx "/" = false →
  (suffix, name) ∈ norm_rules →
  PyStr.endswith (_TRANSFORMER_DECODER_BLOCK +:+ idx +:+ String "/"%char r)
    suffix = true →
  _convert_transformer_weights config
    [_TRANSFORMER_DECODER_BLOCK +:+ idx +:+ String "/"%char r; prop]
    weights =
    Ok [("language_model.model.layers." +:+ idx +:+ name, weights)].
Proof.
  intros Hidx Hin Hsuf.
  rewrite (decoder_norm_branch config _ prop suffix name weights
             (startswith_app _ _) Hin Hsuf).
  unfold decoder_base_path, _TRANSFORMER_DECODER_BLOCK_LEN.
  rewrite (block_layer_idx_split _TRANSFORMER_DECODER_BLOCK idx r Hidx).
  reflexivity.
Qed.

(** X8.  A decoder-block path with no ["/"] after the prefix is still
    converted when it ends in a norm suffix: [find] returns [-1], and
    the layer segment of the key is the rest of the path without its
    last character. *)
Theorem layer_index_without_separator (config : Gemma3TextConfig)
    (rest prop suffix name : string) weights :
  PyStr.contains rest "/" = false →
  (suffix, name) ∈ norm_rules →
  PyStr.endswith (_TRANSFORMER_DECODER_BLOCK +:+ rest) suffix = true →
  _convert_transformer_weights config
    [_TRANSFORMER_DECODER_BLOCK +:+ rest; prop] weights =
    Ok [("language_model.model.layers."
           +:+ PyStr.take (String.length rest - 1) rest +:+ name, weights)].
Proof.
  intros Hrest Hin Hsuf.
  rewrite (decoder_norm_branch config _ prop suffix name weights
             (startswith_app _ _) Hin Hsuf).
  unfold decoder_base_path, _TRANSFORMER_DECODER_BLOCK_LEN.
  rewrite (block_layer_idx_no_separator _TRANSFORMER_DECODER_BLOCK rest Hrest).
  reflexivity.
Qed.

End LayerIndexRules.

(* ===================================================================== *)
(** ** What the array operations keep *)
(* ===================================================================== *)

Lemma size_of_infer (q : nat) (s : list Z) :
  size_of (infer_dim q <$> s) =
  (q ^ (length s - length (filter (λ d : Z, (0 ≤ d)%Z) s))
   * size_of (Z.to_nat <$> filter (λ d : Z, (0 ≤ d)%Z) s))%nat.
Proof.
  induction s as [|d s IH]; [done|].
  pose proof (length_filter (λ d : Z, (0 ≤ d)%Z) s) as Hle.
  rewrite fmap_cons. change (size_of (?x :: ?l)) with (x * size_of l)%nat.
  rewrite IH. unfold infer_dim at 1.
  destruct (Z.ltb_spec d 0) as [Hd|Hd].
  - rewrite filter_cons_False by lia.
    replace (length (d :: s) - length (filter (λ d : Z, (0 ≤ d)%Z) s))%nat
      with (S (length s - length (filter (λ d : Z, (0 ≤ d)%Z) s)))
      by (simpl; lia).
    rewrite Nat.pow_succ_r'. lia.
  - rewrite filter_cons_True by lia. rewrite fmap_cons.
    change (size_of (?x :: ?l)) with (x * size_of l)%nat.
    replace (length (d :: s) - length (d :: filter (λ d : Z, (0 ≤ d)%Z) s))%nat
      with (length s - length (filter (λ d : Z, (0 ≤ d)%Z) s))%nat by (simpl; lia).
    lia.
Qed.

Lemma filter_length_eq {A : Type} (P : A → Prop) `{!∀ x, Decision (P x)}
    (l : list A) :
  (length l - length (filter P l) = 0)%nat → filter P l = l.
Proof.
  induction l as [|x l IH]; [done|].
  pose proof (length_filter P l) as Hle.
  rewrite filter_cons. destruct (decide (P x)); simpl; intros Hlen.
  - f_equal. apply IH. lia.
  - lia.
Qed.

Section Kept.

Context {elt : Type}.
Implicit Types a b : ndarray elt.

(** A reshape that succeeds keeps dtype, elements and their number. *)
Lemma np_reshape_ok a (s : list Z) b :
  np_reshape a s = Ok b →
  nd_dtype b = nd_dtype a ∧ nd_data b = nd_data a ∧ np_size b = np_size a.
Proof.
  unfold np_reshape. intros H.
  destruct (length s - length (filter (λ d : Z, (0 ≤ d)%Z) s))%nat
    as [|[|n]] eqn:Hunknown; [| |done].
  - destruct (Nat.eqb_spec (size_of (Z.to_nat <$> filter (λ d : Z, (0 ≤ d)%Z) s))
                (np_size a)) as [Heq|]; [|done].
    simplify_eq.
    rewrite nd_dtype_result, nd_data_result, np_size_result.
    split_and!; [done|done|].
    by rewrite filter_length_eq in Heq.
  - destruct (size_of (Z.to_nat <$> filter (λ d : Z, (0 ≤ d)%Z) s) =? 0)%nat eqn:Hz;
      [done|].
    destruct (Nat.eqb_spec
                (np_size a mod size_of (Z.to_nat <$> filter (λ d : Z, (0 ≤ d)%Z) s))
                0) as [Hmod|]; [|done].
    simpl in H. simplify_eq.
    rewrite nd_dtype_result, nd_data_result, np_size_result.
    split_and!; [done|done|].
    rewrite size_of_infer, Hunknown, Nat.pow_1_r.
    pose proof (Nat.div_mod_eq (np_size a)
                  (size_of (Z.to_nat <$> filter (λ d : Z, (0 ≤ d)%Z) s))). lia.
Qed.

(** A transposition that succeeds keeps dtype and number of
    elements. *)
Lemma np_transpose_ok a (axes : list nat) b :
  np_transpose a axes = Ok b →
  nd_dtype b = nd_dtype a ∧ np_size b = np_size a.
Proof.
  unfold np_transpose. destruct (valid_axes _ _) eqn:Hv; [|done].
  intros [= <-]. unfold np_size.
  rewrite nd_dtype_result, nd_shape_result. split; [done|].
  apply size_of_perm, permute_perm, Hv.
Qed.

Lemma np_transpose_rev_kept a b :
  np_transpose_rev a = Ok b →
  nd_dtype b = nd_dtype a ∧ np_size b = np_size a.
Proof. apply np_transpose_ok. Qed.

(** Unpacking into two names splits the elements in two. *)
Lemma np_unpack2_ok a x y :
  np_unpack2 a = Ok (x, y) →
  nd_dtype x = nd_dtype a ∧ nd_dtype y = nd_dtype a ∧
  (np_size x + np_size y)%nat = np_size a.
Proof.
  unfold np_unpack2, np_iter.
  destruct (nd_shape a) as [|n sh] eqn:Hsh; [done|].
  cbn [mbind result_bind].
  destruct n as [|[|[|n]]]; try done.
  intros [= <- <-]. unfold np_size.
  rewrite !nd_dtype_row, !nd_shape_row, Hsh. split_and!; [done|done|].
  simpl. lia.
Qed.

End Kept.

Ltac kept :=
  repeat match goal with
  | H : np_reshape _ _ = Ok _ |- _ => apply np_reshape_ok in H as (? & ? & ?)
  | H : np_transpose _ _ = Ok _ |- _ => apply np_transpose_ok in H as (? & ?)
  | H : np_transpose_rev _ = Ok _ |- _ =>
      apply np_transpose_rev_kept in H as (? & ?)
  | H : np_unpack2 _ = Ok (_, _) |- _ => apply np_unpack2_ok in H as (? & ? & ?)
  end.

Section Conserved.

Context {elt : Type}.
Implicit Types weights : ndarray elt.

(** X9.  No rule of the text table changes the element type, and none
    drops or invents elements: the arrays emitted for a leaf have the
    dtype of the source and, unless the leaf is skipped, together as
    many elements as the source, twice as many for the duplicated
    embedding. *)
Theorem text_rules_conserve (config : Gemma3TextConfig)
    (path prop : string) weights (pairs : list (string * ndarray elt)) :
  _convert_transformer_weights config [path; prop] weights = Ok pairs →
  Forall (λ pw, nd_dtype pw.2 = nd_dtype weights) pairs ∧
  (pairs ≠ [] →
   sum_list (np_size <$> pairs.*2) =
     if String.eqb path _TRANSFORMER_EMBEDDER
     then (2 * np_size weights)%nat else np_size weights).
Proof.
  rewrite convert_transformer_weights_chain_eq.
  unfold _convert_transformer_weights_chain.
  change (_TRANSFORMER_EMBEDDER +:+ "/mm") with "transformer/embedder/mm".
  destruct (String.eqb path _TRANSFORMER_EMBEDDER) eqn:E1.
  { unfold mbind, result_bind. intros H.
    repeat case_match; simplify_eq; simpl;
      (split; [repeat constructor|intros; try done; lia]). }
  destruct (PyStr.startswith path "transformer/embedder/mm") eqn:E2.
  { unfold mbind, result_bind. intros H.
    repeat case_match; simplify_eq; simpl; (split; [constructor|done]). }
  destruct (String.eqb path _TRANSFORMER_FINAL_NORM) eqn:E3.
  { cbn [mbind result_bind]. intros [= <-]. simpl.
    split; [repeat constructor|intros; lia]. }
  destruct (PyStr.startswith path _TRANSFORMER_DECODER_BLOCK) eqn:E4;
    [|done].
  unfold mbind, result_bind. intros H.
  repeat match type of H with
  | context [if PyStr.endswith path ?s then _ else _] =>
      destruct (PyStr.endswith path s);
      [ cbv beta iota in H;
        repeat case_match; simplify_eq; kept; simpl;
        (split; [repeat constructor; simpl; congruence|intros; lia])
      | ]
  end.
  done.
Qed.

End Conserved.

(* ===================================================================== *)
(** ** The remaining rules of the vision table *)
(* ===================================================================== *)

Section VisionRulesMore.

Context {elt : Type}.
Implicit Types weights : ndarray elt.

Lemma np_reshape_rows_fails weights (n : nat) :
  n = 0%nat ∨ (np_size weights mod n)%nat ≠ 0%nat →
  np_reshape weights [-1; Z.of_nat n] =
    Raise (ReshapeError (np_size weights) [-1; Z.of_nat n]).
Proof.
  intros Hn. unfold np_reshape.
  rewrite filter_cons_False by lia.
  rewrite filter_cons_True by lia. rewrite filter_nil.
  cbn [length Nat.sub fmap list_fmap size_of foldr].
  rewrite Nat2Z.id, Nat.mul_1_r.
  destruct (Nat.eqb_spec n 0) as [->|Hne]; [done|].
  destruct Hn as [?|Hmod]; [done|].
  by destruct (Nat.eqb_spec (np_size weights mod n) 0).
Qed.


(** X10.  Position embedding.  At the SigLIP base path the leaf
    property is not looked at; the array is reshaped to
    (-1, hidden_size).  When hidden_size is positive and divides the
    size of the array the pair is the position-embedding key with the
    elements in their order; otherwise NumPy rejects the reshape. *)
Theorem siglip_position_embedding (config : Gemma3VisionConfig)
    (prop : string) weights (hs : nat) :
  vision_hidden_size config = Z.of_nat hs →
  _convert_siglip_weight config [_SIGLIP_BASE; prop] weights =
  if bool_decide (hs ≠ 0%nat ∧ (np_size weights mod hs)%nat = 0%nat) then
    Ok ("vision_model.vision_model.embeddings.position_embedding.weight",
        NDArray (nd_dtype weights) [(np_size weights / hs)%nat; hs]
          (nd_data weights))
  else Raise (ReshapeError (np_size weights) [-1; Z.of_nat hs]).
Proof.
  intros Hhs. unfold _convert_siglip_weight.
  cbn [unpack2 mbind result_bind].
  change (String.eqb _SIGLIP_BASE _SIGLIP_BASE) with true. cbv iota.
  rewrite Hhs. case_bool_decide as Hok.
  - destruct Hok as [Hne Hmod]. by rewrite np_reshape_rows.
  - rewrite np_reshape_rows_fails; [done|].
    destruct (decide (hs = 0%nat)); [by left|right]. intros Hmod. by apply Hok.
Qed.

(** X11.  Patch embedding.  A ["kernel"] leaf of shape (H, W, C, O)
    becomes the patch-embedding weight of shape (O, C, H, W), element
    (o, c, h, w) being element (h, w, c, o) of the source; a ["bias"]
    leaf of any shape is copied; any other leaf property raises
    [ValueError], whatever the array. *)
Theorem siglip_patch_embedding (config : Gemma3VisionConfig)
    (prop : string) weights :
  (∀ H W C O : nat,
     nd_shape weights = [H; W; C; O] →
     well_formed weights →
     ∃ k : ndarray elt,
       _convert_siglip_weight config [_SIGLIP_EMBEDDING; "kernel"] weights =
         Ok ("vision_model.vision_model.embeddings.patch_embedding.weight", k) ∧
       nd_dtype k = nd_dtype weights ∧
       nd_shape k = [O; C; H; W] ∧
       well_formed k ∧
       ∀ h w c o, (h < H)%nat → (w < W)%nat → (c < C)%nat → (o < O)%nat →
         nd_data k !! ravel [O; C; H; W] [o; c; h; w] =
         nd_data weights !! ravel [H; W; C; O] [h; w; c; o]) ∧
  _convert_siglip_weight config [_SIGLIP_EMBEDDING; "bias"] weights =
    Ok ("vision_model.vision_model.embeddings.patch_embedding.bias", weights) ∧
  (prop ≠ "kernel" → prop ≠ "bias" →
   ∃ msg, _convert_siglip_weight config [_SIGLIP_EMBEDDING; prop] weights =
          Raise (ValueError msg)).
Proof.
  split_and!; [|reflexivity|].
  - intros H W C O Hsh Hwf.
    destruct (np_transpose_valid weights [3; 2; 0; 1]%nat)
      as (k & Hk & Hdt & Hksh & Hkwf & _ & Hel); [by rewrite Hsh|done|].
    rewrite Hsh in Hksh, Hel. cbn in Hksh.
    exists k. split_and!; try done.
    + unfold _convert_siglip_weight. cbn [unpack2 mbind result_bind].
      change (String.eqb _SIGLIP_EMBEDDING _SIGLIP_BASE) with false.
      change (String.eqb _SIGLIP_EMBEDDING _SIGLIP_EMBEDDING) with true.
      change (String.eqb "kernel" "kernel") with true. cbv iota.
      by rewrite Hk.
    + intros h w c o Hh Hw Hc Ho. rewrite <-Hksh.
      rewrite Hel by (rewrite Hksh; repeat constructor; done).
      f_equal. unfold ravel, offset. simpl. lia.
  - intros Hk%String.eqb_neq Hb%String.eqb_neq.
    unfold _convert_siglip_weight. cbn [unpack2 mbind result_bind].
    change (String.eqb _SIGLIP_EMBEDDING _SIGLIP_BASE) with false.
    change (String.eqb _SIGLIP_EMBEDDING _SIGLIP_EMBEDDING) with true.
    cbv iota. rewrite Hk, Hb. by eexists.
Qed.


Lemma siglip_mlp_branch (config : Gemma3VisionConfig)
    (path prop : string) weights :
  PyStr.startswith path _SIGLIP_TRANSFORMER_ENCODER_BLOCK = true →
  PyStr.startswith
    (block_subpath _SIGLIP_TRANSFORMER_ENCODER_BLOCK_LEN path)
    "/MlpBlock_0" = true →
  _convert_siglip_weight config [path; prop] weights =
  let name :=
    encoder_base_path path +:+
    (if PyStr.contains
          (block_subpath _SIGLIP_TRANSFORMER_ENCODER_BLOCK_LEN path)
          "/Dense_0"
     then ".mlp.fc1" else ".mlp.fc2") in
  if String.eqb prop "kernel" then
    w ← np_transpose_rev weights; Ok (name +:+ ".weight", w)
  else if String.eqb prop "bias" then Ok (name +:+ ".bias", weights)
  else Raise (member_error prop path "`bias` or `kernel`").
Proof.
  intros Hblk Hsub.
  unfold _convert_siglip_weight. cbn [unpack2 mbind result_bind].
  rewrite (eqb_excl_startswith _ _ _SIGLIP_BASE Hblk eq_refl).
  rewrite (eqb_excl_startswith _ _ _SIGLIP_EMBEDDING Hblk eq_refl).
  rewrite Hblk.
  fold (block_subpath _SIGLIP_TRANSFORMER_ENCODER_BLOCK_LEN path).
  fold (block_layer_idx _SIGLIP_TRANSFORMER_ENCODER_BLOCK_LEN path).
  fold (encoder_base_path path).
  rewrite (startswith_excl _ _ "/LayerNorm" Hsub eq_refl eq_refl).
  by rewrite Hsub.
Qed.


(** X13.  Feed-forward layers of an encoder block.  A sub-path that
    contains ["/Dense_0"] selects [fc1], anything else [fc2].  A 2-d
    ["kernel"] leaf becomes the transposed weight, a ["bias"] leaf of
    any shape the bias unchanged; any other leaf property raises
    [ValueError], whatever the array. *)
Theorem siglip_mlp (config : Gemma3VisionConfig)
    (path prop : string) weights :
  PyStr.startswith path _SIGLIP_TRANSFORMER_ENCODER_BLOCK = true →
  PyStr.startswith
    (block_subpath _SIGLIP_TRANSFORMER_ENCODER_BLOCK_LEN path)
    "/MlpBlock_0" = true →
  let name :=
    encoder_base_path path +:+
    (if PyStr.contains
          (block_subpath _SIGLIP_TRANSFORMER_ENCODER_BLOCK_LEN path)
          "/Dense_0"
     then ".mlp.fc1" else ".mlp.fc2") in
  (∀ r c : nat,
     nd_shape weights = [r; c] →
     well_formed weights →
     ∃ w : ndarray elt,
       _convert_siglip_weight config [path; "kernel"] weights =
         Ok (name +:+ ".weight", w) ∧
       nd_dtype w = nd_dtype weights ∧
       nd_shape w = [c; r] ∧
       ∀ i j, (i < r)%nat → (j < c)%nat →
         nd_data w !! ravel [c; r] [j; i] =
         nd_data weights !! ravel [r; c] [i; j]) ∧
  _convert_siglip_weight config [path; "bias"] weights =
    Ok (name +:+ ".bias", weights) ∧
  (prop ≠ "kernel" → prop ≠ "bias" →
   ∃ msg, _convert_siglip_weight config [path; prop] weights =
          Raise (ValueError msg)).
Proof.
  intros Hblk Hsub. cbv zeta.
  rewrite !(siglip_mlp_branch config path _ weights Hblk Hsub).
  cbv zeta. split_and!.
  - intros r c Hsh Hwf.
    change (String.eqb "kernel" "kernel") with true. cbv iota.
    destruct (np_transpose_rev_2d weights r c Hsh Hwf)
      as (w & Hw & Hdt & Hwsh & _ & Hel).
    rewrite Hw. exists w. split_and!; try done.
    intros i j Hi Hj. unfold ravel, offset. simpl.
    replace (j * (r * 1) + (i * 1 + 0))%nat with (j * r + i)%nat by lia.
    replace (i * (c * 1) + (j * 1 + 0))%nat with (i * c + j)%nat by lia.
    by apply Hel.
  - reflexivity.
  - intros Hk%String.eqb_neq Hb%String.eqb_neq. rewrite Hk, Hb. by eexists.
Qed.


End VisionRulesMore.

Section VisionDispatch.

Context {elt : Type}.
Implicit Types weights : ndarray elt.

(** The vision table raises [ValueError] exactly on the leaves it has
    no rule for. *)
Lemma siglip_raises (config : Gemma3VisionConfig) (path prop : string)
    weights :
  match _convert_siglip_weight config [path; prop] weights with
  | Ok _ => siglip_recognizedb path prop = true
  | Raise e => raised_by_module e = negb (siglip_recognizedb path prop)
  end.
Proof.
  unfold _convert_siglip_weight, siglip_recognizedb, block_subpath.
  cbn [unpack2 mbind result_bind existsb].
  destruct (String.eqb path _SIGLIP_BASE) eqn:E1.
  { unfold mbind, result_bind. cbn [orb].
    repeat case_match; simplify_eq; eauto using np_reshape_raises. }
  destruct (String.eqb path _SIGLIP_EMBEDDING) eqn:E2.
  { apply String.eqb_eq in E2 as ->. eval_tests.
    unfold mbind, result_bind. cbn [orb andb].
    repeat case_match; simplify_eq; cbn [orb andb negb];
      eauto using np_transpose_raises. }
  destruct (PyStr.startswith path _SIGLIP_TRANSFORMER_ENCODER_BLOCK) eqn:E3.
  { rewrite (eqb_excl_startswith _ _ _SIGLIP_TRANSFORMER_ENCODER_NORM E3 eq_refl).
    set (sub := PyStr.slice_from (PyStr.slice_from path _ ) _).
    cbn [orb andb].
    destruct (PyStr.startswith sub "/LayerNorm") eqn:S1.
    { rewrite (startswith_excl _ _ "/MlpBlock_0" S1 eq_refl eq_refl).
      rewrite (startswith_excl _ _ "/MultiHeadDotProductAttention_0" S1
                 eq_refl eq_refl).
      unfold mbind, result_bind. cbn [orb andb].
      repeat case_match; simplify_eq; cbn [orb andb negb];
        rewrite ?orb_false_r; eauto using np_transpose_raises. }
    destruct (PyStr.startswith sub "/MlpBlock_0") eqn:S2.
    { rewrite (startswith_excl _ _ "/MultiHeadDotProductAttention_0" S2
                 eq_refl eq_refl).
      unfold mbind, result_bind. cbn [orb andb].
      repeat case_match; simplify_eq; cbn [orb andb negb];
        rewrite ?orb_false_r; eauto using np_transpose_raises. }
    destruct (PyStr.startswith sub "/MultiHeadDotProductAttention_0") eqn:S3;
      [|done].
    unfold mbind, result_bind. cbn [orb andb].
    destruct (PyStr.endswith sub "/key"); [|
    destruct (PyStr.endswith sub "/out"); [|
    destruct (PyStr.endswith sub "/query"); [|
    destruct (PyStr.endswith sub "/value"); [|done]]]];
      cbn [orb andb];
      destruct (String.eqb prop "bias") eqn:Eb;
      try (apply String.eqb_eq in Eb as ->; eval_tests);
      repeat case_match; simplify_eq; cbn [orb andb negb];
      rewrite ?orb_true_r, ?orb_false_r;
      eauto using np_reshape_raises, np_transpose_raises. }
  cbn [orb andb].
  destruct (String.eqb path _SIGLIP_TRANSFORMER_ENCODER_NORM) eqn:E4; [|done].
  unfold mbind, result_bind. cbn [orb andb].
  repeat case_match; simplify_eq; cbn [orb andb negb];
    eauto using np_transpose_raises.
Qed.

(** An exception of the vision table comes from one of the module's
    [raise] statements, from NumPy, or from the unpacking of a path
    tuple that does not have two items. *)
Lemma siglip_raise_kind (config : Gemma3VisionConfig) (paths : list string)
    weights e :
  _convert_siglip_weight config paths weights = Raise e →
  raised_by_module e = true ∨ raised_by_numpy e = true ∨
  (length paths ≠ 2%nat ∧ e = UnpackError 2 (length paths)).
Proof.
  unfold _convert_siglip_weight, mbind, result_bind. intros H.
  destruct (unpack2 paths) as [[path prop]|e'] eqn:Hp.
  - repeat case_match; simplify_eq; eauto;
      repeat match goal with
      | H : np_reshape _ _ = Raise _ |- _ => apply np_reshape_raise_kind in H
      | H : np_transpose _ _ = Raise _ |- _ =>
          apply np_transpose_raise_kind in H
      | H : np_transpose_rev _ = Raise _ |- _ =>
          apply np_transpose_raise_kind in H
      end; eauto.
  - simplify_eq. right. right.
    destruct paths as [|? [|? [|? ?]]]; simplify_eq/=; split; done.
Qed.

(** X15.  A leaf that matches no rule of the vision table always ends
    in one of the module's own [raise ValueError] statements.  A leaf
    that matches a rule never reaches one: it is converted, or NumPy
    rejects the [reshape] or the [transpose] of its array, which is a
    [ValueError] as well.  Whatever the leaf, [ValueError] is the only
    class of exception the function raises, so the class alone does
    not tell an unrecognized leaf from an ill-shaped one. *)
Theorem siglip_raises_value_error_only (config : Gemma3VisionConfig)
    (path prop : string) (paths : list string) weights :
  (siglip_recognizedb path prop = false →
   ∃ msg, _convert_siglip_weight config [path; prop] weights =
          Raise (ValueError msg)) ∧
  (siglip_recognizedb path prop = true →
   ∀ e, _convert_siglip_weight config [path; prop] weights = Raise e →
        raised_by_numpy e = true) ∧
  (∀ e, _convert_siglip_weight config paths weights = Raise e →
        class_of e = PyValueError).
Proof.
  pose proof (siglip_raises config path prop weights) as Hc.
  split_and!.
  - intros Hrec. rewrite Hrec in Hc.
    destruct (_convert_siglip_weight config [path; prop] weights) as [r|e];
      [done|].
    destruct e; try done. by eexists.
  - intros Hrec e He. rewrite He, Hrec in Hc.
    apply siglip_raise_kind in He as [He|[He|[Hlen _]]]; [|done|done].
    by rewrite He in Hc.
  - intros e He.
    apply siglip_raise_kind in He as [He|[He|[_ He]]];
      [by destruct e|by destruct e|by subst].
Qed.

(** Every key of the vision table lies under
    ["vision_model.vision_model."], and every array it returns has the
    dtype and the number of elements of its source. *)
Lemma siglip_result (config : Gemma3VisionConfig) (paths : list string)
    weights (k : string) (w : ndarray elt) :
  _convert_siglip_weight config paths weights = Ok (k, w) →
  PyStr.startswith k "vision_model.vision_model." = true ∧
  nd_dtype w = nd_dtype weights ∧
  np_size w = np_size weights.
Proof.
  unfold _convert_siglip_weight, unpack2, mbind, result_bind. intros H.
  repeat case_match; simplify_eq; kept;
    (split_and!; [repeat apply startswith_app_l; reflexivity
                 |congruence|congruence]).
Qed.

(** X16.  What every rule of the vision table keeps: the key lies under
    ["vision_model.vision_model."], and the array has the dtype and the
    number of elements of the source. *)
Theorem siglip_rules_conserve (config : Gemma3VisionConfig)
    (paths : list string) weights (k : string) (w : ndarray elt) :
  _convert_siglip_weight config paths weights = Ok (k, w) →
  PyStr.startswith k "vision_model.vision_model." = true ∧
  nd_dtype w = nd_dtype weights ∧
  np_size w = np_size weights.
Proof. apply siglip_result. Qed.

End VisionDispatch.

(* ===================================================================== *)
(** ** More on the orchestrator *)
(* ===================================================================== *)

Section ConversionMore.

Context {elt : Type}.
Variable cast_elt : dtype → dtype → elt → elt.

Implicit Types (hf_tree : gmap string (tensor elt))
               (ups : list (string * ndarray elt))
               (leaves ckpt : list (list string * ndarray elt)).

Lemma emitted_app config leaves1 leaves2 :
  emitted config (leaves1 ++ leaves2) =
  ups1 ← emitted config leaves1;
  ups2 ← emitted config leaves2;
  Ok (ups1 ++ ups2).
Proof.
  induction leaves1 as [|leaf rest IH].
  - cbn. destruct (emitted config leaves2); done.
  - rewrite <-app_comm_cons. cbn [emitted]. rewrite IH.
    destruct (leaf_updates config leaf) as [lups|e]; [|done].
    cbn [mbind result_bind].
    destruct (forallb _ lups); [|done].
    destruct (emitted config rest) as [ups1|e]; [|done].
    cbn [mbind result_bind].
    destruct (emitted config leaves2) as [ups2|e]; [|done].
    cbn [mbind result_bind]. by rewrite app_assoc.
Qed.

Lemma vision_leaf_skipped config (leaf : list string * ndarray elt) :
  vision_config config = None → is_vision_leaf leaf = true →
  leaf_updates config leaf = Ok [].
Proof.
  destruct leaf as [paths value]. unfold is_vision_leaf, leaf_updates.
  cbn [fst]. intros -> H.
  destruct (paths !! 0%nat) as [first|]; [|done]. by rewrite H.
Qed.

Lemma emitted_without_vision config leaves :
  vision_config config = None →
  emitted config leaves =
  emitted config (filter (λ leaf, is_vision_leaf leaf = false) leaves).
Proof.
  intros Hv. induction leaves as [|leaf rest IH]; [done|].
  rewrite filter_cons. destruct (is_vision_leaf leaf) eqn:Hleaf.
  - rewrite decide_False by done. cbn [emitted].
    rewrite (vision_leaf_skipped _ _ Hv Hleaf).
    cbn [mbind result_bind forallb].
    rewrite <-IH. by destruct (emitted config rest).
  - rewrite decide_True by done. cbn [emitted]. by rewrite IH.
Qed.

(** X17.  With no vision configuration, a leaf whose first path segment
    begins with the vision sentinel is skipped before anything else of
    it is read: the run gives what it gives on the tree without those
    leaves, whatever their paths, properties and arrays are. *)
Theorem vision_leaves_never_read ckpt (config : Gemma3Config)
    (target_dtype : dtype) :
  vision_config config = None →
  convert cast_elt ckpt config target_dtype =
  convert cast_elt (filter (λ leaf, is_vision_leaf leaf = false) ckpt)
    config target_dtype.
Proof.
  intros Hv. unfold convert. rewrite !convert_loop_emitted.
  by rewrite <-emitted_without_vision.
Qed.

(** X18.  The first exception ends the run: when the leaves before a
    leaf convert and that leaf raises, [convert] raises the same
    exception, whatever comes after it. *)
Theorem first_exception_ends_run (before after : list (list string * ndarray elt))
    (leaf : list string * ndarray elt) (config : Gemma3Config)
    (target_dtype : dtype) ups (e : exn) :
  emitted config before = Ok ups →
  leaf_updates config leaf = Raise e →
  convert cast_elt (before ++ leaf :: after) config target_dtype = Raise e.
Proof.
  intros Hb Hl. unfold convert.
  rewrite convert_loop_emitted, emitted_app, Hb.
  cbn [emitted mbind result_bind]. by rewrite Hl.
Qed.

Lemma apply_updates_last target hf_tree ups (k : string) :
  apply_updates cast_elt target hf_tree ups !! k =
  match last (filter (λ pw, pw.1 = k) ups) with
  | Some pw => Some (stored cast_elt target pw.2)
  | None => hf_tree !! k
  end.
Proof.
  unfold apply_updates. revert hf_tree.
  induction ups as [|[p w] ups IH]; intros hf_tree; [done|].
  cbn [foldl]. rewrite IH, filter_cons. cbn [fst].
  destruct (decide (p = k)) as [->|Hne].
  - rewrite last_cons.
    destruct (last (filter (λ pw, pw.1 = k) ups)); [done|].
    cbn [fst snd]. by rewrite lookup_insert_eq.
  - destruct (last (filter (λ pw, pw.1 = k) ups)); [done|].
    cbn [fst snd]. by rewrite lookup_insert_ne.
Qed.

(** X19.  Later writes win: the tensor stored under a key comes from
    the last emitted pair with that key, and a key no pair was emitted
    for is absent. *)
Theorem last_write_wins ckpt (config : Gemma3Config) (target_dtype : dtype)
    (res : ConversionResult) ups (k : string) :
  convert cast_elt ckpt config target_dtype = Ok res →
  emitted config ckpt = Ok ups →
  state_tree res !! k =
    (λ pw, stored cast_elt target_dtype pw.2)
      <$> last (filter (λ pw, pw.1 = k) ups).
Proof.
  unfold convert. rewrite convert_loop_emitted. intros Hc Hups.
  rewrite Hups in Hc. cbn [mbind result_bind] in Hc. simplify_eq.
  cbn [state_tree]. rewrite apply_updates_last, lookup_empty.
  by destruct (last _).
Qed.

(** X20.  With a vision configuration, every key of the resulting
    mapping lies under ["language_model."] or under
    ["vision_model.vision_model."]. *)
Theorem multimodal_key_namespaces ckpt (config : Gemma3Config)
    (vision : Gemma3VisionConfig) (target_dtype : dtype)
    (res : ConversionResult) (k : string) :
  vision_config config = Some vision →
  convert cast_elt ckpt config target_dtype = Ok res →
  is_Some (state_tree res !! k) →
  PyStr.startswith k "language_model." = true ∨
  PyStr.startswith k "vision_model.vision_model." = true.
Proof.
  intros Hv. unfold convert. rewrite convert_loop_emitted. intros Hc.
  destruct (emitted config ckpt) as [ups|e] eqn:Hups; [|done].
  cbn [mbind result_bind] in Hc. simplify_eq. cbn [state_tree].
  rewrite apply_updates_is_Some, lookup_empty, list_elem_of_fmap.
  intros [[? [=]]|([k' w] & -> & Hin)]. cbn [fst].
  apply (emitted_elem _ _ _ _ Hups) in Hin
    as ([paths value] & lups & _ & Hl & Hin).
  unfold leaf_updates in Hl. rewrite Hv in Hl.
  destruct (paths !! 0%nat) as [first|]; [|done].
  destruct (PyStr.startswith first vision_sentinel).
  - destruct (_convert_siglip_weight vision paths value) as [[k0 w0]|e] eqn:Hs;
      [|done].
    cbn [mbind result_bind] in Hl. simplify_eq.
    apply list_elem_of_singleton in Hin. simplify_eq.
    right. by apply siglip_result in Hs as (? & _).
  - destruct (_convert_transformer_weights (text_config config) paths value)
      as [pairs|e] eqn:Hp; [|done].
    cbn [mbind result_bind] in Hl. simplify_eq.
    apply list_elem_of_fmap in Hin as ([p w'] & [= -> ->] & Hin).
    left. destruct (text_keys_prefixed _ _ _ _ _ _ Hp Hin) as (rest & -> & _).
    apply startswith_app.
Qed.

Lemma gating_einsum_two_rows (config : Gemma3TextConfig)
    (path prop : string) (weights : ndarray elt) (sh : list nat) :
  PyStr.startswith path _TRANSFORMER_DECODER_BLOCK = true →
  PyStr.endswith path "mlp/gating_einsum" = true →
  nd_shape weights = 2%nat :: sh →
  _convert_transformer_weights config [path; prop] weights =
    Ok [(decoder_base_path path +:+ ".mlp.gate_proj.weight",
         np_row sh weights 0);
        (decoder_base_path path +:+ ".mlp.up_proj.weight",
         np_row sh weights 1)].
Proof.
  intros Hblk Hsuf Hsh.
  unfold _convert_transformer_weights, _convert_transformer_weights_chain.
  cbn [unpack2 mbind result_bind].
  enter_decoder_block Hblk. decoder_suffix_tests path Hsuf.
  rewrite (np_unpack2_two _ _ Hsh). reflexivity.
Qed.

(** X23.  A 1-d gate/up array with two entries is unpacked into two
    NumPy scalars.  The text table returns them as they are, and the
    run ends at the first [update_tree] call for them:
    [torch.from_numpy] takes arrays only and raises [TypeError],
    whatever leaves follow. *)
Theorem scalar_rows_end_run
    (before after : list (list string * ndarray elt))
    (path prop : string) (weights : ndarray elt) (config : Gemma3Config)
    (target_dtype : dtype) ups :
  PyStr.startswith path _TRANSFORMER_DECODER_BLOCK = true →
  PyStr.endswith path "mlp/gating_einsum" = true →
  nd_shape weights = [2%nat] →
  emitted config before = Ok ups →
  (∃ gate up,
     _convert_transformer_weights (text_config config) [path; prop] weights =
       Ok [(decoder_base_path path +:+ ".mlp.gate_proj.weight", gate);
           (decoder_base_path path +:+ ".mlp.up_proj.weight", up)] ∧
     is_ndarray gate = false ∧ is_ndarray up = false) ∧
  convert cast_elt (before ++ ([path; prop], weights) :: after) config
    target_dtype = Raise FromNumpyError ∧
  class_of FromNumpyError = PyTypeError.
Proof.
  intros Hblk Hsuf Hsh Hb.
  pose proof (gating_einsum_two_rows (text_config config) path prop weights
                [] Hblk Hsuf Hsh) as Hg.
  split_and!; [by eexists _, _|
               |reflexivity].
  unfold convert.
  rewrite convert_loop_emitted, emitted_app, Hb.
  cbn [emitted mbind result_bind].
  unfold leaf_updates. cbn [lookup list_lookup].
  rewrite (startswith_excl _ _ vision_sentinel Hblk eq_refl eq_refl), Hg.
  cbn [mbind result_bind map forallb snd].
  by destruct (vision_config config).
Qed.

End ConversionMore.

(* ===================================================================== *)
(** ** [transpose_reshape] *)
(* ===================================================================== *)

Section TransposeReshape.

Context {elt : Type}.
Implicit Types (x y : tensor elt).

Local Arguments Nat.div : simpl never.
Local Arguments Nat.modulo : simpl never.

(** X21.  On a tensor of shape [(d0, d1, d2)], [transpose_reshape]
    gives a tensor of shape [(d0 * d2, d1)] of the same element type
    with [y[a * d2 + c, b] = x[a, b, c]]. *)
Theorem transpose_reshape_rank3 x (d0 d1 d2 : nat) :
  t_shape x = [d0; d1; d2] →
  length (t_data x) = size_of (t_shape x) →
  ∃ y, transpose_reshape x = Ok y ∧
       t_dtype y = t_dtype x ∧
       t_shape y = [(d0 * d2)%nat; d1] ∧
       length (t_data y) = size_of (t_shape y) ∧
       ∀ a b c, (a < d0)%nat → (b < d1)%nat → (c < d2)%nat →
         t_data y !! ravel [(d0 * d2)%nat; d1] [(a * d2 + c)%nat; b] =
         t_data x !! ravel [d0; d1; d2] [a; b; c].
Proof.
  intros Hsh Hwf.
  destruct (np_transpose_021 (to_numpy x) d0 d1 d2 Hsh Hwf)
    as (t & Ht & Htdt & Htsh & Htwf & Htel).
  assert (np_reshape (to_numpy (torch_from_numpy t))
            [Z.of_nat d0 * Z.of_nat d2; Z.of_nat d1] =
          Ok (NDArray (nd_dtype t) [(d0 * d2)%nat; d1] (nd_data t))) as Hre.
  { rewrite <-Nat2Z.inj_mul.
    apply (np_reshape_dims (to_numpy (torch_from_numpy t)) [(d0 * d2)%nat; d1]).
    unfold np_size. cbn [to_numpy torch_from_numpy t_shape nd_shape].
    rewrite Htsh. simpl. lia. }
  eexists. split_and!.
  - unfold transpose_reshape, torch_transpose. rewrite Hsh.
    change (<[1%nat:=2%nat]> (<[2%nat:=1%nat]> (seq 0 (length [d0; d1; d2]))))
      with [0; 2; 1]%nat.
    cbn [length Nat.ltb Nat.leb andb]. rewrite Ht.
    cbn [fmap result_fmap mbind result_bind].
    unfold torch_shape_at. cbn [torch_from_numpy t_shape]. rewrite Htsh.
    cbn [lookup list_lookup mbind result_bind].
    unfold torch_reshape. rewrite Hre. reflexivity.
  - done.
  - done.
  - cbn [torch_from_numpy t_data t_shape nd_data nd_shape].
    unfold well_formed in Htwf. rewrite Htsh in Htwf. simpl in *. lia.
  - intros a b c Ha Hb Hc.
    cbn [torch_from_numpy t_data nd_data].
    specialize (Htel a b c Ha Hb Hc). cbn [to_numpy nd_data] in Htel.
    replace (ravel [(d0 * d2)%nat; d1] [(a * d2 + c)%nat; b])
      with ((a * d2 + c) * d1 + b)%nat by (unfold ravel; cbn; lia).
    replace (ravel [d0; d1; d2] [a; b; c])
      with ((a * d1 + b) * d2 + c)%nat by (unfold ravel; cbn; lia).
    apply Htel.
Qed.

(** X22.  A tensor with fewer than three dimensions has no dimension 2
    to exchange: [transpose_reshape] raises [IndexError]. *)
Theorem transpose_reshape_needs_rank3 x :
  (length (t_shape x) < 3)%nat →
  transpose_reshape x = Raise IndexError.
Proof.
  intros Hlen. unfold transpose_reshape, torch_transpose.
  destruct (Nat.ltb_spec 2 (length (t_shape x))) as [|_]; [lia|].
  by rewrite andb_false_r.
Qed.

End TransposeReshape.

(* ===================================================================== *)
(** ** The further properties on sample inputs *)
(* ===================================================================== *)

(** The output projection on a (2, 2, 3) array. *)
Lemma attn_vec_einsum_o_proj_witness :
  ∃ o,
    _convert_transformer_weights Sample.text
      ["transformer/layer_4/attn/attn_vec_einsum"; "w"]
      (Sample.arange [2; 2; 3]%nat) =
      Ok [("language_model.model.layers.4.self_attn.o_proj.weight", o)] ∧
    nd_shape o = [3; 4]%nat ∧
    nd_data o !! 1%nat = nd_data (Sample.arange [2; 2; 3]%nat) !! 3%nat.
Proof.
  destruct (attn_vec_einsum_o_proj Sample.text
              "transformer/layer_4/attn/attn_vec_einsum" "w"
              (Sample.arange [2; 2; 3]%nat) 2 2 3)
    as (o & Hf & _ & Hsh & _ & Hel); try reflexivity.
  exists o. split_and!; [exact Hf|exact Hsh|].
  apply (Hel 0 1 0)%nat; lia.
Defined.

(** The query projection on a (2, 3, 2) array. *)
Lemma q_einsum_q_proj_witness :
  ∃ q,
    _convert_transformer_weights Sample.text
      ["transformer/layer_4/attn/q_einsum"; "w"]
      (Sample.arange [2; 3; 2]%nat) =
      Ok [("language_model.model.layers.4.self_attn.q_proj.weight", q)] ∧
    nd_shape q = [4; 3]%nat ∧
    nd_data q !! 3%nat = nd_data (Sample.arange [2; 3; 2]%nat) !! 1%nat.
Proof.
  destruct (q_einsum_q_proj Sample.text
              "transformer/layer_4/attn/q_einsum" "w"
              (Sample.arange [2; 3; 2]%nat) 2 3 2)
    as (q & Hf & _ & Hsh & _ & Hel); try reflexivity.
  exists q. split_and!; [exact Hf|exact Hsh|].
  apply (Hel 0 0 1)%nat; lia.
Defined.

(** The down projection on a (5, 3) array. *)
Lemma mlp_linear_down_proj_witness :
  ∃ w,
    _convert_transformer_weights Sample.text
      ["transformer/layer_4/mlp/linear"; "w"] (Sample.arange [5; 3]%nat) =
      Ok [("language_model.model.layers.4.mlp.down_proj.weight", w)] ∧
    nd_shape w = [3; 5]%nat ∧
    nd_data w !! 1%nat = nd_data (Sample.arange [5; 3]%nat) !! 3%nat.
Proof.
  destruct (mlp_linear_down_proj Sample.text
              "transformer/layer_4/mlp/linear" "w" (Sample.arange [5; 3]%nat))
    as (w & Hf & _ & Hsh & _ & Hel); try reflexivity.
  exists w. split_and!; [exact Hf|exact Hsh|].
  apply (Hel [1; 0]%nat). repeat constructor.
Defined.

(** A pre-feed-forward norm of any shape is copied. *)
Lemma norms_copied_witness :
  _convert_transformer_weights Sample.text
    ["transformer/layer_4/pre_ffw_norm"; "scale"]
    (Sample.arange [2; 3]%nat) =
    Ok [("language_model.model.layers.4.pre_feedforward_layernorm.weight",
         Sample.arange [2; 3]%nat)].
Proof.
  refine (proj1 (norms_copied Sample.text "transformer/layer_4/pre_ffw_norm"
                   "scale" "pre_ffw_norm" ".pre_feedforward_layernorm.weight"
                   (Sample.arange [2; 3]%nat) eq_refl _ eq_refl)).
  do 5 right. left.
Defined.

(** A 0-d array and an array with three rows under the gate/up rule. *)
Lemma gating_einsum_needs_two_rows_witness :
  _convert_transformer_weights Sample.text
    ["transformer/layer_0/mlp/gating_einsum"; "w"] (NDArray float32 [] [5]) =
    Raise IterationError ∧
  _convert_transformer_weights Sample.text
    ["transformer/layer_0/mlp/gating_einsum"; "w"]
    (Sample.arange [3; 2]%nat) =
    Raise (UnpackError 2 3).
Proof.
  split.
  - exact (gating_einsum_needs_two_rows Sample.text
             "transformer/layer_0/mlp/gating_einsum" "w"
             (NDArray float32 [] [5]) eq_refl eq_refl).
  - exact (gating_einsum_needs_two_rows Sample.text
             "transformer/layer_0/mlp/gating_einsum" "w"
             (Sample.arange [3; 2]%nat) eq_refl eq_refl).
Defined.

(** Two leaf properties under a query norm. *)
Lemma text_rules_ignore_property_witness :
  _convert_transformer_weights Sample.text
    ["transformer/layer_0/attn/_query_norm"; "scale"] (Sample.arange [2%nat]) =
  _convert_transformer_weights Sample.text
    ["transformer/layer_0/attn/_query_norm"; "anything"] (Sample.arange [2%nat]).
Proof.
  apply (text_rules_ignore_property Sample.text
           "transformer/layer_0/attn/_query_norm" "scale" "anything"
           (Sample.arange [2%nat])).
  discriminate.
Defined.

(** A layer segment that is not a number. *)
Lemma layer_index_is_first_segment_witness :
  _convert_transformer_weights Sample.text
    ["transformer/layer_x.y/post_ffw_norm"; "scale"] (Sample.arange [3%nat]) =
    Ok [("language_model.model.layers.x.y.post_feedforward_layernorm.weight",
         Sample.arange [3%nat])].
Proof.
  refine (layer_index_is_first_segment Sample.text "x.y" "post_ffw_norm"
            "scale" "post_ffw_norm" ".post_feedforward_layernorm.weight"
            (Sample.arange [3%nat]) eq_refl _ eq_refl).
  do 3 right. left.
Defined.

(** A path with no separator after the prefix loses its last character. *)
Lemma layer_index_without_separator_witness :
  _convert_transformer_weights Sample.text
    ["transformer/layer_7post_ffw_norm"; "scale"] (Sample.arange [3%nat]) =
    Ok [("language_model.model.layers.7post_ffw_nor.post_feedforward_layernorm.weight",
         Sample.arange [3%nat])].
Proof.
  refine (layer_index_without_separator Sample.text "7post_ffw_norm"
            "scale" "post_ffw_norm" ".post_feedforward_layernorm.weight"
            (Sample.arange [3%nat]) eq_refl _ eq_refl).
  do 3 right. left.
Defined.

(** The duplicated embedding of twelve elements gives twenty-four. *)
Lemma text_rules_conserve_witness :
  _convert_transformer_weights Sample.text
    ["transformer/embedder"; "input_embedding"] (Sample.arange [4; 3]%nat) =
    Ok [("language_model.model.embed_tokens.weight", Sample.arange [4; 3]%nat);
        ("language_model.lm_head.weight", Sample.arange [4; 3]%nat)] ∧
  sum_list
    (np_size <$> [Sample.arange [4; 3]%nat; Sample.arange [4; 3]%nat]) =
    24%nat.
Proof.
  split; [reflexivity|].
  refine (proj2 (text_rules_conserve Sample.text "transformer/embedder"
                   "input_embedding" (Sample.arange [4; 3]%nat)
                   [("language_model.model.embed_tokens.weight",
                     Sample.arange [4; 3]%nat);
                    ("language_model.lm_head.weight",
                     Sample.arange [4; 3]%nat)] eq_refl) _).
  discriminate.
Defined.

(** The position embedding of a (1, 3, 2) array, and of an array whose
    size the hidden size does not divide. *)
Lemma siglip_position_embedding_witness :
  _convert_siglip_weight Sample.vision [_SIGLIP_BASE; "pos_embedding"]
    (Sample.arange [1; 3; 2]%nat) =
    Ok ("vision_model.vision_model.embeddings.position_embedding.weight",
        NDArray bfloat16 [3; 2]%nat [0; 1; 2; 3; 4; 5]) ∧
  _convert_siglip_weight Sample.vision [_SIGLIP_BASE; "pos_embedding"]
    (Sample.arange [1; 3]%nat) =
    Raise (ReshapeError 3 [-1; 2]).
Proof.
  split.
  - exact (siglip_position_embedding Sample.vision "pos_embedding"
             (Sample.arange [1; 3; 2]%nat) 2 eq_refl).
  - exact (siglip_position_embedding Sample.vision "pos_embedding"
             (Sample.arange [1; 3]%nat) 2 eq_refl).
Defined.

(** The patch embedding on a (2, 2, 1, 3) kernel and on a 1-d bias. *)
Lemma siglip_patch_embedding_witness :
  (∃ k,
     _convert_siglip_weight Sample.vision [_SIGLIP_EMBEDDING; "kernel"]
       (Sample.arange [2; 2; 1; 3]%nat) =
       Ok ("vision_model.vision_model.embeddings.patch_embedding.weight", k) ∧
     nd_shape k = [3; 1; 2; 2]%nat ∧
     nd_data k !! 6%nat = nd_data (Sample.arange [2; 2; 1; 3]%nat) !! 7%nat) ∧
  _convert_siglip_weight Sample.vision [_SIGLIP_EMBEDDING; "bias"]
    (Sample.arange [3%nat]) =
    Ok ("vision_model.vision_model.embeddings.patch_embedding.bias",
        Sample.arange [3%nat]).
Proof.
  split.
  - destruct (siglip_patch_embedding Sample.vision "scale"
                (Sample.arange [2; 2; 1; 3]%nat)) as (Hkernel & _ & _).
    destruct (Hkernel 2 2 1 3 eq_refl eq_refl)%nat
      as (k & Hf & _ & Hsh & _ & Hel).
    exists k. split_and!; [exact Hf|exact Hsh|].
    apply (Hel 1 0 0 1)%nat; lia.
  - exact (proj1 (proj2 (siglip_patch_embedding Sample.vision "scale"
                           (Sample.arange [3%nat])))).
Defined.


(** The first feed-forward layer of encoder block 3 on a (2, 3) kernel
    and on a 1-d bias. *)
Lemma siglip_mlp_witness :
  (∃ w,
     _convert_siglip_weight Sample.vision
       ["SigLiPFromPatches_0/siglip_encoder/Transformer/encoderblock_3/MlpBlock_0/Dense_0";
        "kernel"] (Sample.arange [2; 3]%nat) =
       Ok ("vision_model.vision_model.encoder.layers.3.mlp.fc1.weight", w) ∧
     nd_shape w = [3; 2]%nat ∧
     nd_data w !! 2%nat = nd_data (Sample.arange [2; 3]%nat) !! 1%nat) ∧
  _convert_siglip_weight Sample.vision
    ["SigLiPFromPatches_0/siglip_encoder/Transformer/encoderblock_3/MlpBlock_0/Dense_0";
     "bias"] (Sample.arange [3%nat]) =
    Ok ("vision_model.vision_model.encoder.layers.3.mlp.fc1.bias",
        Sample.arange [3%nat]).
Proof.
  split.
  - destruct (siglip_mlp Sample.vision
                "SigLiPFromPatches_0/siglip_encoder/Transformer/encoderblock_3/MlpBlock_0/Dense_0"
                "scale" (Sample.arange [2; 3]%nat) eq_refl eq_refl)
      as (Hkernel & _ & _).
    destruct (Hkernel 2 3 eq_refl eq_refl)%nat as (w & Hf & _ & Hsh & Hel).
    exists w. split_and!; [exact Hf|exact Hsh|].
    apply (Hel 0 1)%nat; lia.
  - exact (proj1 (proj2 (siglip_mlp Sample.vision
                           "SigLiPFromPatches_0/siglip_encoder/Transformer/encoderblock_3/MlpBlock_0/Dense_0"
                           "scale" (Sample.arange [3%nat]) eq_refl eq_refl))).
Defined.


(** A value bias of three elements with hidden size 2: the leaf has a
    rule, and NumPy's reshape raises a [ValueError]. *)
Lemma siglip_raises_value_error_only_witness :
  siglip_recognizedb
    "SigLiPFromPatches_0/siglip_encoder/Transformer/encoderblock_3/MultiHeadDotProductAttention_0/value"
    "bias" = true ∧
  _convert_siglip_weight Sample.vision
    ["SigLiPFromPatches_0/siglip_encoder/Transformer/encoderblock_3/MultiHeadDotProductAttention_0/value";
     "bias"] (Sample.arange [3%nat]) = Raise (ReshapeError 3 [-1; 2]) ∧
  class_of (ReshapeError 3 [-1; 2]) = PyValueError.
Proof.
  split_and!; [reflexivity|reflexivity|].
  apply (proj2 (proj2 (siglip_raises_value_error_only Sample.vision
                         "" ""
                         ["SigLiPFromPatches_0/siglip_encoder/Transformer/encoderblock_3/MultiHeadDotProductAttention_0/value";
                          "bias"] (Sample.arange [3%nat])))).
  reflexivity.
Defined.

(** The key projection's kernel keeps its six elements. *)
Lemma siglip_rules_conserve_witness :
  _convert_siglip_weight Sample.vision [Sample.attention_key_path; "kernel"]
    (Sample.arange [2; 1; 3]%nat) =
    Ok ("vision_model.vision_model.encoder.layers.3.self_attn.k_proj.weight",
        NDArray bfloat16 [2; 3]%nat [0; 2; 4; 1; 3; 5]) ∧
  np_size (NDArray bfloat16 [2; 3]%nat [0; 2; 4; 1; 3; 5]) =
    np_size (Sample.arange [2; 1; 3]%nat).
Proof.
  split; [reflexivity|].
  exact (proj2 (proj2 (siglip_rules_conserve Sample.vision
                         [Sample.attention_key_path; "kernel"]
                         (Sample.arange [2; 1; 3]%nat) _ _ eq_refl))).
Defined.

(** A text-only run over the sample tree does not read its two vision
    leaves. *)
Lemma vision_leaves_never_read_witness :
  convert Sample.cast Sample.small_tree Sample.text_only bfloat16 =
  convert Sample.cast
    (filter (λ leaf, is_vision_leaf leaf = false) Sample.small_tree)
    Sample.text_only bfloat16.
Proof.
  apply (vision_leaves_never_read Sample.cast Sample.small_tree
           Sample.text_only bfloat16).
  reflexivity.
Defined.

(** A gate/up leaf with three rows after a norm leaf ends the run. *)
Lemma first_exception_ends_run_witness :
  convert Sample.cast
    ([(["transformer/final_norm"; "scale"], Sample.arange [3%nat])] ++
     (["transformer/layer_0/mlp/gating_einsum"; "w"], Sample.arange [3; 2]%nat)
       :: Sample.small_tree)
    Sample.text_only float32 =
  Raise (UnpackError 2 3).
Proof.
  apply (first_exception_ends_run Sample.cast
           [(["transformer/final_norm"; "scale"], Sample.arange [3%nat])]
           Sample.small_tree
           (["transformer/layer_0/mlp/gating_einsum"; "w"],
            Sample.arange [3; 2]%nat)
           Sample.text_only float32
           [("model.norm.weight", Sample.arange [3%nat])]
           (UnpackError 2 3)); reflexivity.
Defined.

(** Of the two leaves written under the final-norm key, the second is
    the one stored. *)
Lemma last_write_wins_witness :
  ∃ res,
    convert Sample.cast Sample.two_norm_leaves Sample.text_only float32
      = Ok res ∧
    state_tree res !! "model.norm.weight" =
      Some (stored Sample.cast float32 (NDArray float32 [3%nat] [7; 8; 9])).
Proof.
  set (ups := [("model.norm.weight", Sample.arange [3%nat]);
               ("model.norm.weight", NDArray float32 [3%nat] [7; 8; 9])]).
  set (res := {| state_tree := apply_updates Sample.cast float32 ∅ ups;
                 config_of := Sample.text_only |}).
  assert (convert Sample.cast Sample.two_norm_leaves Sample.text_only float32
          = Ok res) as Hc.
  { unfold convert. rewrite convert_loop_emitted. reflexivity. }
  exists res. split; [exact Hc|].
  exact (last_write_wins Sample.cast Sample.two_norm_leaves Sample.text_only
           float32 res ups "model.norm.weight" Hc eq_refl).
Defined.

(** A multimodal run over a text leaf and a vision leaf: the vision key
    lies under the vision wrapper. *)
Lemma multimodal_key_namespaces_witness :
  ∃ res,
    convert Sample.cast Sample.norm_and_vision Sample.multimodal float32
      = Ok res ∧
    is_Some (state_tree res !!
               "vision_model.vision_model.encoder.layers.3.self_attn.k_proj.weight") ∧
    PyStr.startswith
      "vision_model.vision_model.encoder.layers.3.self_attn.k_proj.weight"
      "vision_model.vision_model." = true.
Proof.
  set (res := {| state_tree :=
                   apply_updates Sample.cast float32 ∅
                     [("language_model.model.norm.weight", Sample.arange [3%nat]);
                      ("vision_model.vision_model.encoder.layers.3.self_attn.k_proj.weight",
                       NDArray bfloat16 [2; 3]%nat [0; 2; 4; 1; 3; 5])];
                 config_of := Sample.multimodal |}).
  assert (convert Sample.cast Sample.norm_and_vision Sample.multimodal float32
          = Ok res) as Hc.
  { unfold convert. rewrite convert_loop_emitted. reflexivity. }
  assert (is_Some (state_tree res !!
            "vision_model.vision_model.encoder.layers.3.self_attn.k_proj.weight"))
    as Hsome.
  { apply apply_updates_is_Some. right. right. left. }
  destruct (multimodal_key_namespaces Sample.cast Sample.norm_and_vision
              Sample.multimodal Sample.vision float32 res _ eq_refl Hc Hsome)
    as [Hl|Hv]; [discriminate Hl|].
  exists res. split_and!; [exact Hc|exact Hsome|exact Hv].
Defined.

(** [transpose_reshape] on a (2, 2, 3) tensor. *)
Lemma transpose_reshape_rank3_witness :
  ∃ y,
    transpose_reshape (Tensor float32 [2; 2; 3]%nat (Z.of_nat <$> seq 0 12))
      = Ok y ∧
    t_shape y = [6; 2]%nat ∧
    t_data y !! 1%nat = Some 3.
Proof.
  destruct (transpose_reshape_rank3
              (Tensor float32 [2; 2; 3]%nat (Z.of_nat <$> seq 0 12)) 2 2 3)
    as (y & Hf & _ & Hsh & _ & Hel); try reflexivity.
  exists y. split_and!; [exact Hf|exact Hsh|].
  apply (Hel 0 1 0)%nat; lia.
Defined.

(** [transpose_reshape] on a matrix. *)
Lemma transpose_reshape_needs_rank3_witness :
  transpose_reshape (Tensor float32 [2; 3]%nat (Z.of_nat <$> seq 0 6))
    = Raise IndexError.
Proof.
  apply (transpose_reshape_needs_rank3
           (Tensor float32 [2; 3]%nat (Z.of_nat <$> seq 0 6))).
  simpl. lia.
Defined.

(** A gate/up leaf holding a 1-d array of two elements ends the run with
    a [TypeError]. *)
Lemma scalar_rows_end_run_witness :
  convert Sample.cast
    ([(["transformer/final_norm"; "scale"], Sample.arange [3%nat])] ++
     (["transformer/layer_0/mlp/gating_einsum"; "w"], Sample.arange [2%nat])
       :: Sample.small_tree)
    Sample.text_only float32 =
  Raise FromNumpyError.
Proof.
  refine (proj1 (proj2 (scalar_rows_end_run Sample.cast
            [(["transformer/final_norm"; "scale"], Sample.arange [3%nat])]
            Sample.small_tree
            "transformer/layer_0/mlp/gating_einsum" "w"
            (Sample.arange [2%nat]) Sample.text_only float32
            [("model.norm.weight", Sample.arange [3%nat])]
            eq_refl eq_refl eq_refl eq_refl))).
Defined.
